(** * MediMind backend (server.js): section extraction and HTTP handlers

    A shallow embedding of [server.js].  JavaScript strings are sequences of
    UTF-16 code units; the six regular expressions of [parseAgentResponse]
    are kept as syntax and run by a backtracking matcher written after the
    pattern semantics of ECMA-262 (continuation passing, one capture group).
    The three request handlers are programs over the two outbound services
    (the chat-completion endpoint and the case store). *)

From Stdlib Require Import List NArith ZArith Bool String Ascii Lia.
From Stdlib Require Import Floats.SpecFloat.
From Stdlib Require DecimalString.
Import ListNotations.

Set Implicit Arguments.

(* ================================================================== *)
(** * Strings *)

Module JsString.

(** A UTF-16 code unit (0 .. 0xFFFF). *)
Definition code_unit := N.

Definition jsstring := list code_unit.

(** ASCII text of the source file as code units. *)
Definition u (s : string) : jsstring :=
  map N_of_ascii (list_ascii_of_string s).

(** UTF-16 encoding of one code point, as the source file's emoji are
    stored in a JavaScript string. *)
Definition utf16 (cp : N) : jsstring :=
  if (cp <? 0x10000)%N then [cp]
  else let v := (cp - 0x10000)%N in
       [(0xD800 + N.shiftr v 10)%N; (0xDC00 + N.land v 0x3FF)%N].

(** WhiteSpace and LineTerminator of ECMA-262: the characters of the
    pattern class [\s] and the ones [String.prototype.trim] removes. *)
Definition isWhiteSpace (c : code_unit) : bool :=
  ((9 <=? c) && (c <=? 13) || (c =? 32) || (c =? 0xA0) || (c =? 0x1680)
   || (0x2000 <=? c) && (c <=? 0x200A) || (c =? 0x2028) || (c =? 0x2029)
   || (c =? 0x202F) || (c =? 0x205F) || (c =? 0x3000) || (c =? 0xFEFF))%N.

Fixpoint dropWhile (p : code_unit -> bool) (s : jsstring) : jsstring :=
  match s with
  | c :: s' => if p c then dropWhile p s' else s
  | [] => []
  end.

Definition trimStart (s : jsstring) : jsstring := dropWhile isWhiteSpace s.

Definition trimEnd (s : jsstring) : jsstring :=
  rev (dropWhile isWhiteSpace (rev s)).

(** [String.prototype.trim]. *)
Definition trim (s : jsstring) : jsstring := trimEnd (trimStart s).

Definition isEmpty (s : jsstring) : bool :=
  match s with [] => true | _ :: _ => false end.

End JsString.
Import JsString.

(* ================================================================== *)
(** * Regular expressions *)

Module RegExp.

(** The character sets the six patterns use: a literal character, the
    class [\s], and [[\s\S]]. *)
Inductive CharSet : Type :=
| CsChar (c : code_unit)
| CsSpace
| CsAll.

(** Pattern syntax.  Quantifiers are applied to character sets only, as in
    every pattern of the source; there is one capture group. *)
Inductive Regex : Type :=
| Empty
| Atom (cs : CharSet)
| Seq (r1 r2 : Regex)
| Disj (r1 r2 : Regex)
| Star (greedy : bool) (cs : CharSet)
| Opt (cs : CharSet)
| Group (r : Regex)
| Lookahead (r : Regex)
| AssertEnd.

(** Canonicalize of ECMA-262 for a pattern without the [u] flag: the
    character's upper case when that is a single code unit, except that a
    code unit of 128 or more is never mapped below 128.  The patterns here
    hold ASCII characters, surrogate halves and U+FE0F only; against those
    a subject character compares equal after canonicalisation exactly when
    it does after ASCII upper-casing, which is what is written out. *)
Definition Canonicalize (ignoreCase : bool) (c : code_unit) : code_unit :=
  if ignoreCase && (97 <=? c)%N && (c <=? 122)%N then (c - 32)%N else c.

Definition CharSetMatches (ignoreCase : bool) (cs : CharSet) (x : code_unit)
  : bool :=
  match cs with
  | CsChar c => (Canonicalize ignoreCase x =? Canonicalize ignoreCase c)%N
  | CsSpace => isWhiteSpace x
  | CsAll => true
  end.

(** The state of a match: the input from the current end index on, and
    the text of capture group 1 if it has taken part. *)
Record MatchState : Type := mkState {
  rest : jsstring;
  capture : option jsstring
}.

Definition Continuation := MatchState -> option MatchState.

(** The input between two positions of a match, given as the suffixes that
    start there. *)
Definition between (from to : jsstring) : jsstring :=
  firstn (List.length from - List.length to) from.

(** RepeatMatcher for [cs*] (greedy) and [cs*?] (lazy). *)
Fixpoint RepeatMatcher (ignoreCase greedy : bool) (cs : CharSet)
    (c : Continuation) (cap : option jsstring) (s : jsstring)
  : option MatchState :=
  match s with
  | [] => c (mkState [] cap)
  | x :: s' =>
      if CharSetMatches ignoreCase cs x then
        if greedy then
          match RepeatMatcher ignoreCase greedy cs c cap s' with
          | Some y => Some y
          | None => c (mkState s cap)
          end
        else
          match c (mkState s cap) with
          | Some y => Some y
          | None => RepeatMatcher ignoreCase greedy cs c cap s'
          end
      else c (mkState s cap)
  end.

(** The matcher of a pattern: [m r x c] runs [r] from state [x] and calls
    the continuation [c] on each way [r] can match, in the order of the
    backtracking search, until one succeeds. *)
Fixpoint m (ignoreCase : bool) (r : Regex) (x : MatchState)
    (c : Continuation) : option MatchState :=
  match r with
  | Empty => c x
  | Atom cs =>
      match rest x with
      | ch :: s' =>
          if CharSetMatches ignoreCase cs ch
          then c (mkState s' (capture x)) else None
      | [] => None
      end
  | Seq r1 r2 => m ignoreCase r1 x (fun y => m ignoreCase r2 y c)
  | Disj r1 r2 =>
      match m ignoreCase r1 x c with
      | Some y => Some y
      | None => m ignoreCase r2 x c
      end
  | Star greedy cs =>
      RepeatMatcher ignoreCase greedy cs c (capture x) (rest x)
  | Opt cs =>
      match
        match rest x with
        | ch :: s' =>
            if CharSetMatches ignoreCase cs ch
            then c (mkState s' (capture x)) else None
        | [] => None
        end
      with
      | Some y => Some y
      | None => c x
      end
  | Group r1 =>
      m ignoreCase r1 x
        (fun y => c (mkState (rest y) (Some (between (rest x) (rest y)))))
  | Lookahead r1 =>
      match m ignoreCase r1 x (fun y => Some y) with
      | Some y => c (mkState (rest x) (capture y))
      | None => None
      end
  | AssertEnd =>
      match rest x with
      | [] => c x
      | _ :: _ => None
      end
  end.

(** A regular expression object: pattern and the [i] flag. *)
Record t : Type := mkRegExp {
  pattern : Regex;
  ignoreCase : bool
}.

(** RegExpBuiltinExec without the [g] and [y] flags: the match is tried at
    index 0, then 1, ... up to and including the length of the input. *)
Fixpoint exec (re : t) (s : jsstring) : option MatchState :=
  match m (ignoreCase re) (pattern re) (mkState s None) (fun y => Some y) with
  | Some y => Some y
  | None =>
      match s with
      | [] => None
      | _ :: s' => exec re s'
      end
  end.

(** A run of literal characters. *)
Fixpoint lit (w : jsstring) : Regex :=
  match w with
  | [] => Empty
  | c :: w' => Seq (Atom (CsChar c)) (lit w')
  end.

End RegExp.
Import RegExp.

(* ================================================================== *)
(** * The section extractor *)

Module Extractor.

(** A JavaScript object with string values, in property order. *)
Definition object := list (string * jsstring).

Fixpoint obj_get (o : object) (key : string) : option jsstring :=
  match o with
  | [] => None
  | (k, v) :: o' => if String.eqb k key then Some v else obj_get o' key
  end.

(** [o[key] = v]: an existing property keeps its place, a new one is
    added at the end. *)
Fixpoint obj_set (o : object) (key : string) (v : jsstring) : object :=
  match o with
  | [] => [(key, v)]
  | (k, v0) :: o' =>
      if String.eqb k key then (k, v) :: o' else (k, v0) :: obj_set o' key v
  end.

Definition keys {A : Type} (o : list (string * A)) : list string :=
  map fst o.

(** The emoji of the six markers. *)
Definition glyph_symptom : jsstring := utf16 0x1F50D.
Definition glyph_risk : jsstring := utf16 0x1F4CA.
Definition glyph_fraud : jsstring := utf16 0x1F6E1 ++ utf16 0xFE0F.
Definition glyph_security : jsstring := utf16 0x1F510.
Definition glyph_coordinator : jsstring := utf16 0x1F916.
Definition glyph_recommendations : jsstring := utf16 0x1F48A.

(** [w1|w2|...|$] *)
Definition boundary (ws : list jsstring) : Regex :=
  fold_right (fun w r => Disj (lit w) r) AssertEnd ws.

(** [glyph\s*LABEL:?\s*([\s\S]*?)tail] *)
Definition section_pattern (glyph label : jsstring) (tail : Regex) : Regex :=
  Seq (lit glyph)
   (Seq (Star true CsSpace)
    (Seq (lit label)
     (Seq (Opt (CsChar 58%N))
      (Seq (Star true CsSpace)
       (Seq (Group (Star false CsAll)) tail))))).

(** What ends each section: the alternatives of the pattern's lookahead. *)
Definition stops_symptom : list jsstring :=
  [glyph_risk; u "RISK_PREDICTOR"; glyph_fraud; u "FRAUD_DETECTOR";
   glyph_security; u "SECURITY_GUARDIAN"; glyph_coordinator; u "COORDINATOR";
   glyph_recommendations; u "RECOMMENDATIONS"].
Definition stops_risk : list jsstring :=
  [glyph_fraud; u "FRAUD_DETECTOR"; glyph_security; u "SECURITY_GUARDIAN";
   glyph_coordinator; u "COORDINATOR"; glyph_recommendations;
   u "RECOMMENDATIONS"].
Definition stops_fraud : list jsstring :=
  [glyph_security; u "SECURITY_GUARDIAN"; glyph_coordinator; u "COORDINATOR";
   glyph_recommendations; u "RECOMMENDATIONS"].
Definition stops_security : list jsstring :=
  [glyph_coordinator; u "COORDINATOR"; glyph_recommendations;
   u "RECOMMENDATIONS"].
Definition stops_coordinator : list jsstring :=
  [glyph_recommendations; u "RECOMMENDATIONS"].

(** The table [sections] of [parseAgentResponse]; every pattern has the
    flag [i]. *)
Definition sections : list (string * RegExp.t) :=
  [ ("symptom"%string,
     mkRegExp (section_pattern glyph_symptom (u "SYMPTOM_ANALYZER")
                 (Lookahead (boundary stops_symptom))) true);
    ("risk"%string,
     mkRegExp (section_pattern glyph_risk (u "RISK_PREDICTOR")
                 (Lookahead (boundary stops_risk))) true);
    ("fraud"%string,
     mkRegExp (section_pattern glyph_fraud (u "FRAUD_DETECTOR")
                 (Lookahead (boundary stops_fraud))) true);
    ("security"%string,
     mkRegExp (section_pattern glyph_security (u "SECURITY_GUARDIAN")
                 (Lookahead (boundary stops_security))) true);
    ("coordinator"%string,
     mkRegExp (section_pattern glyph_coordinator (u "COORDINATOR_INSIGHTS")
                 (Lookahead (boundary stops_coordinator))) true);
    ("recommendations"%string,
     mkRegExp (section_pattern glyph_recommendations (u "RECOMMENDATIONS")
                 AssertEnd) true) ].

(** The initial value of [agents]. *)
Definition agents0 : object :=
  [ ("symptom"%string, []); ("risk"%string, []); ("fraud"%string, []);
    ("security"%string, []); ("coordinator"%string, []);
    ("recommendations"%string, []) ].

(** One turn of the [forEach]: [response.match(sections[key])], and the
    assignment when the match exists and its group 1 is a non-empty
    string. *)
Definition extract_key (response : jsstring) (agents : object)
    (entry : string * RegExp.t) : object :=
  match exec (snd entry) response with
  | Some y =>
      match capture y with
      | Some text =>
          if isEmpty text then agents
          else obj_set agents (fst entry) (trim text)
      | None => agents
      end
  | None => agents
  end.

Definition parseAgentResponse (response : jsstring) : object :=
  fold_left (extract_key response) sections agents0.

End Extractor.
Import Extractor.

(* ================================================================== *)
(** * What the patterns compute *)

Module MatchSpec.

(** [strip ic w s]: the input left after [w], when [s] begins with [w] up
    to the case of ASCII letters. *)
Fixpoint strip (ic : bool) (w s : jsstring) : option jsstring :=
  match w with
  | [] => Some s
  | c :: w' =>
      match s with
      | x :: s' =>
          if CharSetMatches ic (CsChar c) x then strip ic w' s' else None
      | [] => None
      end
  end.

(** Some alternative of [w1|...|$] matches at [s]. *)
Definition stop_here (ic : bool) (ws : list jsstring) (s : jsstring) : bool :=
  existsb (fun w => match strip ic w s with Some _ => true | None => false end)
    ws
  || isEmpty s.

(** The first suffix of [s] at which [p] holds, the empty one at the
    latest. *)
Fixpoint first_stop (p : jsstring -> bool) (s : jsstring) : jsstring :=
  match s with
  | [] => []
  | _ :: s' => if p s then s else first_stop p s'
  end.

Definition skip_colon (s : jsstring) : jsstring :=
  match s with
  | c :: s' => if (c =? 58)%N then s' else s
  | [] => s
  end.

(** The input after the start marker [glyph\s*LABEL], when [s] begins
    with one. *)
Definition marker_end (glyph label s : jsstring) : option jsstring :=
  match strip true glyph s with
  | Some s1 => strip true label (dropWhile isWhiteSpace s1)
  | None => None
  end.

(** Where capture group 1 starts, given the input after the marker. *)
Definition body_start (s : jsstring) : jsstring :=
  dropWhile isWhiteSpace (skip_colon s).

(** The input after the first start marker in [s], when there is one. *)
Fixpoint find_marker (glyph label s : jsstring) : option jsstring :=
  match marker_end glyph label s with
  | Some s3 => Some s3
  | None =>
      match s with
      | [] => None
      | _ :: s' => find_marker glyph label s'
      end
  end.

Lemma m_lit ic w s cap c :
  m ic (lit w) (mkState s cap) c =
  match strip ic w s with
  | Some s' => c (mkState s' cap)
  | None => None
  end.
Proof.
  revert s. induction w as [|a w IH]; intros s; simpl; [reflexivity|].
  destruct s as [|x s]; [reflexivity|].
  destruct (Canonicalize ic x =? Canonicalize ic a)%N; [apply IH|reflexivity].
Qed.

Lemma m_boundary ic ws s cap :
  m ic (boundary ws) (mkState s cap) (fun y => Some y) =
  if stop_here ic ws s
  then m ic (boundary ws) (mkState s cap) (fun y => Some y)
  else None.
Proof.
  destruct (stop_here ic ws s) eqn:E; [reflexivity|].
  unfold stop_here in E. apply orb_false_iff in E. destruct E as [E1 E2].
  induction ws as [|w ws IH]; simpl.
  - destruct s; [discriminate|reflexivity].
  - simpl in E1. apply orb_false_iff in E1. destruct E1 as [Ew E1].
    rewrite m_lit. destruct (strip ic w s); [discriminate|]. now apply IH.
Qed.

Lemma m_boundary_capture ic ws s cap y :
  m ic (boundary ws) (mkState s cap) (fun y => Some y) = Some y ->
  capture y = cap.
Proof.
  induction ws as [|w ws IH]; simpl.
  - destruct s; [|discriminate]. intros [= <-]. reflexivity.
  - rewrite m_lit. destruct (strip ic w s).
    + intros [= <-]. reflexivity.
    + apply IH.
Qed.

Lemma m_boundary_some ic ws s cap :
  stop_here ic ws s = true ->
  exists y, m ic (boundary ws) (mkState s cap) (fun y => Some y) = Some y.
Proof.
  unfold stop_here. induction ws as [|w ws IH]; simpl; intros H.
  - destruct s; [eauto|discriminate].
  - rewrite m_lit. destruct (strip ic w s); [eauto|]. simpl in H. auto.
Qed.

(** A tail of a section pattern: it consumes nothing and succeeds exactly
    at the stops. *)
Definition tail_of (ic : bool) (stops : list jsstring) (T : Regex) : Prop :=
  forall s cap,
    m ic T (mkState s cap) (fun y => Some y) =
    if stop_here ic stops s then Some (mkState s cap) else None.

Lemma tail_lookahead ic stops : tail_of ic stops (Lookahead (boundary stops)).
Proof.
  intros s cap. simpl.
  destruct (stop_here ic stops s) eqn:E.
  - destruct (m_boundary_some ic stops s cap E) as [y Hy]. rewrite Hy.
    now rewrite (m_boundary_capture _ _ _ _ Hy).
  - rewrite m_boundary, E. reflexivity.
Qed.

Lemma tail_end ic : tail_of ic [] AssertEnd.
Proof. intros [|x s] cap; reflexivity. Qed.

Lemma repeat_lazy_all ic (P : jsstring -> bool) (g : jsstring -> MatchState)
    (c : Continuation) cap s :
  (forall t, c (mkState t cap) = if P t then Some (g t) else None) ->
  P [] = true ->
  RepeatMatcher ic false CsAll c cap s = Some (g (first_stop P s)).
Proof.
  intros Hc Hnil. induction s as [|x s IH]; simpl.
  - now rewrite Hc, Hnil.
  - rewrite Hc. destruct (P (x :: s)); [reflexivity|exact IH].
Qed.

Lemma repeat_greedy_some ic (c : Continuation) cap s y :
  c (mkState (dropWhile isWhiteSpace s) cap) = Some y ->
  RepeatMatcher ic true CsSpace c cap s = Some y.
Proof.
  induction s as [|x s IH]; simpl; intros H; [exact H|].
  destruct (isWhiteSpace x); [|exact H]. now rewrite (IH H).
Qed.

Lemma repeat_greedy_none ic (c : Continuation) cap s :
  c (mkState (dropWhile isWhiteSpace s) cap) = None ->
  (forall x t, isWhiteSpace x = true -> c (mkState (x :: t) cap) = None) ->
  RepeatMatcher ic true CsSpace c cap s = None.
Proof.
  intros H Hws. induction s as [|x s IH]; simpl in *; [exact H|].
  destruct (isWhiteSpace x) eqn:E; [|exact H].
  rewrite (IH H). now apply Hws.
Qed.

Lemma stop_here_nil ic stops : stop_here ic stops [] = true.
Proof. unfold stop_here. apply orb_true_r. Qed.

Lemma body_match stops T s cap :
  tail_of true stops T ->
  m true (Seq (Group (Star false CsAll)) T) (mkState s cap)
    (fun y => Some y) =
  let e := first_stop (stop_here true stops) s in
  Some (mkState e (Some (between s e))).
Proof.
  intros HT. cbn [m rest capture].
  apply (repeat_lazy_all true (stop_here true stops)
           (fun t => mkState t (Some (between s t)))).
  - intros t. cbn [rest]. apply HT.
  - apply stop_here_nil.
Qed.

Lemma colon_matches x : CharSetMatches true (CsChar 58%N) x = (x =? 58)%N.
Proof.
  unfold CharSetMatches, Canonicalize. cbn [andb].
  destruct ((97 <=? x)%N && (x <=? 122)%N) eqn:E; [|reflexivity].
  apply andb_true_iff in E. destruct E as [E1 E2].
  apply N.leb_le in E1, E2. cbn.
  destruct (N.eqb_spec (x - 32) 58), (N.eqb_spec x 58); try reflexivity; lia.
Qed.

Lemma lead_match stops T s cap :
  tail_of true stops T ->
  m true
    (Seq (Opt (CsChar 58%N))
      (Seq (Star true CsSpace) (Seq (Group (Star false CsAll)) T)))
    (mkState s cap) (fun y => Some y) =
  let b := body_start s in
  let e := first_stop (stop_here true stops) b in
  Some (mkState e (Some (between b e))).
Proof.
  intros HT.
  assert (K : forall t,
    m true (Seq (Star true CsSpace) (Seq (Group (Star false CsAll)) T))
      (mkState t cap) (fun y => Some y) =
    let b := dropWhile isWhiteSpace t in
    let e := first_stop (stop_here true stops) b in
    Some (mkState e (Some (between b e)))).
  { intros t. cbn [m rest capture]. apply repeat_greedy_some.
    exact (body_match (dropWhile isWhiteSpace t) cap HT). }
  unfold body_start, skip_colon. destruct s as [|x s].
  - exact (K []).
  - change (match
              (if CharSetMatches true (CsChar 58%N) x
               then m true
                      (Seq (Star true CsSpace)
                         (Seq (Group (Star false CsAll)) T))
                      (mkState s cap) (fun y => Some y)
               else None)
            with
            | Some y => Some y
            | None =>
                m true
                  (Seq (Star true CsSpace) (Seq (Group (Star false CsAll)) T))
                  (mkState (x :: s) cap) (fun y => Some y)
            end =
            (let b := dropWhile isWhiteSpace (if (x =? 58)%N then s else x :: s) in
             let e := first_stop (stop_here true stops) b in
             Some (mkState e (Some (between b e))))).
    rewrite colon_matches. destruct (x =? 58)%N.
    + rewrite K. reflexivity.
    + exact (K (x :: s)).
Qed.

(** The label of a marker does not begin with what [\s] matches. *)
Definition solid (label : jsstring) : Prop :=
  exists c0 l, label = c0 :: l /\
    forall x, isWhiteSpace x = true -> CharSetMatches true (CsChar c0) x = false.

Lemma strip_solid_space label x t :
  solid label -> isWhiteSpace x = true -> strip true label (x :: t) = None.
Proof.
  intros (c0 & l & -> & H) Hx. simpl. simpl in H. now rewrite (H x Hx).
Qed.

Lemma section_match_here glyph label stops T s :
  tail_of true stops T -> solid label ->
  m true (section_pattern glyph label T) (mkState s None) (fun y => Some y) =
  match marker_end glyph label s with
  | Some s3 =>
      let b := body_start s3 in
      let e := first_stop (stop_here true stops) b in
      Some (mkState e (Some (between b e)))
  | None => None
  end.
Proof.
  intros HT Hl. unfold section_pattern, marker_end.
  change (m true (Seq (lit glyph) ?R) ?x ?c)
    with (m true (lit glyph) x (fun y => m true R y c)).
  rewrite m_lit. destruct (strip true glyph s) as [s1|]; [|reflexivity].
  change (m true (Seq (Star true CsSpace) ?R) ?x ?c)
    with (RepeatMatcher true true CsSpace (fun y => m true R y c)
            (capture x) (rest x)).
  cbn [rest capture].
  assert (K : forall t,
    m true (Seq (lit label)
             (Seq (Opt (CsChar 58%N))
               (Seq (Star true CsSpace) (Seq (Group (Star false CsAll)) T))))
      (mkState t None) (fun y => Some y) =
    match strip true label t with
    | Some s3 =>
        let b := body_start s3 in
        let e := first_stop (stop_here true stops) b in
        Some (mkState e (Some (between b e)))
    | None => None
    end).
  { intros t.
    change (m true (Seq (lit label) ?R) ?x ?c)
      with (m true (lit label) x (fun y => m true R y c)).
    rewrite m_lit. destruct (strip true label t); [|reflexivity].
    now apply lead_match. }
  destruct (strip true label (dropWhile isWhiteSpace s1)) as [s3|] eqn:E.
  - apply repeat_greedy_some. rewrite K, E. reflexivity.
  - apply repeat_greedy_none.
    + rewrite K, E. reflexivity.
    + intros x t Hx. rewrite K. now rewrite strip_solid_space.
Qed.

Lemma exec_section glyph label stops T r :
  tail_of true stops T -> solid label ->
  exec (mkRegExp (section_pattern glyph label T) true) r =
  match find_marker glyph label r with
  | Some s3 =>
      let b := body_start s3 in
      let e := first_stop (stop_here true stops) b in
      Some (mkState e (Some (between b e)))
  | None => None
  end.
Proof.
  intros HT Hl. induction r as [|x r IH].
  - cbn [exec pattern ignoreCase find_marker].
    rewrite (section_match_here glyph [] HT Hl).
    destruct (marker_end glyph label []); reflexivity.
  - cbn [exec pattern ignoreCase find_marker].
    rewrite (section_match_here glyph (x :: r) HT Hl).
    destruct (marker_end glyph label (x :: r)); [reflexivity|exact IH].
Qed.

End MatchSpec.
Import MatchSpec.

(* ================================================================== *)
(** * Replies and their markers, in words *)

Module Reply.

(** The same text up to the case of ASCII letters. *)
Definition same_letters (a b : jsstring) : Prop :=
  Forall2 (fun x y => Canonicalize true x = Canonicalize true y) a b.

Definition all_space (w : jsstring) : Prop :=
  Forall (fun c => isWhiteSpace c = true) w.

(** [s] begins with a text that satisfies [P]. *)
Definition begins_with (P : jsstring -> Prop) (s : jsstring) : Prop :=
  exists a t, s = a ++ t /\ P a.

(** In the text [pre ++ s], the suffix [s] is the first one with [P]. *)
Definition first_suffix (P : jsstring -> Prop) (pre s : jsstring) : Prop :=
  P s /\ forall p1 p2, pre = p1 ++ p2 -> p2 <> [] -> ~ P (p2 ++ s).

(** A start marker: the glyph, optional white space, the label in any
    case. *)
Definition is_marker (glyph label mk : jsstring) : Prop :=
  exists ws lab,
    mk = glyph ++ ws ++ lab /\ all_space ws /\ same_letters lab label.

(** The reply contains the start marker. *)
Definition has_marker (glyph label r : jsstring) : Prop :=
  exists pre s, r = pre ++ s /\ begins_with (is_marker glyph label) s.

(** An optional colon and the white space after it, as much as there is
    of both, in front of [after]. *)
Definition is_lead (ld after : jsstring) : Prop :=
  exists colon ws,
    ld = colon ++ ws /\ all_space ws /\
    (colon = [58%N] \/ colon = [] /\ forall t, ws ++ after <> 58%N :: t) /\
    (forall c t, after = c :: t -> isWhiteSpace c = false).

(** One of the words [stops], in any case. *)
Definition is_stop (stops : list jsstring) (w : jsstring) : Prop :=
  exists st, In st stops /\ same_letters w st.

(** The end of the input, or the beginning of a stop word. *)
Definition at_stop (stops : list jsstring) (s : jsstring) : Prop :=
  s = [] \/ begins_with (is_stop stops) s.

Lemma strip_some w s s' :
  strip true w s = Some s' -> exists a, s = a ++ s' /\ same_letters a w.
Proof.
  revert s. induction w as [|c w IH]; simpl; intros s H.
  - injection H as <-. exists []. split; [reflexivity|constructor].
  - destruct s as [|x s]; [discriminate|].
    destruct (N.eqb_spec (Canonicalize true x) (Canonicalize true c)) as [E|];
      [|discriminate].
    destruct (IH _ H) as (a & -> & Ha).
    exists (x :: a). split; [reflexivity|now constructor].
Qed.

Lemma strip_same a w s' :
  same_letters a w -> strip true w (a ++ s') = Some s'.
Proof.
  induction 1 as [|x c a w E _ IH]; simpl; [reflexivity|].
  rewrite E, N.eqb_refl. exact IH.
Qed.

Lemma dropWhile_split p s :
  exists ws, s = ws ++ dropWhile p s /\ Forall (fun c => p c = true) ws.
Proof.
  induction s as [|x s (ws & E & F)]; simpl.
  - exists []. split; [reflexivity|constructor].
  - destruct (p x) eqn:Px.
    + exists (x :: ws). split; [simpl; congruence|now constructor].
    + exists []. split; [reflexivity|constructor].
Qed.

Lemma dropWhile_head p s c t : dropWhile p s = c :: t -> p c = false.
Proof.
  induction s as [|x s IH]; simpl; [discriminate|].
  destruct (p x) eqn:Px; [exact IH|]. now intros [= <- _].
Qed.

Lemma dropWhile_app p ws s :
  Forall (fun c => p c = true) ws ->
  (forall c t, s = c :: t -> p c = false) ->
  dropWhile p (ws ++ s) = s.
Proof.
  intros F H. induction F as [|x ws Px _ IH]; simpl.
  - destruct s as [|c t]; [reflexivity|]. simpl. now rewrite (H c t eq_refl).
  - now rewrite Px.
Qed.

Lemma between_app body e : between (body ++ e) e = body.
Proof.
  unfold between. rewrite length_app.
  replace (List.length body + List.length e - List.length e)
    with (List.length body + 0) by lia.
  rewrite firstn_app_2. simpl. apply app_nil_r.
Qed.

Lemma first_stop_spec (P : jsstring -> bool) s :
  P [] = true ->
  exists body,
    s = body ++ first_stop P s /\
    P (first_stop P s) = true /\
    forall b1 b2, body = b1 ++ b2 -> b2 <> [] ->
      P (b2 ++ first_stop P s) = false.
Proof.
  intros Hnil. induction s as [|x s (body & E & He & Hb)]; simpl.
  - exists []. repeat split; auto.
    intros b1 b2 H. symmetry in H. apply app_eq_nil in H. tauto.
  - destruct (P (x :: s)) eqn:Px.
    + exists []. repeat split; auto.
      intros b1 b2 H. symmetry in H. apply app_eq_nil in H. tauto.
    + exists (x :: body). split; [simpl; congruence|]. split; [exact He|].
      intros [|y b1] b2 H Hne; simpl in H.
      * subst b2. simpl. now rewrite <- E.
      * injection H as _ H. now apply (Hb b1 b2).
Qed.

Lemma stop_here_iff stops s :
  stop_here true stops s = true <-> at_stop stops s.
Proof.
  unfold stop_here, at_stop. split.
  - intros H. apply orb_true_iff in H. destruct H as [H|H].
    + right. apply existsb_exists in H. destruct H as (w & Hw & Hs).
      destruct (strip true w s) as [s'|] eqn:E; [|discriminate].
      destruct (strip_some _ _ E) as (a & -> & Ha).
      exists a, s'. split; [reflexivity|]. now exists w.
    + left. destruct s; [reflexivity|discriminate].
  - intros [->|(a & t & -> & w & Hw & Ha)].
    + apply orb_true_r.
    + apply orb_true_iff. left. apply existsb_exists. exists w.
      split; [exact Hw|]. now rewrite (strip_same t Ha).
Qed.

(** Glyphs hold no character that matching folds: every code unit is
    above the ASCII letters. *)
Definition caseless (w : jsstring) : Prop :=
  forallb (fun c => (122 <? c)%N) w = true.

(** Labels begin with an upper-case ASCII letter. *)
Definition upper_head (label : jsstring) : Prop :=
  match label with
  | c :: _ => ((65 <=? c) && (c <=? 90))%N = true
  | [] => False
  end.

Lemma same_letters_refl a : same_letters a a.
Proof. induction a; constructor; auto. Qed.

Lemma same_letters_caseless a w : caseless w -> same_letters a w -> a = w.
Proof.
  unfold caseless. intros Hw H. induction H as [|x c a w E _ IH]; [reflexivity|].
  simpl in Hw. apply andb_true_iff in Hw. destruct Hw as [Hc Hw].
  rewrite (IH Hw). f_equal. apply N.ltb_lt in Hc.
  unfold Canonicalize in E. cbn [andb] in E.
  destruct ((97 <=? c)%N && (c <=? 122)%N) eqn:Ec.
  { apply andb_true_iff in Ec. destruct Ec as [_ Ec]. apply N.leb_le in Ec. lia. }
  destruct ((97 <=? x)%N && (x <=? 122)%N) eqn:Ex; [|exact E].
  apply andb_true_iff in Ex. destruct Ex as [E1 E2].
  apply N.leb_le in E1, E2. lia.
Qed.

Lemma space_not_letter x :
  isWhiteSpace x = true -> (x < 65 \/ 122 < x)%N.
Proof.
  intros H. destruct (N.ltb_spec x 65) as [|L1]; [now left|].
  destruct (N.ltb_spec 122 x) as [|L2]; [now right|]. exfalso.
  unfold isWhiteSpace in H.
  repeat (apply orb_true_iff in H; destruct H as [H|H]);
    try (apply andb_true_iff in H; destruct H as [H1 H2];
         apply N.leb_le in H1, H2; lia);
    try (apply N.eqb_eq in H; lia).
Qed.

Lemma upper_head_solid label : upper_head label -> solid label.
Proof.
  destruct label as [|c0 l]; [contradiction|]. simpl. intros H.
  exists c0, l. split; [reflexivity|]. intros x Hx.
  apply andb_true_iff in H. destruct H as [H1 H2]. apply N.leb_le in H1, H2.
  apply space_not_letter in Hx.
  unfold CharSetMatches, Canonicalize. cbn [andb].
  destruct ((97 <=? c0)%N && (c0 <=? 122)%N) eqn:Ec.
  { apply andb_true_iff in Ec. destruct Ec as [Ec _]. apply N.leb_le in Ec. lia. }
  destruct ((97 <=? x)%N && (x <=? 122)%N) eqn:Ex.
  { apply andb_true_iff in Ex. destruct Ex as [E1 E2].
    apply N.leb_le in E1, E2. lia. }
  apply N.eqb_neq. lia.
Qed.

Lemma same_letters_head_solid lab label t :
  solid label -> same_letters lab label ->
  forall c' t', lab ++ t = c' :: t' -> isWhiteSpace c' = false.
Proof.
  intros (c0 & l & -> & Hs) H c' t' E.
  inversion H as [|x y a b Exy Hab]; subst. simpl in E. injection E as <- _.
  destruct (isWhiteSpace x) eqn:Wx; [|reflexivity].
  specialize (Hs x Wx). simpl in Hs. rewrite Exy, N.eqb_refl in Hs. discriminate.
Qed.

Lemma marker_end_some glyph label s s3 :
  caseless glyph -> marker_end glyph label s = Some s3 ->
  exists mk, s = mk ++ s3 /\ is_marker glyph label mk.
Proof.
  unfold marker_end. intros Hg H.
  destruct (strip true glyph s) as [s1|] eqn:E1; [|discriminate].
  destruct (strip_some _ _ E1) as (g & -> & Hgl).
  rewrite (same_letters_caseless Hg Hgl).
  destruct (dropWhile_split isWhiteSpace s1) as (ws & E2 & Hws).
  destruct (strip_some _ _ H) as (lab & E3 & Hlab).
  exists (glyph ++ ws ++ lab). split.
  - rewrite <- !app_assoc. f_equal. rewrite E2 at 1. f_equal. exact E3.
  - now exists ws, lab.
Qed.

Lemma marker_end_of glyph label mk t :
  solid label -> is_marker glyph label mk ->
  marker_end glyph label (mk ++ t) = Some t.
Proof.
  intros Hl (ws & lab & -> & Hws & Hlab). unfold marker_end.
  rewrite <- !app_assoc. rewrite (strip_same _ (same_letters_refl glyph)).
  rewrite dropWhile_app; [now apply strip_same|exact Hws|].
  exact (same_letters_head_solid t Hl Hlab).
Qed.

Lemma begins_marker_iff glyph label s :
  caseless glyph -> solid label ->
  begins_with (is_marker glyph label) s <-> marker_end glyph label s <> None.
Proof.
  intros Hg Hl. split.
  - intros (mk & t & -> & Hmk). now rewrite (marker_end_of t Hl Hmk).
  - destruct (marker_end glyph label s) as [s3|] eqn:E; [|congruence].
    intros _. destruct (marker_end_some _ _ Hg E) as (mk & -> & Hmk).
    now exists mk, s3.
Qed.

Lemma find_marker_some glyph label r s3 :
  find_marker glyph label r = Some s3 ->
  exists pre s,
    r = pre ++ s /\ marker_end glyph label s = Some s3 /\
    forall p1 p2, pre = p1 ++ p2 -> p2 <> [] ->
      marker_end glyph label (p2 ++ s) = None.
Proof.
  induction r as [|x r IH]; simpl.
  - destruct (marker_end glyph label []) eqn:E; [|discriminate].
    intros [= <-]. exists [], []. repeat split; auto.
    intros p1 p2 H. symmetry in H. apply app_eq_nil in H. tauto.
  - destruct (marker_end glyph label (x :: r)) eqn:E.
    + intros [= <-]. exists [], (x :: r). repeat split; auto.
      intros p1 p2 H. symmetry in H. apply app_eq_nil in H. tauto.
    + intros H. destruct (IH H) as (pre & s & -> & Hs & Hpre).
      exists (x :: pre), s. repeat split; auto.
      intros [|y p1] p2 Hp Hne; simpl in Hp.
      * subst p2. exact E.
      * injection Hp as _ Hp. now apply (Hpre p1 p2).
Qed.

Lemma find_marker_none glyph label r :
  find_marker glyph label r = None ->
  forall pre s, r = pre ++ s -> marker_end glyph label s = None.
Proof.
  induction r as [|x r IH]; simpl.
  - destruct (marker_end glyph label []) eqn:E; [discriminate|].
    intros _ pre s H. symmetry in H. apply app_eq_nil in H.
    destruct H as [_ ->]. exact E.
  - destruct (marker_end glyph label (x :: r)) eqn:E; [discriminate|].
    intros H [|y pre] s Hs; simpl in Hs.
    + now subst s.
    + injection Hs as _ Hs. now apply (IH H pre).
Qed.

Lemma has_marker_iff glyph label r :
  caseless glyph -> solid label ->
  has_marker glyph label r <-> find_marker glyph label r <> None.
Proof.
  intros Hg Hl. split.
  - intros (pre & s & -> & Hs) H.
    apply (begins_marker_iff s Hg Hl) in Hs.
    now rewrite (@find_marker_none glyph label _ H pre s eq_refl) in Hs.
  - destruct (find_marker glyph label r) as [s3|] eqn:E; [|congruence].
    intros _. destruct (@find_marker_some glyph label r s3 E)
      as (pre & s & -> & Hs & _).
    exists pre, s. split; [reflexivity|].
    apply (begins_marker_iff s Hg Hl). congruence.
Qed.

End Reply.
Import Reply.

(* ================================================================== *)
(** * The extractor, section by section *)

Module Sections.

(** The parts of one entry of [sections]: its key, the glyph and the label
    of its start marker, and the words of its lookahead. *)
Record marker : Type := mkMarker {
  key : string;
  glyph : jsstring;
  label : jsstring;
  stops : list jsstring
}.

Definition marker_table : list marker :=
  [ mkMarker "symptom" glyph_symptom (u "SYMPTOM_ANALYZER") stops_symptom;
    mkMarker "risk" glyph_risk (u "RISK_PREDICTOR") stops_risk;
    mkMarker "fraud" glyph_fraud (u "FRAUD_DETECTOR") stops_fraud;
    mkMarker "security" glyph_security (u "SECURITY_GUARDIAN") stops_security;
    mkMarker "coordinator" glyph_coordinator (u "COORDINATOR_INSIGHTS")
      stops_coordinator;
    mkMarker "recommendations" glyph_recommendations (u "RECOMMENDATIONS") [] ].

(** What [extract_key] leaves under a key. *)
Definition section_value (re : RegExp.t) (r : jsstring) : jsstring :=
  match exec re r with
  | Some y =>
      match capture y with
      | Some text => if isEmpty text then [] else trim text
      | None => []
      end
  | None => []
  end.

Lemma table_sections mk :
  In mk marker_table ->
  caseless (glyph mk) /\ upper_head (label mk) /\
  exists T,
    In (key mk, mkRegExp (section_pattern (glyph mk) (label mk) T) true)
       sections /\
    tail_of true (stops mk) T.
Proof.
  intros H. repeat (destruct H as [<-|H]); try contradiction;
    (split; [reflexivity|split; [reflexivity|]]).
  1-5: eexists; split; [|apply tail_lookahead]; simpl; tauto.
  exists AssertEnd. split; [|apply tail_end]. simpl; tauto.
Qed.

Lemma obj_get_set_same o k v : obj_get (obj_set o k v) k = Some v.
Proof.
  induction o as [|[k0 v0] o IH]; simpl.
  - now rewrite String.eqb_refl.
  - destruct (String.eqb k0 k) eqn:E; simpl; now rewrite E.
Qed.

Lemma obj_get_set_other o k v k' :
  k <> k' -> obj_get (obj_set o k v) k' = obj_get o k'.
Proof.
  intros Hne. induction o as [|[k0 v0] o IH]; simpl.
  - destruct (String.eqb_spec k k'); [contradiction|reflexivity].
  - destruct (String.eqb_spec k0 k) as [->|]; simpl.
    + destruct (String.eqb_spec k k'); [contradiction|reflexivity].
    + destruct (String.eqb k0 k'); [reflexivity|exact IH].
Qed.

Lemma keys_set o k v : In k (keys o) -> keys (obj_set o k v) = keys o.
Proof.
  induction o as [|[k0 v0] o IH]; simpl; [contradiction|].
  destruct (String.eqb_spec k0 k) as [->|Hne]; simpl; [reflexivity|].
  intros [E|H]; [contradiction|]. now rewrite IH.
Qed.

Lemma extract_key_get r o e :
  obj_get o (fst e) = Some [] ->
  obj_get (extract_key r o e) (fst e) = Some (section_value (snd e) r).
Proof.
  intros H. unfold extract_key, section_value.
  destruct (exec (snd e) r) as [y|]; [|exact H].
  destruct (capture y) as [text|]; [|exact H].
  destruct (isEmpty text); [exact H|apply obj_get_set_same].
Qed.

Lemma extract_key_other r o e k :
  fst e <> k -> obj_get (extract_key r o e) k = obj_get o k.
Proof.
  intros H. unfold extract_key.
  destruct (exec (snd e) r) as [y|]; [|reflexivity].
  destruct (capture y) as [text|]; [|reflexivity].
  destruct (isEmpty text); [reflexivity|now apply obj_get_set_other].
Qed.

Lemma extract_key_keys r o e :
  In (fst e) (keys o) -> keys (extract_key r o e) = keys o.
Proof.
  intros H. unfold extract_key.
  destruct (exec (snd e) r) as [y|]; [|reflexivity].
  destruct (capture y) as [text|]; [|reflexivity].
  destruct (isEmpty text); [reflexivity|now apply keys_set].
Qed.

Lemma fold_other r l o k :
  ~ In k (keys l) ->
  obj_get (fold_left (extract_key r) l o) k = obj_get o k.
Proof.
  revert o. induction l as [|e l IH]; intros o H; simpl; [reflexivity|].
  simpl in H. rewrite IH by tauto. apply extract_key_other. tauto.
Qed.

Lemma fold_get r l o k re :
  NoDup (keys l) ->
  (forall k', In k' (keys l) -> obj_get o k' = Some []) ->
  In (k, re) l ->
  obj_get (fold_left (extract_key r) l o) k = Some (section_value re r).
Proof.
  revert o. induction l as [|e l IH]; intros o Hnd Ho Hin; [contradiction|].
  simpl in Hnd. inversion Hnd as [|? ? Hnot Hnd']; subst.
  simpl. destruct Hin as [->|Hin].
  - rewrite fold_other by exact Hnot.
    apply (extract_key_get r o (k, re)). apply Ho. now left.
  - apply IH; [exact Hnd'| |exact Hin].
    intros k' Hk'. rewrite extract_key_other.
    + apply Ho. now right.
    + intros <-. contradiction.
Qed.

Lemma fold_keys r l o :
  (forall k, In k (keys l) -> In k (keys o)) ->
  keys (fold_left (extract_key r) l o) = keys o.
Proof.
  revert o. induction l as [|e l IH]; intros o H; simpl; [reflexivity|].
  assert (E : keys (extract_key r o e) = keys o).
  { apply extract_key_keys. apply H. now left. }
  rewrite IH; [exact E|]. intros k Hk. rewrite E. apply H. now right.
Qed.

Lemma sections_nodup : NoDup (keys sections).
Proof.
  simpl. repeat constructor; simpl; intros H;
    repeat (destruct H as [H|H]; [discriminate|]); exact H.
Qed.

Lemma parse_get r k re :
  In (k, re) sections ->
  obj_get (parseAgentResponse r) k = Some (section_value re r).
Proof.
  apply fold_get; [exact sections_nodup|].
  intros k' H. simpl in H.
  repeat (destruct H as [<-|H]; [reflexivity|]). contradiction.
Qed.

Lemma parse_keys r : keys (parseAgentResponse r) = keys agents0.
Proof. apply fold_keys. intros k H. exact H. Qed.

Lemma trim_nil_if text : (if isEmpty text then [] else trim text) = trim text.
Proof. destruct text; reflexivity. Qed.

(** A match in words: where the reply has the start marker, it splits
    into the text before the first marker, the marker, an optional colon
    with white space, the captured text, and a remainder that is empty or
    begins with a stop word, no stop word beginning earlier. *)
Lemma exec_section_some glyph label stops T r :
  tail_of true stops T -> caseless glyph -> solid label ->
  has_marker glyph label r ->
  exists pre mk ld body post,
    r = pre ++ mk ++ ld ++ body ++ post /\
    is_marker glyph label mk /\
    first_suffix (begins_with (is_marker glyph label)) pre
      (mk ++ ld ++ body ++ post) /\
    is_lead ld (body ++ post) /\
    first_suffix (at_stop stops) body post /\
    exec (mkRegExp (section_pattern glyph label T) true) r =
    Some (mkState post (Some body)).
Proof.
  intros HT Hg Hl Hr. apply (has_marker_iff r Hg Hl) in Hr.
  rewrite (exec_section glyph r HT Hl).
  destruct (find_marker glyph label r) as [s3|] eqn:E; [clear Hr|congruence].
  destruct (find_marker_some _ _ _ E) as (pre & s & -> & Hs & Hpre).
  destruct (marker_end_some _ _ Hg Hs) as (mk & -> & Hmk).
  destruct (dropWhile_split isWhiteSpace (skip_colon s3)) as (ws & Ews & Hws).
  fold (body_start s3) in Ews.
  destruct (first_stop_spec (stop_here true stops) (body_start s3)
              (stop_here_nil true stops)) as (body & Eb & Hpost & Hbody).
  set (post := first_stop (stop_here true stops) (body_start s3)) in *.
  assert (Hlead : exists colon,
             s3 = colon ++ skip_colon s3 /\
             (colon = [58%N] \/
              colon = [] /\ forall t, skip_colon s3 <> 58%N :: t)).
  { unfold skip_colon. destruct s3 as [|x s3].
    - exists []. split; [reflexivity|]. right. split; [reflexivity|].
      discriminate.
    - destruct (N.eqb_spec x 58) as [->|Hx].
      + exists [58%N]. split; [reflexivity|]. now left.
      + exists []. split; [reflexivity|]. right. split; [reflexivity|].
        intros t [= ? _]. contradiction. }
  destruct Hlead as (colon & Ec & Hc).
  exists pre, mk, (colon ++ ws), body, post.
  assert (Es3 : s3 = (colon ++ ws) ++ body ++ post).
  { rewrite <- app_assoc, <- Eb, <- Ews. exact Ec. }
  rewrite <- Es3.
  split; [reflexivity|]. split; [exact Hmk|]. split; [split|].
  - now exists mk, s3.
  - intros p1 p2 Hp Hne Hb.
    apply (begins_marker_iff (p2 ++ mk ++ s3) Hg Hl) in Hb.
    now rewrite (Hpre p1 p2 Hp Hne) in Hb.
  - split; [|split; [split|]].
    + exists colon, ws. split; [reflexivity|]. split; [exact Hws|]. split.
      * rewrite <- Eb, <- Ews. exact Hc.
      * intros c t Ect. rewrite <- Eb in Ect.
        exact (dropWhile_head _ _ Ect).
    + now apply stop_here_iff.
    + intros b1 b2 Hb Hne Hstop. apply stop_here_iff in Hstop.
      now rewrite (Hbody b1 b2 Hb Hne) in Hstop.
    + cbv zeta. fold post. rewrite Eb at 1. now rewrite between_app.
Qed.

Lemma exec_section_none glyph label stops T r :
  tail_of true stops T -> caseless glyph -> solid label ->
  ~ has_marker glyph label r ->
  exec (mkRegExp (section_pattern glyph label T) true) r = None.
Proof.
  intros HT Hg Hl Hr. rewrite (exec_section glyph r HT Hl).
  destruct (find_marker glyph label r) eqn:E; [|reflexivity].
  exfalso. apply Hr. apply (has_marker_iff r Hg Hl). congruence.
Qed.

Lemma nodup_functional (A : Type) (l : list (string * A)) k a b :
  NoDup (keys l) -> In (k, a) l -> In (k, b) l -> a = b.
Proof.
  induction l as [|[k0 a0] l IH]; simpl; intros Hnd Ha Hb; [contradiction|].
  inversion Hnd as [|? ? Hnot Hnd']; subst.
  destruct Ha as [Ha|Ha], Hb as [Hb|Hb].
  - congruence.
  - injection Ha as -> ->. exfalso. apply Hnot.
    change k with (fst (k, b)). now apply in_map.
  - injection Hb as -> ->. exfalso. apply Hnot.
    change k with (fst (k, a)). now apply in_map.
  - now apply IH.
Qed.

Lemma sections_functional k re re' :
  In (k, re) sections -> In (k, re') sections -> re = re'.
Proof. apply nodup_functional, sections_nodup. Qed.

End Sections.
(* ================================================================== *)
(** * JavaScript values *)

Module Js.

(** Numbers are IEEE 754 doubles. *)
Definition number := spec_float.

Definition NaN : number := S754_nan.

(** The double nearest to an integer. *)
Definition number_of_Z (z : Z) (negative_zero : bool) : number :=
  binary_normalize 53 1024 z 0 negative_zero.

#[local] Unset Elimination Schemes.
Inductive value : Type :=
| VUndefined
| VNull
| VBool (b : bool)
| VNum (x : number)
| VStr (s : jsstring)
| VArr (items : list value)
| VObj (fields : list (string * value))
| VBare (fields : list (string * value)).
#[local] Set Elimination Schemes.

(** [VObj] is an object whose prototype is [Object.prototype], as
    [JSON.parse] builds; [VBare] is an object without a prototype
    ([Object.create(null)]), as the multipart parser builds for the body
    and for bracketed field names.  The fields are the own properties;
    none of them is a function. *)

(** What [throw] carries: an [Error] object (of the program, of a library
    or of the runtime), or any other value. *)
Inductive exn : Type :=
| JsError (name : string) (message : jsstring)
| JsThrown (v : value).

Inductive outcome (A : Type) : Type :=
| Return (a : A)
| Throw (e : exn).
Arguments Return {A} a.
Arguments Throw {A} e.

Definition ToBoolean (v : value) : bool :=
  match v with
  | VUndefined | VNull => false
  | VBool b => b
  | VNum (S754_zero _) | VNum S754_nan => false
  | VNum _ => true
  | VStr s => negb (isEmpty s)
  | VArr _ | VObj _ | VBare _ => true
  end.

(** [a || b] *)
Definition or_else (a b : value) : value := if ToBoolean a then a else b.

Fixpoint lookup (k : string) (fields : list (string * value)) : option value :=
  match fields with
  | [] => None
  | (k0, v) :: fields' => if String.eqb k0 k then Some v else lookup k fields'
  end.

(** The TypeError of a property read [v.k] on [undefined] or [null]; the
    text is the runtime's (V8's here) and no handler reads it. *)
Definition TypeError_read (of_null : bool) (k : string) : exn :=
  JsError "TypeError"
    (u "Cannot read properties of "
     ++ u (if of_null then "null" else "undefined")
     ++ u " (reading '" ++ u k ++ u "')").

(** The TypeError of a destructuring [const { k, ... } = source] of
    [undefined] or [null]; [k] is the first name of the pattern.  The text
    is the runtime's (V8's here). *)
Definition TypeError_destructure (of_null : bool) (k source : string) : exn :=
  JsError "TypeError"
    (u "Cannot destructure property '" ++ u k ++ u "' of '" ++ u source
     ++ u "' as it is " ++ u (if of_null then "null" else "undefined")
     ++ u ".").

(** The TypeError of a conversion to a string that finds no method
    returning a primitive. *)
Definition TypeError_primitive : exn :=
  JsError "TypeError" (u "Cannot convert object to primitive value").

(** [v.k] for the property names this program reads ([symptoms], [age],
    [history], [name], [userCode], [caseContext], [question], [message],
    [content], [id]): own properties of objects; arrays, strings, numbers
    and booleans have none of them. *)
Definition member (v : value) (k : string) : outcome value :=
  match v with
  | VUndefined => Throw (TypeError_read false k)
  | VNull => Throw (TypeError_read true k)
  | VObj fields | VBare fields =>
      Return match lookup k fields with Some x => x | None => VUndefined end
  | VBool _ | VNum _ | VStr _ | VArr _ => Return VUndefined
  end.

(** The name [k] of the destructuring [const { first, ... } = v], where
    [source] is the text of the right-hand side: [undefined] and [null]
    cannot be destructured. *)
Definition destructure (v : value) (source first k : string)
  : outcome value :=
  match v with
  | VUndefined => Throw (TypeError_destructure false first source)
  | VNull => Throw (TypeError_destructure true first source)
  | _ => member v k
  end.

(** [v?.k] *)
Definition member_opt (v : value) (k : string) : value :=
  match member v k with
  | Return x => x
  | Throw _ => VUndefined
  end.

(** [v?.[0]] *)
Definition first_opt (v : value) : value :=
  match v with
  | VArr (x :: _) => x
  | VStr (c :: _) => VStr [c]
  | VObj fields | VBare fields =>
      match lookup "0" fields with Some x => x | None => VUndefined end
  | _ => VUndefined
  end.

(** [Array.prototype.join] with the separator ",", given the conversion
    of an element to a string: the elements are converted from left to
    right, [undefined] and [null] to the empty string, and the first
    conversion that throws ends the join. *)
Definition join (element : value -> outcome jsstring)
  : list value -> outcome jsstring :=
  fix join (l : list value) : outcome jsstring :=
    match l with
    | [] => Return []
    | x :: l' =>
        match
          match x with
          | VUndefined | VNull => Return []
          | _ => element x
          end
        with
        | Throw e => Throw e
        | Return s =>
            match l' with
            | [] => Return s
            | _ :: _ =>
                match join l' with
                | Throw e => Throw e
                | Return rest => Return (s ++ 44%N :: rest)
                end
            end
        end
    end.

Section ToString.

(** Number::toString of the runtime (ECMA-262, 6.1.6.1.20). *)
Variable NumberToString : number -> jsstring.

(** ToString, as a template literal and [parseInt] apply it.  An array
    joins its elements with commas ([Array.prototype.join]), from left to
    right.  An object is asked for its [toString] and then its [valueOf]:
    with the prototype and no own [toString] it is
    [Object.prototype.toString] that answers; an own [toString] is not a
    function, and then no method returns a primitive ([valueOf] is not a
    function either, or returns the object); without a prototype there
    is no method at all.  Both throw a TypeError. *)
Fixpoint ToString (v : value) : outcome jsstring :=
  match v with
  | VUndefined => Return (u "undefined")
  | VNull => Return (u "null")
  | VBool true => Return (u "true")
  | VBool false => Return (u "false")
  | VNum x => Return (NumberToString x)
  | VStr s => Return s
  | VArr items => join ToString items
  | VObj fields =>
      match lookup "toString" fields with
      | Some _ => Throw TypeError_primitive
      | None => Return (u "[object Object]")
      end
  | VBare _ => Throw TypeError_primitive
  end.

End ToString.

(** [o] and then [f] on what it returns. *)
Definition and_then {A B : Type} (o : outcome A) (f : A -> outcome B)
  : outcome B :=
  match o with
  | Return a => f a
  | Throw e => Throw e
  end.

Definition digit_value (c : code_unit) : option Z :=
  if ((48 <=? c) && (c <=? 57))%N then Some (Z.of_N c - 48)%Z else None.

(** The value of the longest run of decimal digits at the start of [s],
    and whether there is one. *)
Fixpoint leading_digits (acc : Z) (seen : bool) (s : jsstring)
  : option Z :=
  match s with
  | c :: s' =>
      match digit_value c with
      | Some d => leading_digits (10 * acc + d)%Z true s'
      | None => if seen then Some acc else None
      end
  | [] => if seen then Some acc else None
  end.

(** [parseInt(string, 10)]: leading white space, an optional sign, then
    the decimal digits up to the first other character; NaN when there
    is no digit.  (Beyond twenty digits the standard lets the result be
    approximate; the exact integer is rounded here.) *)
Definition parseInt10 (s : jsstring) : number :=
  let s1 := trimStart s in
  let '(negative, s2) :=
    match s1 with
    | c :: s' =>
        if (c =? 45)%N then (true, s')
        else if (c =? 43)%N then (false, s') else (false, s1)
    | [] => (false, s1)
    end in
  match leading_digits 0 false s2 with
  | Some n => number_of_Z (if negative then - n else n)%Z negative
  | None => NaN
  end.

(** A number that is an integer: finite and without fractional part. *)
Definition is_integer (x : number) : bool :=
  match x with
  | S754_zero _ => true
  | S754_finite _ mant e =>
      (0 <=? e)%Z
      || (Z.land (Zpos mant) (Z.ones (- e)) =? 0)%Z
  | S754_infinity _ | S754_nan => false
  end.

End Js.
Import Js.

(* ================================================================== *)
(** * The outbound services *)

Module Io.

(** One turn of a chat request. *)
Record message : Type := mkMessage {
  role : jsstring;
  content : value
}.

(** The body sent to the chat-completion endpoint. *)
Record chat_request : Type := mkChatRequest {
  model : jsstring;
  messages : list message;
  stream : bool
}.

(** The object given to [insert] on the table [cases]. *)
Record case_row : Type := mkRow {
  user_id : value;
  symptoms : value;
  age : value;
  history : value;
  symptom_analyzer : value;
  risk_predictor : value;
  fraud_detector : value;
  security_guardian : value;
  coordinator_insights : value;
  recommendations : value;
  full_response : value;
  prescription_text : value;
  prescription_flag : value
}.

(** What [fetch] gives: a rejection, or a response with its [ok] flag,
    its body as text, and its body read as JSON (an error when it is not
    JSON). *)
Record http_reply : Type := mkReply {
  ok : bool;
  text : jsstring;
  json : outcome value
}.

Inductive fetch_reply : Type :=
| FetchRejected (name : string) (message : jsstring)
| FetchResponse (response : http_reply).

(** What a store query gives when awaited: a rejection, or the pair
    [{ data, error }]. *)
Inductive store_reply : Type :=
| StoreRejected (name : string) (message : jsstring)
| StoreResult (data error : value).

(** A handler's program: it ends with a value or a throw, or performs an
    outbound call and goes on with the reply. *)
Inductive io (A : Type) : Type :=
| Done (r : outcome A)
| Fetch (url : jsstring) (body : chat_request) (k : fetch_reply -> io A)
| Insert (table : string) (row : case_row) (k : store_reply -> io A)
| Select (table columns : string) (limit : nat) (k : store_reply -> io A)
| ConsoleError (what : jsstring) (err : value + exn) (k : io A).
Arguments Done {A} r.
Arguments Fetch {A} url body k.
Arguments Insert {A} table row k.
Arguments Select {A} table columns limit k.
Arguments ConsoleError {A} what err k.

Definition ret {A : Type} (a : A) : io A := Done (Return a).
Definition throw {A : Type} (e : exn) : io A := Done (Throw e).

Fixpoint bind {A B : Type} (p : io A) (f : A -> io B) : io B :=
  match p with
  | Done (Return a) => f a
  | Done (Throw e) => Done (Throw e)
  | Fetch url body k => Fetch url body (fun r => bind (k r) f)
  | Insert table row k => Insert table row (fun r => bind (k r) f)
  | Select table columns limit k =>
      Select table columns limit (fun r => bind (k r) f)
  | ConsoleError what err k => ConsoleError what err (bind k f)
  end.

(** [try { p } catch (err) { handler err }] *)
Fixpoint try_catch {A : Type} (p : io A) (handler : exn -> io A) : io A :=
  match p with
  | Done (Return a) => Done (Return a)
  | Done (Throw e) => handler e
  | Fetch url body k => Fetch url body (fun r => try_catch (k r) handler)
  | Insert table row k => Insert table row (fun r => try_catch (k r) handler)
  | Select table columns limit k =>
      Select table columns limit (fun r => try_catch (k r) handler)
  | ConsoleError what err k => ConsoleError what err (try_catch k handler)
  end.

Definition lift {A : Type} (o : outcome A) : io A := Done o.

Declare Scope io_scope.
Delimit Scope io_scope with io.
Notation "x <- p ;; q" := (bind p (fun x => q))
  (at level 61, p at next level, right associativity) : io_scope.

(** The calls a run makes, in order. *)
Inductive event : Type :=
| EvFetch (url : jsstring) (body : chat_request)
| EvInsert (table : string) (row : case_row)
| EvSelect (table columns : string) (limit : nat)
| EvConsoleError (what : jsstring) (err : value + exn).

(** The outside world: how the endpoint and the store answer. *)
Record world : Type := mkWorld {
  on_fetch : jsstring -> chat_request -> fetch_reply;
  on_insert : string -> case_row -> store_reply;
  on_select : string -> string -> nat -> store_reply
}.

(** Running a program in a world: the calls made and how it ends. *)
Fixpoint run {A : Type} (w : world) (p : io A) : list event * outcome A :=
  match p with
  | Done r => ([], r)
  | Fetch url body k =>
      let '(tr, r) := run w (k (on_fetch w url body)) in
      (EvFetch url body :: tr, r)
  | Insert table row k =>
      let '(tr, r) := run w (k (on_insert w table row)) in
      (EvInsert table row :: tr, r)
  | Select table columns limit k =>
      let '(tr, r) := run w (k (on_select w table columns limit)) in
      (EvSelect table columns limit :: tr, r)
  | ConsoleError what err k =>
      let '(tr, r) := run w k in
      (EvConsoleError what err :: tr, r)
  end.

Definition is_model_call (e : event) : bool :=
  match e with EvFetch _ _ => true | _ => false end.

Definition is_store_call (e : event) : bool :=
  match e with EvInsert _ _ | EvSelect _ _ _ => true | _ => false end.

Definition model_calls (tr : list event) : nat :=
  List.length (filter is_model_call tr).

Definition store_calls (tr : list event) : nat :=
  List.length (filter is_store_call tr).

End Io.
Import Io.

(* ================================================================== *)
(** * The request handlers *)

Module Server.

Local Open Scope io_scope.

(** The file [upload.single("prescription")] leaves in [req.file]. *)
Record upload : Type := mkUpload {
  originalname : jsstring
}.

Record request : Type := mkRequest {
  body : value;
  file : option upload
}.

(** What a handler sends: [res.status(s).json(b)]; the status is 200 when
    it is not set. *)
Record response : Type := mkResponse {
  status : nat;
  json_body : value
}.

Definition OLLAMA_URL : jsstring := u "http://127.0.0.1:11434/api/chat".
Definition OLLAMA_MODEL : jsstring := u "mistral".

Definition nl : jsstring := [10%N].

(** The lines of a template literal that opens and closes with a line
    break. *)
Definition template (lines : list jsstring) : jsstring :=
  nl ++ flat_map (fun l => l ++ nl) lines.

(** [callOllama]: one POST to the endpoint; a failed request, a status
    that is not ok, a body that is not JSON and a reply without [message]
    all throw. *)
Definition callOllama (messages : list message) : io value :=
  Fetch OLLAMA_URL (mkChatRequest OLLAMA_MODEL messages false)
    (fun reply =>
       match reply with
       | FetchRejected name msg => throw (JsError name msg)
       | FetchResponse response =>
           if negb (ok response) then throw (JsError "Error" (text response))
           else
             data <- lift (json response) ;;
             message <- lift (member data "message") ;;
             lift (member message "content")
       end).

(** [parseAgentResponse(response)] on a value: [response.match] is a
    method of strings only. *)
Definition parseAgentResponse_value (response : value) : outcome object :=
  match response with
  | VStr s => Return (parseAgentResponse s)
  | VUndefined => Throw (TypeError_read false "match")
  | VNull => Throw (TypeError_read true "match")
  | VBool _ | VNum _ | VArr _ | VObj _ | VBare _ =>
      Throw (JsError "TypeError" (u "response.match is not a function"))
  end.

(** [agents.key] *)
Definition agent (agents : object) (k : string) : value :=
  match obj_get agents k with
  | Some s => VStr s
  | None => VUndefined
  end.

(** The object [agents] as a value. *)
Definition agents_value (agents : object) : value :=
  VObj (map (fun kv => (fst kv, VStr (snd kv))) agents).

Definition error_body (msg : string) : value :=
  VObj [("error"%string, VStr (u msg))].

Definition systemPrompt : jsstring :=
  template
    [ u "You are MediMind, a SINGLE LLM acting as SIX agents:";
      [];
      glyph_symptom ++ u " SYMPTOM_ANALYZER";
      glyph_risk ++ u " RISK_PREDICTOR";
      glyph_fraud ++ u " FRAUD_DETECTOR";
      glyph_security ++ u " SECURITY_GUARDIAN";
      glyph_coordinator ++ u " COORDINATOR_INSIGHTS";
      glyph_recommendations ++ u " RECOMMENDATIONS";
      [];
      u "Rules:";
      u "- NO doctor / hospital / clinic suggestions";
      u "- NO medication or prescriptions";
      u "- Only explanations, risks, lifestyle & monitoring";
      u "- Output EXACTLY six sections with emojis" ].

Definition chatSystemPrompt : jsstring :=
  u "You are MediMind follow-up assistant. Continue discussion based on the given case context. Do NOT give medical prescriptions or tell the user to visit any doctor / hospital. Focus on explanations, risks, lifestyle and monitoring.".

(** The name [k] of [const { first, ... } = req.body]. *)
Definition from_body (req : request) (first k : string) : outcome value :=
  destructure (body req) "req.body" first k.

Section Handlers.

(** Number::toString of the runtime. *)
Variable NumberToString : number -> jsstring.

Definition str (v : value) : outcome jsstring := ToString NumberToString v.

(** The template literal [userPrompt]: the interpolated values are
    converted to strings from left to right, and the first conversion
    that throws ends the evaluation. *)
Definition userPrompt (symptoms age history name userCode : value)
    (file : option upload) : outcome jsstring :=
  and_then (str (or_else name (VStr (u "Guest")))) (fun name_text =>
  and_then (str (or_else userCode (VStr (u "ANON-0000")))) (fun code_text =>
  and_then (str symptoms) (fun symptoms_text =>
  and_then (str age) (fun age_text =>
  and_then (str (or_else history (VStr (u "None")))) (fun history_text =>
  Return
    (template
       [ u "PATIENT_NAME: " ++ name_text;
         u "MEDIMIND_CODE: " ++ code_text;
         [];
         u "SYMPTOMS: " ++ symptoms_text;
         u "AGE: " ++ age_text;
         u "MEDICAL_HISTORY: " ++ history_text;
         u "PRESCRIPTION: " ++
           match file with
           | Some f => u "Uploaded (" ++ originalname f ++ u ")"
           | None => u "None"
           end;
         [];
         u "Respond EXACTLY in this format:";
         [];
         glyph_symptom ++ u " SYMPTOM_ANALYZER:";
         glyph_risk ++ u " RISK_PREDICTOR:";
         glyph_fraud ++ u " FRAUD_DETECTOR:";
         glyph_security ++ u " SECURITY_GUARDIAN:";
         glyph_coordinator ++ u " COORDINATOR_INSIGHTS:";
         glyph_recommendations ++ u " RECOMMENDATIONS:" ])))))).

(** [parseInt(v, 10)]: the argument is converted to a string first. *)
Definition parseInt (v : value) : outcome number :=
  and_then (str v) (fun s => Return (parseInt10 s)).

(** The row of [supabase.from("cases").insert({...})], with [age] the
    number [parseInt(age, 10)] gave. *)
Definition case_of (symptoms : value) (age : number) (history : value)
    (agents : object) (fullResponse : value) (file : option upload)
  : case_row :=
  {| user_id := VNull;
     Io.symptoms := symptoms;
     Io.age := VNum age;
     Io.history := or_else history VNull;
     symptom_analyzer := or_else (agent agents "symptom") VNull;
     risk_predictor := or_else (agent agents "risk") VNull;
     fraud_detector := or_else (agent agents "fraud") VNull;
     security_guardian := or_else (agent agents "security") VNull;
     coordinator_insights := or_else (agent agents "coordinator") VNull;
     recommendations := or_else (agent agents "recommendations") VNull;
     full_response := fullResponse;
     prescription_text := VNull;
     prescription_flag :=
       VStr (u match file with Some _ => "UPLOADED" | None => "NONE" end) |}.

(** [app.post("/api/analyze", upload.single("prescription"), ...)] *)
Definition analyze (req : request) : io response :=
  try_catch
    (symptoms <- lift (from_body req "symptoms" "symptoms") ;;
     age <- lift (from_body req "symptoms" "age") ;;
     history <- lift (from_body req "symptoms" "history") ;;
     name <- lift (from_body req "symptoms" "name") ;;
     userCode <- lift (from_body req "symptoms" "userCode") ;;
     if negb (ToBoolean symptoms) || negb (ToBoolean age) then
       ret (mkResponse 400 (error_body "Missing symptoms or age"))
     else
       prompt <-
         lift (userPrompt symptoms age history name userCode (file req)) ;;
       fullResponse <-
         callOllama
           [ mkMessage (u "system") (VStr systemPrompt);
             mkMessage (u "user") (VStr prompt) ] ;;
       agents <- lift (parseAgentResponse_value fullResponse) ;;
       age_number <- lift (parseInt age) ;;
       Insert "cases"
         (case_of symptoms age_number history agents fullResponse (file req))
         (fun reply =>
            match reply with
            | StoreRejected name msg => throw (JsError name msg)
            | StoreResult data error =>
                if ToBoolean error then
                  ConsoleError (u "Supabase insert error:") (inl error)
                    (ret (mkResponse 500
                            (error_body "Failed to save case to database")))
                else
                  ret (mkResponse 200
                         (VObj
                            [ ("fullResponse"%string, fullResponse);
                              ("agents"%string, agents_value agents);
                              ("caseId"%string,
                               or_else (member_opt (first_opt data) "id")
                                 VNull) ]))
            end))
    (fun err =>
       ConsoleError [] (inr err)
         (ret (mkResponse 500
                 (error_body
                    "Ollama inference failed. Make sure Ollama is running.")))).

(** [app.post("/api/chat", ...)] *)
Definition chat (req : request) : io response :=
  try_catch
    (caseContext <- lift (from_body req "caseContext" "caseContext") ;;
     question <- lift (from_body req "caseContext" "question") ;;
     reply <-
       callOllama
         [ mkMessage (u "system") (VStr chatSystemPrompt);
           mkMessage (u "user") caseContext;
           mkMessage (u "user") question ] ;;
     ret (mkResponse 200 (VObj [("reply"%string, reply)])))
    (fun err =>
       ConsoleError [] (inr err)
         (ret (mkResponse 500 (error_body "Chat failed")))).

End Handlers.

(** [err.message] *)
Definition exn_message (err : exn) : outcome value :=
  match err with
  | JsError _ msg => Return (VStr msg)
  | JsThrown v => member v "message"
  end.

(** [app.get("/api/health", ...)] *)
Definition health : io response :=
  try_catch
    (Select "cases" "id" 1
       (fun reply =>
          match reply with
          | StoreRejected name msg => throw (JsError name msg)
          | StoreResult _ error =>
              if ToBoolean error then throw (JsThrown error)
              else ret (mkResponse 200 (VObj [("status"%string, VStr (u "ok"))]))
          end))
    (fun err =>
       message <- lift (exn_message err) ;;
       ret (mkResponse 500
              (VObj [ ("status"%string, VStr (u "error"));
                      ("message"%string, message) ]))).

End Server.
Import Server.

(* ================================================================== *)
(** * Runs of the handlers *)

Module Runs.

Local Open Scope io_scope.

(** How [callOllama] ends on a reply of the endpoint. *)
Definition ollama_outcome (reply : fetch_reply) : outcome value :=
  match reply with
  | FetchRejected name msg => Throw (JsError name msg)
  | FetchResponse response =>
      if negb (ok response) then Throw (JsError "Error" (text response))
      else
        match json response with
        | Throw e => Throw e
        | Return data =>
            match member data "message" with
            | Throw e => Throw e
            | Return message => member message "content"
            end
        end
  end.

(** The request [callOllama] sends. *)
Definition ollama_request (messages : list message) : chat_request :=
  mkChatRequest OLLAMA_MODEL messages false.

Definition is_nullish (v : value) : bool :=
  match v with VUndefined | VNull => true | _ => false end.

(** A field of the request body, [undefined] when it is absent. *)
Definition field (req : request) (k : string) : value :=
  member_opt (body req) k.

(** The field is present in the body (with any value but [undefined]). *)
Definition present (req : request) (k : string) : Prop :=
  field req k <> VUndefined.

Section Handlers.

Variable NumberToString : number -> jsstring.

(** The user prompt [analyze] builds from the request; the conversion of
    a field to a string can throw. *)
Definition analyze_prompt (req : request) : outcome jsstring :=
  userPrompt NumberToString (field req "symptoms") (field req "age")
    (field req "history") (field req "name") (field req "userCode")
    (file req).

(** The text of the user prompt, for the requests whose prompt is
    built. *)
Definition prompt_text (req : request) : jsstring :=
  match analyze_prompt req with
  | Return prompt => prompt
  | Throw _ => []
  end.

(** The two turns [analyze] sends. *)
Definition analyze_messages (req : request) : list message :=
  [ mkMessage (u "system") (VStr systemPrompt);
    mkMessage (u "user") (VStr (prompt_text req)) ].

(** [parseInt(age, 10)] of the request's age, for the requests whose
    prompt is built: the prompt has converted the age to a string
    before. *)
Definition analyze_age (req : request) : number :=
  match parseInt NumberToString (field req "age") with
  | Return x => x
  | Throw _ => NaN
  end.

(** The three turns [chat] sends. *)
Definition chat_messages (req : request) : list message :=
  [ mkMessage (u "system") (VStr chatSystemPrompt);
    mkMessage (u "user") (field req "caseContext");
    mkMessage (u "user") (field req "question") ].

End Handlers.

Definition inference_failed : response :=
  mkResponse 500
    (error_body "Ollama inference failed. Make sure Ollama is running.").

Definition save_failed : response :=
  mkResponse 500 (error_body "Failed to save case to database").

Definition missing_fields : response :=
  mkResponse 400 (error_body "Missing symptoms or age").

Definition chat_failed : response :=
  mkResponse 500 (error_body "Chat failed").

Lemma run_bind (A B : Type) w (p : io A) (f : A -> io B) :
  run w (bind p f) =
  match run w p with
  | (tr, Return a) => let '(tr', r) := run w (f a) in (tr ++ tr', r)
  | (tr, Throw e) => (tr, Throw e)
  end.
Proof.
  induction p as [[a|e]|url rq k IH|t row k IH|t c l k IH|what err k IH];
    cbn [bind run].
  - destruct (run w (f a)). reflexivity.
  - reflexivity.
  - rewrite IH. destruct (run w (k (on_fetch w url rq))) as [tr [a|e]];
      [destruct (run w (f a))|]; reflexivity.
  - rewrite IH. destruct (run w (k (on_insert w t row))) as [tr [a|e]];
      [destruct (run w (f a))|]; reflexivity.
  - rewrite IH. destruct (run w (k (on_select w t c l))) as [tr [a|e]];
      [destruct (run w (f a))|]; reflexivity.
  - rewrite IH. destruct (run w k) as [tr [a|e]];
      [destruct (run w (f a))|]; reflexivity.
Qed.

Lemma run_try_catch (A : Type) w (p : io A) (h : exn -> io A) :
  run w (try_catch p h) =
  match run w p with
  | (tr, Return a) => (tr, Return a)
  | (tr, Throw e) => let '(tr', r) := run w (h e) in (tr ++ tr', r)
  end.
Proof.
  induction p as [[a|e]|url rq k IH|t row k IH|t c l k IH|what err k IH];
    cbn [try_catch run].
  - reflexivity.
  - destruct (run w (h e)). reflexivity.
  - rewrite IH. destruct (run w (k (on_fetch w url rq))) as [tr [a|e]];
      [|destruct (run w (h e))]; reflexivity.
  - rewrite IH. destruct (run w (k (on_insert w t row))) as [tr [a|e]];
      [|destruct (run w (h e))]; reflexivity.
  - rewrite IH. destruct (run w (k (on_select w t c l))) as [tr [a|e]];
      [|destruct (run w (h e))]; reflexivity.
  - rewrite IH. destruct (run w k) as [tr [a|e]];
      [|destruct (run w (h e))]; reflexivity.
Qed.

Lemma run_callOllama w messages :
  run w (callOllama messages) =
  ([EvFetch OLLAMA_URL (ollama_request messages)],
   ollama_outcome (on_fetch w OLLAMA_URL (ollama_request messages))).
Proof.
  unfold callOllama, ollama_request. cbn [run].
  destruct (on_fetch w OLLAMA_URL (mkChatRequest OLLAMA_MODEL messages false))
    as [name msg|response]; cbn; [reflexivity|].
  destruct (ok response); cbn; [|reflexivity].
  destruct (json response) as [data|e]; cbn; [|reflexivity].
  destruct (member data "message") as [message|e]; cbn; [|reflexivity].
  destruct (member message "content"); reflexivity.
Qed.

Lemma from_body_field req first k :
  is_nullish (body req) = false ->
  from_body req first k = Return (field req k).
Proof.
  unfold from_body, field, member_opt. destruct (body req); cbn; congruence.
Qed.

Lemma from_body_nullish req first k :
  is_nullish (body req) = true ->
  from_body req first k =
  Throw (TypeError_destructure
           match body req with VNull => true | _ => false end
           first "req.body").
Proof. unfold from_body. destruct (body req); cbn; congruence. Qed.

Lemma and_then_Return (A B : Type) (o : outcome A) (f : A -> outcome B) b :
  and_then o f = Return b -> exists a, o = Return a /\ f a = Return b.
Proof. destruct o as [a|e]; cbn; [eauto|discriminate]. Qed.

(** A prompt that is built has converted the age to a string. *)
Lemma prompt_converts_age NumberToString symptoms age history name userCode
    file prompt :
  userPrompt NumberToString symptoms age history name userCode file =
    Return prompt ->
  exists s, ToString NumberToString age = Return s.
Proof.
  unfold userPrompt, str. intros H.
  apply and_then_Return in H. destruct H as (s1 & _ & H).
  apply and_then_Return in H. destruct H as (s2 & _ & H).
  apply and_then_Return in H. destruct H as (s3 & _ & H).
  apply and_then_Return in H. destruct H as (s4 & H4 & _).
  eauto.
Qed.

Section HandlerRuns.

Variable NumberToString : number -> jsstring.

Definition log_throw (e : exn) : event := EvConsoleError [] (inr e).

Definition analyze_call (req : request) : event :=
  EvFetch OLLAMA_URL (ollama_request (analyze_messages NumberToString req)).

Definition analyze_case (req : request) (agents : object) (full : value)
  : case_row :=
  case_of (field req "symptoms") (analyze_age NumberToString req)
    (field req "history") agents full (file req).

Definition analyze_success (agents : object) (full data : value) : response :=
  mkResponse 200
    (VObj [ ("fullResponse"%string, full);
            ("agents"%string, agents_value agents);
            ("caseId"%string,
             or_else (member_opt (first_opt data) "id") VNull) ]).

(** Every run of [analyze], by the case it takes. *)
Lemma run_analyze w req :
  run w (analyze NumberToString req) =
  if is_nullish (body req) then
    ([log_throw
        (TypeError_destructure
           match body req with VNull => true | _ => false end
           "symptoms" "req.body")],
     Return inference_failed)
  else if negb (ToBoolean (field req "symptoms"))
          || negb (ToBoolean (field req "age"))
  then ([], Return missing_fields)
  else
    match analyze_prompt NumberToString req with
    | Throw e => ([log_throw e], Return inference_failed)
    | Return _ =>
        match
          ollama_outcome
            (on_fetch w OLLAMA_URL
               (ollama_request (analyze_messages NumberToString req)))
        with
        | Throw e =>
            ([analyze_call req; log_throw e], Return inference_failed)
        | Return full =>
            match parseAgentResponse_value full with
            | Throw e =>
                ([analyze_call req; log_throw e], Return inference_failed)
            | Return agents =>
                let row := analyze_case req agents full in
                match on_insert w "cases" row with
                | StoreRejected name msg =>
                    ([analyze_call req; EvInsert "cases" row;
                      log_throw (JsError name msg)],
                     Return inference_failed)
                | StoreResult data error =>
                    if ToBoolean error then
                      ([analyze_call req; EvInsert "cases" row;
                        EvConsoleError (u "Supabase insert error:")
                          (inl error)],
                       Return save_failed)
                    else
                      ([analyze_call req; EvInsert "cases" row],
                       Return (analyze_success agents full data))
                end
            end
        end
    end.
Proof.
  unfold analyze. rewrite run_try_catch.
  destruct (is_nullish (body req)) eqn:Hb.
  - rewrite (from_body_nullish req "symptoms" "symptoms" Hb). reflexivity.
  - rewrite !(from_body_field req _ _ Hb). cbn [lift bind].
    destruct (negb (ToBoolean (field req "symptoms"))
              || negb (ToBoolean (field req "age"))); [reflexivity|].
    unfold analyze_call, analyze_case, analyze_messages, prompt_text,
      analyze_age.
    unfold analyze_prompt.
    destruct (userPrompt NumberToString _ _ _ _ _ _) as [prompt|e0] eqn:Ep;
      [|reflexivity].
    destruct (prompt_converts_age _ _ _ _ _ _ _ Ep) as (age_text & Ha).
    unfold parseInt, str. rewrite Ha. cbn [lift bind and_then].
    rewrite run_bind, run_callOllama.
    destruct (ollama_outcome _) as [full|e]; [|reflexivity].
    destruct (parseAgentResponse_value full) as [agents|e]; [|reflexivity].
    cbn [lift bind run].
    destruct (on_insert w "cases" _) as [name msg|data error]; [reflexivity|].
    destruct (ToBoolean error); reflexivity.
Qed.

(** Every run of [chat]. *)
Lemma run_chat w req :
  run w (chat req) =
  if is_nullish (body req) then
    ([log_throw
        (TypeError_destructure
           match body req with VNull => true | _ => false end
           "caseContext" "req.body")],
     Return chat_failed)
  else
    let call := EvFetch OLLAMA_URL (ollama_request (chat_messages req)) in
    match
      ollama_outcome (on_fetch w OLLAMA_URL (ollama_request (chat_messages req)))
    with
    | Throw e => ([call; log_throw e], Return chat_failed)
    | Return reply =>
        ([call], Return (mkResponse 200 (VObj [("reply"%string, reply)])))
    end.
Proof.
  unfold chat. rewrite run_try_catch.
  destruct (is_nullish (body req)) eqn:Hb.
  - rewrite (from_body_nullish req "caseContext" "caseContext" Hb).
    reflexivity.
  - rewrite !(from_body_field req _ _ Hb). cbn [lift bind].
    rewrite run_bind, run_callOllama. fold (chat_messages req).
    destruct (ollama_outcome _) as [reply|e]; reflexivity.
Qed.

End HandlerRuns.

(** Every run of [health]. *)
Lemma run_health w :
  run w health =
  ([EvSelect "cases" "id" 1],
   match on_select w "cases" "id" 1 with
   | StoreRejected name msg =>
       Return (mkResponse 500
                 (VObj [ ("status"%string, VStr (u "error"));
                         ("message"%string, VStr msg) ]))
   | StoreResult _ error =>
       if ToBoolean error then
         Return (mkResponse 500
                   (VObj [ ("status"%string, VStr (u "error"));
                           ("message"%string, member_opt error "message") ]))
       else Return (mkResponse 200 (VObj [("status"%string, VStr (u "ok"))]))
   end).
Proof.
  unfold health. cbn [try_catch run].
  destruct (on_select w "cases" "id" 1) as [name msg|data error];
    [reflexivity|].
  destruct error as [| |[|]|[[|]| | |]|[|c s]|items|fields|fields];
    reflexivity.
Qed.

End Runs.
Import Runs.

Import Sections.

(* ================================================================== *)
(** * Properties of the section extractor *)

(** The entries of the table after the key [k]. *)
Fixpoint after_key (k : string) (l : list marker) : list marker :=
  match l with
  | [] => []
  | e :: l' => if String.eqb (key e) k then l' else after_key k l'
  end.

(** The end of the text, or the beginning of the start marker (glyph,
    white space, label) of a section after [k]. *)
Definition next_marker_here (k : string) (s : jsstring) : bool :=
  isEmpty s
  || existsb
       (fun e =>
          match marker_end (glyph e) (label e) s with
          | Some _ => true
          | None => false
          end)
       (after_key k marker_table).

(** The section as far as the next section marker, the reading under
    which a section ends at a full marker only: the text after the first
    start marker of the key, an optional colon and white space, up to the
    first place where the start marker of a later section begins, or to
    the end, trimmed. *)
Definition section_until_next_marker (mk : marker) (r : jsstring)
  : jsstring :=
  match find_marker (glyph mk) (label mk) r with
  | Some s3 =>
      let b := body_start s3 in
      trim (between b (first_stop (next_marker_here (key mk)) b))
  | None => []
  end.

Definition symptom_marker : marker :=
  mkMarker "symptom" glyph_symptom (u "SYMPTOM_ANALYZER") stops_symptom.

(** A reply whose first section names the next section's label in its
    text. *)
Definition reply_label_in_text : jsstring :=
  glyph_symptom ++ u "SYMPTOM_ANALYZER: mild risk_predictor signs "
  ++ glyph_risk ++ u "RISK_PREDICTOR: low".

(** A reply with the six sections in order. *)
Definition reply_six : jsstring :=
  glyph_symptom ++ u " SYMPTOM_ANALYZER: dry cough " ++
  glyph_risk ++ u " RISK_PREDICTOR: low " ++
  glyph_fraud ++ u " FRAUD_DETECTOR: none " ++
  glyph_security ++ u " SECURITY_GUARDIAN: ok " ++
  glyph_coordinator ++ u " COORDINATOR_INSIGHTS: consistent " ++
  glyph_recommendations ++ u " RECOMMENDATIONS: rest".

Example parse_reply_six :
  parseAgentResponse reply_six =
  [ ("symptom"%string, u "dry cough"); ("risk"%string, u "low");
    ("fraud"%string, u "none"); ("security"%string, u "ok");
    ("coordinator"%string, u "consistent");
    ("recommendations"%string, u "rest") ].
Proof. vm_compute. reflexivity. Qed.

Example parse_empty_reply : parseAgentResponse [] = agents0.
Proof. vm_compute. reflexivity. Qed.

Example parse_lower_case_no_colon :
  obj_get
    (parseAgentResponse
       (u "intro " ++ glyph_security ++ u "security_guardian  data is safe"))
    "security" = Some (u "data is safe").
Proof. vm_compute. reflexivity. Qed.

Lemma has_marker_by_search mk r :
  In mk marker_table ->
  find_marker (glyph mk) (label mk) r <> None ->
  has_marker (glyph mk) (label mk) r.
Proof.
  intros Hmk H. destruct (table_sections Hmk) as (Hg & Hl & _).
  now apply (has_marker_iff r Hg (upper_head_solid _ Hl)).
Qed.

Lemma no_marker_by_search mk r :
  In mk marker_table ->
  find_marker (glyph mk) (label mk) r = None ->
  ~ has_marker (glyph mk) (label mk) r.
Proof.
  intros Hmk H Hr. destruct (table_sections Hmk) as (Hg & Hl & _).
  now apply (has_marker_iff r Hg (upper_head_solid _ Hl)) in Hr.
Qed.

(** C1, as stated, fails: in [reply_label_in_text] the symptom marker is
    present and the text up to the next section marker is
    "mild risk_predictor signs", but [parseAgentResponse] returns "mild"
    for the key. *)
Lemma section_until_next_marker_differs :
  has_marker (glyph symptom_marker) (label symptom_marker)
    reply_label_in_text /\
  section_until_next_marker symptom_marker reply_label_in_text =
    u "mild risk_predictor signs" /\
  obj_get (parseAgentResponse reply_label_in_text) "symptom" =
    Some (u "mild") /\
  obj_get (parseAgentResponse reply_label_in_text) (key symptom_marker) <>
    Some (section_until_next_marker symptom_marker reply_label_in_text).
Proof.
  split; [|split; [|split]].
  - apply has_marker_by_search; [now left|]. vm_compute. discriminate.
  - vm_compute. reflexivity.
  - vm_compute. reflexivity.
  - vm_compute. discriminate.
Qed.

(** C1, amended: for every reply and each of the six keys, if the reply
    contains the key's start marker (glyph, optional white space, label in
    any case), then the reply splits as [pre ++ mk ++ ld ++ body ++ post],
    where [mk] is the first start marker of the key in the reply, [ld] is
    an optional colon and all the white space after it, [post] is empty or
    begins with one of the stop words of the key's pattern (the glyph or
    the label word alone of a later section, in any case), no stop word
    begins inside [body], and [parseAgentResponse] returns [body] trimmed
    for the key. *)
Theorem parse_section_upto_stop_word (mk : marker) (r : jsstring) :
  In mk marker_table ->
  has_marker (glyph mk) (label mk) r ->
  exists pre m ld body post,
    r = pre ++ m ++ ld ++ body ++ post /\
    is_marker (glyph mk) (label mk) m /\
    first_suffix (begins_with (is_marker (glyph mk) (label mk))) pre
      (m ++ ld ++ body ++ post) /\
    is_lead ld (body ++ post) /\
    first_suffix (at_stop (stops mk)) body post /\
    obj_get (parseAgentResponse r) (key mk) = Some (trim body).
Proof.
  intros Hmk Hr. destruct (table_sections Hmk) as (Hg & Hl & T & HT & Htail).
  destruct (@exec_section_some _ _ _ _ r Htail Hg (upper_head_solid _ Hl) Hr)
    as (pre & m & ld & body & post & E & Hm & Hfirst & Hld & Hstop & Hexec).
  exists pre, m, ld, body, post. repeat (split; [assumption|]).
  rewrite (parse_get r HT). unfold section_value. rewrite Hexec.
  cbn [capture]. now rewrite trim_nil_if.
Qed.

Lemma parse_section_upto_stop_word_witness :
  exists pre m ld body post,
    reply_six = pre ++ m ++ ld ++ body ++ post /\
    is_marker glyph_risk (u "RISK_PREDICTOR") m /\
    first_suffix (begins_with (is_marker glyph_risk (u "RISK_PREDICTOR"))) pre
      (m ++ ld ++ body ++ post) /\
    is_lead ld (body ++ post) /\
    first_suffix (at_stop stops_risk) body post /\
    obj_get (parseAgentResponse reply_six) "risk" = Some (trim body).
Proof.
  apply (@parse_section_upto_stop_word
           (mkMarker "risk" glyph_risk (u "RISK_PREDICTOR") stops_risk)
           reply_six).
  - right. left. reflexivity.
  - apply has_marker_by_search; [right; left; reflexivity|].
    vm_compute. discriminate.
Defined.

(** C2: for every input string the result of [parseAgentResponse] has
    exactly the six keys symptom, risk, fraud, security, coordinator and
    recommendations, each bound to a string, and a key whose start marker
    is absent from the input is bound to the empty string.  The extractor
    is a total function: it returns on every input. *)
Theorem parse_six_keys_absent_empty (r : jsstring) :
  keys (parseAgentResponse r) =
    ["symptom"; "risk"; "fraud"; "security"; "coordinator";
     "recommendations"]%string /\
  map key marker_table = keys (parseAgentResponse r) /\
  (forall k, In k (keys (parseAgentResponse r)) ->
     exists v, obj_get (parseAgentResponse r) k = Some v) /\
  (forall mk, In mk marker_table ->
     ~ has_marker (glyph mk) (label mk) r ->
     obj_get (parseAgentResponse r) (key mk) = Some []).
Proof.
  rewrite parse_keys. split; [reflexivity|]. split; [reflexivity|]. split.
  - intros k Hk.
    assert (H : exists re, In (k, re) sections).
    { change (keys agents0) with (keys sections) in Hk.
      unfold keys in Hk. apply in_map_iff in Hk.
      destruct Hk as ([k' re] & <- & Hin). now exists re. }
    destruct H as (re & Hre). rewrite (parse_get r Hre). eauto.
  - intros mk Hmk Hr.
    destruct (table_sections Hmk) as (Hg & Hl & T & HT & Htail).
    rewrite (parse_get r HT). unfold section_value.
    now rewrite (@exec_section_none _ _ _ _ r Htail Hg (upper_head_solid _ Hl) Hr).
Qed.

Lemma parse_six_keys_absent_empty_witness :
  obj_get (parseAgentResponse (u "no sections here")) "fraud" = Some [].
Proof.
  apply (proj2 (proj2 (proj2
           (parse_six_keys_absent_empty (u "no sections here"))))
           (mkMarker "fraud" glyph_fraud (u "FRAUD_DETECTOR") stops_fraud)).
  - right. right. left. reflexivity.
  - apply no_marker_by_search; [right; right; left; reflexivity|].
    vm_compute. reflexivity.
Defined.

(** [prefix_rest w l]: what follows [w] in [l], when [l] begins with [w]
    exactly. *)
Fixpoint prefix_rest (w l : jsstring) : option jsstring :=
  match w with
  | [] => Some l
  | c :: w' =>
      match l with
      | x :: l' => if (x =? c)%N then prefix_rest w' l' else None
      | [] => None
      end
  end.

Lemma prefix_rest_some w l sfx : prefix_rest w l = Some sfx -> l = w ++ sfx.
Proof.
  revert l. induction w as [|c w IH]; simpl; intros l H.
  - now injection H.
  - destruct l as [|x l]; [discriminate|].
    destruct (N.eqb_spec x c) as [->|]; [|discriminate].
    now rewrite (IH _ H).
Qed.

Lemma has_prefix w l :
  (match prefix_rest w l with Some _ => true | None => false end) = true ->
  exists sfx, l = w ++ sfx.
Proof.
  destruct (prefix_rest w l) as [sfx|] eqn:E; [|discriminate].
  intros _. exists sfx. now apply prefix_rest_some.
Qed.

Lemma find_prefix (ws : list jsstring) l :
  existsb
    (fun w => match prefix_rest w l with Some _ => true | None => false end)
    ws = true ->
  exists w sfx, In w ws /\ l = w ++ sfx.
Proof.
  intros H. apply existsb_exists in H. destruct H as (w & Hw & Hp).
  destruct (has_prefix _ _ Hp) as (sfx & E). now exists w, sfx.
Qed.

Ltac table_index i H :=
  repeat (destruct i as [|i]; [injection H as <-|]);
  try (destruct i; discriminate H).




(* ================================================================== *)
(** * Properties of the handlers *)

(** A printing of numbers for the examples below, in which no number is
    converted to a string (the ages are strings).  It agrees with
    Number::toString on NaN, the infinities, the zeros and the integers
    of magnitude below 2^53; for any other number it gives the integer
    part of the exact value, which is not the runtime's text. *)
Definition print_number (x : number) : jsstring :=
  match x with
  | S754_nan => u "NaN"
  | S754_infinity false => u "Infinity"
  | S754_infinity true => u "-Infinity"
  | S754_zero _ => u "0"
  | S754_finite s mant e =>
      (if s then u "-" else [])
      ++ u (DecimalString.NilZero.string_of_uint
              (N.to_uint
                 (Z.to_N
                    (if (0 <=? e)%Z then Z.shiftl (Zpos mant) e
                     else Z.shiftr (Zpos mant) (- e)))))
  end.

(** A world in which the endpoint answers every request with [reply] and
    the store every query with [stored]. *)
Definition constant_world (reply : fetch_reply) (stored : store_reply)
  : world :=
  mkWorld (fun _ _ => reply) (fun _ _ => stored) (fun _ _ _ => stored).

(** The endpoint's answer with the text [s] as the model's reply. *)
Definition model_says (s : jsstring) : fetch_reply :=
  FetchResponse
    (mkReply true []
       (Return
          (VObj [("message"%string, VObj [("content"%string, VStr s)])]))).

(** The store's answer to an insert that went through, with the new row's
    identifier. *)
Definition stored_as (id : Z) : store_reply :=
  StoreResult
    (VArr [VObj [("id"%string, VNum (number_of_Z id false))]]) VNull.

Definition store_error (msg : jsstring) : store_reply :=
  StoreResult VNull (VObj [("message"%string, VStr msg)]).

(** A request with symptoms and an age, without a file. *)
Definition request_cough_30 : request :=
  mkRequest
    (VObj [("symptoms"%string, VStr (u "cough"));
           ("age"%string, VStr (u "30"))])
    None.

Example analyze_cough_30 :
  snd (run (constant_world (model_says reply_six) (stored_as 7))
         (analyze print_number request_cough_30)) =
  Return (mkResponse 200
            (VObj [ ("fullResponse"%string, VStr reply_six);
                    ("agents"%string,
                     agents_value (parseAgentResponse reply_six));
                    ("caseId"%string, VNum (number_of_Z 7 false)) ])).
Proof. vm_compute. reflexivity. Qed.

Example analyze_cough_30_age :
  match
    fst (run (constant_world (model_says reply_six) (stored_as 7))
           (analyze print_number request_cough_30))
  with
  | [EvFetch _ _; EvInsert _ row] =>
      age row = VNum (number_of_Z 30 false) /\
      prescription_flag row = VStr (u "NONE")
  | _ => False
  end.
Proof. vm_compute. split; reflexivity. Qed.

Example parseInt10_samples :
  parseInt10 (u "30") = number_of_Z 30 false /\
  parseInt10 (u "  -12abc") = number_of_Z (-12) true /\
  parseInt10 (u "3.7") = number_of_Z 3 false /\
  parseInt10 (u "abc") = NaN /\
  parseInt10 [] = NaN.
Proof. vm_compute. repeat split. Qed.

(** A request with an empty [symptoms] field and an age. *)
Definition request_empty_symptoms : request :=
  mkRequest
    (VObj [("symptoms"%string, VStr []); ("age"%string, VStr (u "30"))])
    None.

(** C3, as stated, fails: in [request_empty_symptoms] both fields are
    present in the body, and the handler answers 400 with an error field
    and without a call. *)
Lemma present_fields_get_400 :
  present request_empty_symptoms "symptoms" /\
  present request_empty_symptoms "age" /\
  run (constant_world (model_says (u "ok")) (stored_as 1))
    (analyze print_number request_empty_symptoms) =
  ([], Return (mkResponse 400
                 (VObj [("error"%string,
                         VStr (u "Missing symptoms or age"))]))).
Proof.
  split; [|split].
  - cbv. discriminate.
  - cbv. discriminate.
  - vm_compute. reflexivity.
Qed.

(** C3, amended: for every POST /api/analyze request that has a body, the
    handler answers 400 if and only if the [symptoms] field or the [age]
    field is falsy (absent, null, false, zero, NaN or the empty string);
    it then sends a body with an [error] field and makes no model call
    and no store call.  In particular it does so when either field is
    missing, and it does not answer 400 when both are truthy. *)
Theorem analyze_400_iff_falsy_field
    (NumberToString : number -> jsstring) (w : world) (req : request) :
  is_nullish (body req) = false ->
  ((exists resp,
      snd (run w (analyze NumberToString req)) = Return resp /\
      status resp = 400)
   <->
   (ToBoolean (field req "symptoms") = false \/
    ToBoolean (field req "age") = false)) /\
  (ToBoolean (field req "symptoms") = false \/
   ToBoolean (field req "age") = false ->
   run w (analyze NumberToString req) =
   ([], Return (mkResponse 400
                  (VObj [("error"%string,
                          VStr (u "Missing symptoms or age"))])))) /\
  (~ present req "symptoms" \/ ~ present req "age" ->
   ToBoolean (field req "symptoms") = false \/
   ToBoolean (field req "age") = false).
Proof.
  intros Hb. pose proof (run_analyze NumberToString w req) as R.
  rewrite Hb in R.
  assert (F : negb (ToBoolean (field req "symptoms"))
              || negb (ToBoolean (field req "age")) = true <->
              ToBoolean (field req "symptoms") = false \/
              ToBoolean (field req "age") = false).
  { rewrite orb_true_iff, !negb_true_iff. reflexivity. }
  split; [split|split].
  - intros (resp & Hresp & Hst). apply F.
    destruct (negb (ToBoolean (field req "symptoms"))
              || negb (ToBoolean (field req "age"))); [reflexivity|].
    exfalso. rewrite R in Hresp. clear R.
    destruct (analyze_prompt NumberToString req) as [prompt|e0];
      [destruct (ollama_outcome _) as [full|e];
       [destruct (parseAgentResponse_value full) as [agents|e];
        [cbv zeta in Hresp;
         destruct (on_insert w "cases" _) as [name msg|data error];
         [|destruct (ToBoolean error)]|]|]|];
      cbn [snd] in Hresp;
      unfold inference_failed, save_failed, analyze_success in Hresp;
      injection Hresp as <-; discriminate Hst.
  - intros H. apply F in H. rewrite H in R. rewrite R.
    eexists. split; reflexivity.
  - intros H. apply F in H. rewrite H in R. exact R.
  - clear R F. unfold present.
    intros [H|H];
      [left; revert H; destruct (field req "symptoms")
      |right; revert H; destruct (field req "age")];
      intros H; try reflexivity; exfalso; apply H; discriminate.
Qed.

Lemma analyze_400_iff_falsy_field_witness :
  run (constant_world (model_says (u "ok")) (stored_as 1))
    (analyze print_number
       (mkRequest (VObj [("symptoms"%string, VStr (u "cough"))]) None)) =
  ([], Return (mkResponse 400
                 (VObj [("error"%string,
                         VStr (u "Missing symptoms or age"))]))).
Proof.
  apply (proj1 (proj2
    (@analyze_400_iff_falsy_field print_number
       (constant_world (model_says (u "ok")) (stored_as 1))
       (mkRequest (VObj [("symptoms"%string, VStr (u "cough"))]) None)
       eq_refl))).
  right. reflexivity.
Defined.

Lemma parse_value_inv full agents :
  parseAgentResponse_value full = Return agents ->
  exists s, full = VStr s /\ agents = parseAgentResponse s.
Proof.
  destruct full; cbn; intros H; try discriminate H.
  injection H as <-. eauto.
Qed.

Lemma callOllama_outcome w messages :
  snd (run w (callOllama messages)) =
  ollama_outcome (on_fetch w OLLAMA_URL (ollama_request messages)).
Proof. now rewrite run_callOllama. Qed.

(** A run of [analyze] that reaches the store: the model call came first
    and returned a string, the row is built from it, and the run ends by
    the store's reply. *)
Lemma analyze_insert_inv (NumberToString : number -> jsstring) w req t row :
  In (EvInsert t row) (fst (run w (analyze NumberToString req))) ->
  exists s,
    snd (run w (callOllama (analyze_messages NumberToString req))) =
      Return (VStr s) /\
    t = "cases"%string /\
    row = analyze_case NumberToString req (parseAgentResponse s) (VStr s) /\
    run w (analyze NumberToString req) =
    match on_insert w "cases" row with
    | StoreRejected name msg =>
        ([analyze_call NumberToString req; EvInsert "cases" row;
          log_throw (JsError name msg)],
         Return inference_failed)
    | StoreResult data error =>
        if ToBoolean error then
          ([analyze_call NumberToString req; EvInsert "cases" row;
            EvConsoleError (u "Supabase insert error:") (inl error)],
           Return save_failed)
        else
          ([analyze_call NumberToString req; EvInsert "cases" row],
           Return (analyze_success (parseAgentResponse s) (VStr s) data))
    end.
Proof.
  rewrite callOllama_outcome, run_analyze.
  destruct (is_nullish (body req)).
  { cbn. intros [H|[]]; discriminate H. }
  destruct (negb (ToBoolean (field req "symptoms"))
            || negb (ToBoolean (field req "age"))).
  { intros []. }
  destruct (analyze_prompt NumberToString req) as [prompt|e0].
  2: { cbn. intros [H|[]]; discriminate H. }
  destruct (ollama_outcome _) as [full|e].
  2: { cbn. intros [H|[H|[]]]; discriminate H. }
  destruct (parseAgentResponse_value full) as [agents|e] eqn:Ep.
  2: { cbn. intros [H|[H|[]]]; discriminate H. }
  destruct (parse_value_inv _ Ep) as (s & -> & ->). cbv zeta.
  set (r0 := analyze_case NumberToString req (parseAgentResponse s) (VStr s)).
  intros H. exists s. split; [reflexivity|].
  assert (E : t = "cases"%string /\ row = r0).
  { destruct (on_insert w "cases" r0) as [name msg|data error];
      [|destruct (ToBoolean error)]; cbn in H;
      repeat (destruct H as [H|H]; try discriminate H);
      try contradiction; injection H as <- <-; split; reflexivity. }
  destruct E as [-> ->]. split; [reflexivity|]. split; reflexivity.
Qed.

(** C4: whenever a run of the analyze handler reaches the store and the
    insert reports an error, the model call had succeeded, and the handler
    answers 500 with a body that holds the error message only: neither the
    model's reply ([fullResponse]) nor the extracted sections ([agents])
    are in it. *)
Theorem analyze_store_error_discards_reply
    (NumberToString : number -> jsstring) (w : world) (req : request)
    (t : string) (row : case_row) (data error : value) :
  In (EvInsert t row) (fst (run w (analyze NumberToString req))) ->
  on_insert w t row = StoreResult data error ->
  ToBoolean error = true ->
  (exists s,
     snd (run w (callOllama (analyze_messages NumberToString req))) =
       Return (VStr s)) /\
  snd (run w (analyze NumberToString req)) =
    Return (mkResponse 500
              (VObj [("error"%string,
                      VStr (u "Failed to save case to database"))])) /\
  (forall resp,
     snd (run w (analyze NumberToString req)) = Return resp ->
     status resp = 500 /\
     member_opt (json_body resp) "fullResponse" = VUndefined /\
     member_opt (json_body resp) "agents" = VUndefined /\
     member_opt (json_body resp) "error" <> VUndefined).
Proof.
  intros Hin Hw He.
  destruct (analyze_insert_inv _ _ _ _ _ Hin) as (s & Hs & -> & Hrow & R).
  rewrite Hw, He in R. split; [eauto|]. rewrite R. split; [reflexivity|].
  intros resp [= <-]. repeat split. discriminate.
Qed.

Lemma analyze_store_error_discards_reply_witness :
  snd (run (constant_world (model_says reply_six)
              (store_error (u "insert refused")))
         (analyze print_number
            (mkRequest
               (VObj [("symptoms"%string, VStr (u "cough"));
                      ("age"%string, VStr (u "30"))])
               None))) =
  Return (mkResponse 500
            (VObj [("error"%string,
                    VStr (u "Failed to save case to database"))])).
Proof.
  set (w := constant_world (model_says reply_six)
              (store_error (u "insert refused"))).
  set (req := mkRequest
               (VObj [("symptoms"%string, VStr (u "cough"));
                      ("age"%string, VStr (u "30"))])
               None).
  refine (proj1 (proj2
    (@analyze_store_error_discards_reply print_number w req "cases"
       (analyze_case print_number req (parseAgentResponse reply_six)
          (VStr reply_six))
       VNull (VObj [("message"%string, VStr (u "insert refused"))])
       _ eq_refl eq_refl))).
  rewrite run_analyze. vm_compute. right. left. reflexivity.
Defined.

(** The shapes a run of [analyze] can have. *)
Lemma analyze_trace_shape (NumberToString : number -> jsstring) w req :
  let tr := fst (run w (analyze NumberToString req)) in
  (exists e, tr = [log_throw e]) \/ tr = [] \/
  (exists e, tr = [analyze_call NumberToString req; log_throw e]) \/
  (exists row tail,
     tr = analyze_call NumberToString req :: EvInsert "cases" row :: tail /\
     filter is_model_call tail = [] /\ filter is_store_call tail = []).
Proof.
  cbv zeta. rewrite run_analyze.
  destruct (is_nullish (body req)); [left; eexists; reflexivity|].
  destruct (negb (ToBoolean (field req "symptoms"))
            || negb (ToBoolean (field req "age"))); [right; left; reflexivity|].
  destruct (analyze_prompt NumberToString req) as [prompt|e0];
    [|left; eexists; reflexivity].
  destruct (ollama_outcome _) as [full|e];
    [|right; right; left; eexists; reflexivity].
  destruct (parseAgentResponse_value full) as [agents|e];
    [|right; right; left; eexists; reflexivity].
  right; right; right. cbv zeta.
  destruct (on_insert w "cases" _) as [name msg|data error];
    [|destruct (ToBoolean error)];
    eexists; eexists; (split; [reflexivity|split; reflexivity]).
Qed.

(** C5: in every run of the analyze handler in which the model call is
    made and throws, the handler answers 500 with an error field and no
    store call is made; in every run there is at most one model call and
    at most one store call; and a store call comes only after the one
    model call, which has then returned (the model's reply, a string). *)
Theorem analyze_model_then_store
    (NumberToString : number -> jsstring) (w : world) (req : request) :
  (forall e,
     In (analyze_call NumberToString req)
        (fst (run w (analyze NumberToString req))) ->
     snd (run w (callOllama (analyze_messages NumberToString req))) =
       Throw e ->
     snd (run w (analyze NumberToString req)) =
       Return (mkResponse 500
                 (VObj [("error"%string,
                         VStr (u "Ollama inference failed. Make sure Ollama is running."))])) /\
     filter is_store_call (fst (run w (analyze NumberToString req))) = []) /\
  model_calls (fst (run w (analyze NumberToString req))) <= 1 /\
  store_calls (fst (run w (analyze NumberToString req))) <= 1 /\
  (forall pre t row post,
     fst (run w (analyze NumberToString req)) =
       pre ++ EvInsert t row :: post ->
     pre = [EvFetch OLLAMA_URL
              (ollama_request (analyze_messages NumberToString req))] /\
     filter is_store_call post = [] /\
     exists s,
       snd (run w (callOllama (analyze_messages NumberToString req))) =
         Return (VStr s)).
Proof.
  split; [|split; [|split]].
  - intros e Hin He. rewrite callOllama_outcome in He.
    revert Hin. rewrite run_analyze.
    destruct (is_nullish (body req)).
    { cbn. intros [H|[]]; discriminate H. }
    destruct (negb (ToBoolean (field req "symptoms"))
              || negb (ToBoolean (field req "age"))).
    { intros []. }
    destruct (analyze_prompt NumberToString req) as [prompt|e0].
    2: { cbn. intros [H|[]]; discriminate H. }
    rewrite He. intros _. split; reflexivity.
  - unfold model_calls.
    destruct (analyze_trace_shape NumberToString w req)
      as [(e & ->)|[->|[(e & ->)|(row & tail & -> & Hm & Hs)]]];
      cbn; try lia. rewrite Hm. cbn. lia.
  - unfold store_calls.
    destruct (analyze_trace_shape NumberToString w req)
      as [(e & ->)|[->|[(e & ->)|(row & tail & -> & Hm & Hs)]]];
      cbn; try lia. rewrite Hs. cbn. lia.
  - intros pre t row post E.
    assert (Hin : In (EvInsert t row)
                    (fst (run w (analyze NumberToString req)))).
    { rewrite E. apply in_elt. }
    destruct (analyze_insert_inv _ _ _ _ _ Hin) as (s & Hs & -> & Hrow & R).
    assert (S : exists tail,
               fst (run w (analyze NumberToString req)) =
               analyze_call NumberToString req :: EvInsert "cases" row :: tail
               /\ filter is_store_call tail = []).
    { rewrite R. destruct (on_insert w "cases" row) as [name msg|data error];
        [|destruct (ToBoolean error)]; eexists; split; reflexivity. }
    destruct S as (tail & Etr & Htail). rewrite Etr in E.
    destruct pre as [|e1 [|e2 pre]].
    + discriminate E.
    + injection E as <- <-. repeat split; [exact Htail|eauto].
    + exfalso. injection E as _ _ E.
      assert (Hmem : In (EvInsert "cases" row) tail).
      { rewrite E. apply in_elt. }
      assert (Hf : In (EvInsert "cases" row) (filter is_store_call tail)).
      { apply filter_In. split; [exact Hmem|reflexivity]. }
      now rewrite Htail in Hf.
Qed.

Lemma analyze_model_then_store_witness :
  snd (run (constant_world (FetchRejected "FetchError" (u "ECONNREFUSED"))
              (stored_as 1))
         (analyze print_number
            (mkRequest
               (VObj [("symptoms"%string, VStr (u "cough"));
                      ("age"%string, VStr (u "30"))])
               None))) =
    Return (mkResponse 500
              (VObj [("error"%string,
                      VStr (u "Ollama inference failed. Make sure Ollama is running."))])) /\
  filter is_store_call
    (fst (run (constant_world (FetchRejected "FetchError" (u "ECONNREFUSED"))
                 (stored_as 1))
            (analyze print_number
               (mkRequest
                  (VObj [("symptoms"%string, VStr (u "cough"));
                         ("age"%string, VStr (u "30"))])
                  None)))) = [].
Proof.
  apply (proj1 (@analyze_model_then_store print_number
                  (constant_world
                     (FetchRejected "FetchError" (u "ECONNREFUSED"))
                     (stored_as 1))
                  (mkRequest
                     (VObj [("symptoms"%string, VStr (u "cough"));
                            ("age"%string, VStr (u "30"))])
                     None))
           (JsError "FetchError" (u "ECONNREFUSED"))).
  - rewrite run_analyze. vm_compute. left. reflexivity.
  - rewrite run_callOllama. reflexivity.
Defined.

(** The six section keys and the columns of the row they are written to. *)
Definition section_columns : list (string * (case_row -> value)) :=
  [ ("symptom"%string, symptom_analyzer);
    ("risk"%string, risk_predictor);
    ("fraud"%string, fraud_detector);
    ("security"%string, security_guardian);
    ("coordinator"%string, coordinator_insights);
    ("recommendations"%string, recommendations) ].

Lemma stored_section agents k text :
  obj_get agents k = Some text ->
  or_else (agent agents k) VNull = if isEmpty text then VNull else VStr text.
Proof.
  intros H. unfold agent. rewrite H. unfold or_else. cbn.
  destruct text; reflexivity.
Qed.

Lemma parse_has_key r k :
  In k (keys sections) -> exists text, obj_get (parseAgentResponse r) k = Some text.
Proof.
  intros Hk. unfold keys in Hk. apply in_map_iff in Hk.
  destruct Hk as ([k' re] & <- & Hin). cbn [fst].
  rewrite (parse_get r Hin). eauto.
Qed.

(** C6: in every run of the analyze handler that answers 200, one row was
    written to the store, after the model returned a string [s]; each of
    its six section columns holds the text [parseAgentResponse] extracted
    from [s] for the key when that text is not empty, and null when it is
    the empty string. *)
Theorem analyze_stores_sections_or_null
    (NumberToString : number -> jsstring) (w : world) (req : request)
    (resp : response) :
  snd (run w (analyze NumberToString req)) = Return resp ->
  status resp = 200 ->
  exists s row,
    snd (run w (callOllama (analyze_messages NumberToString req))) =
      Return (VStr s) /\
    fst (run w (analyze NumberToString req)) =
      [EvFetch OLLAMA_URL
         (ollama_request (analyze_messages NumberToString req));
       EvInsert "cases" row] /\
    full_response row = VStr s /\
    Forall
      (fun kc =>
         exists text,
           obj_get (parseAgentResponse s) (fst kc) = Some text /\
           snd kc row = if isEmpty text then VNull else VStr text)
      section_columns.
Proof.
  rewrite callOllama_outcome, run_analyze.
  destruct (is_nullish (body req)).
  { intros [= <-]. discriminate. }
  destruct (negb (ToBoolean (field req "symptoms"))
            || negb (ToBoolean (field req "age"))).
  { intros [= <-]. discriminate. }
  destruct (analyze_prompt NumberToString req) as [prompt|e0];
    [|intros [= <-]; discriminate].
  destruct (ollama_outcome _) as [full|e]; [|intros [= <-]; discriminate].
  destruct (parseAgentResponse_value full) as [agents|e] eqn:Ep;
    [|intros [= <-]; discriminate].
  destruct (parse_value_inv _ Ep) as (s & -> & ->). cbv zeta.
  destruct (on_insert w "cases" _) as [name msg|data error];
    [intros [= <-]; discriminate|].
  destruct (ToBoolean error); [intros [= <-]; discriminate|].
  intros _ _. exists s. eexists. split; [reflexivity|].
  split; [reflexivity|]. split; [reflexivity|].
  unfold section_columns.
  repeat (apply Forall_cons;
          [cbn [fst snd];
           match goal with
           | |- exists text, obj_get _ ?k = Some text /\ _ =>
               destruct (@parse_has_key s k) as (text & Ht);
                 [cbn; tauto
                 |exists text; split; [exact Ht|apply stored_section, Ht]]
           end|]).
  apply Forall_nil.
Qed.

Lemma analyze_stores_sections_or_null_witness :
  exists s row,
    snd (run (constant_world (model_says reply_label_in_text) (stored_as 7))
           (callOllama
              (analyze_messages print_number
                 (mkRequest
                    (VObj [("symptoms"%string, VStr (u "cough"));
                           ("age"%string, VStr (u "30"))])
                    None)))) =
      Return (VStr s) /\
    fst (run (constant_world (model_says reply_label_in_text) (stored_as 7))
           (analyze print_number
              (mkRequest
                 (VObj [("symptoms"%string, VStr (u "cough"));
                        ("age"%string, VStr (u "30"))])
                 None))) =
      [EvFetch OLLAMA_URL
         (ollama_request
            (analyze_messages print_number
               (mkRequest
                  (VObj [("symptoms"%string, VStr (u "cough"));
                         ("age"%string, VStr (u "30"))])
                  None)));
       EvInsert "cases" row] /\
    full_response row = VStr s /\
    Forall
      (fun kc =>
         exists text,
           obj_get (parseAgentResponse s) (fst kc) = Some text /\
           snd kc row = if isEmpty text then VNull else VStr text)
      section_columns.
Proof.
  apply (@analyze_stores_sections_or_null print_number
           (constant_world (model_says reply_label_in_text) (stored_as 7))
           (mkRequest
              (VObj [("symptoms"%string, VStr (u "cough"));
                     ("age"%string, VStr (u "30"))])
              None)
           (analyze_success (parseAgentResponse reply_label_in_text)
              (VStr reply_label_in_text)
              (VArr [VObj [("id"%string, VNum (number_of_Z 7 false))]]))).
  - rewrite run_analyze. vm_compute. reflexivity.
  - reflexivity.
Defined.

(** A request whose age is not a numeral. *)
Definition request_age_abc : request :=
  mkRequest
    (VObj [("symptoms"%string, VStr (u "cough"));
           ("age"%string, VStr (u "abc"))])
    None.

(** C7 at the failing input: the request [request_age_abc] passes the
    validation, and in every run that reaches the store the row's [age]
    is NaN, which is not an integer. *)
Theorem analyze_age_abc_stores_NaN
    (NumberToString : number -> jsstring) (w : world) (t : string)
    (row : case_row) :
  In (EvInsert t row)
     (fst (run w (analyze NumberToString request_age_abc))) ->
  age row = VNum NaN /\ is_integer NaN = false.
Proof.
  intros Hin.
  destruct (analyze_insert_inv _ _ _ _ _ Hin) as (s & _ & _ & -> & _).
  split; reflexivity.
Qed.

Lemma analyze_age_abc_stores_NaN_witness :
  age (analyze_case print_number request_age_abc
         (parseAgentResponse reply_six) (VStr reply_six)) = VNum NaN /\
  is_integer NaN = false.
Proof.
  apply (@analyze_age_abc_stores_NaN print_number
           (constant_world (model_says reply_six) (stored_as 7)) "cases").
  rewrite run_analyze. vm_compute. right. left. reflexivity.
Defined.

(** C9: every run of the health handler makes one read of the store and
    no model call; it answers 200 with [{status: "ok"}] when the read
    reports no error, and 500 with [status: "error"] and the error's
    message when the read reports an error or is rejected. *)
Theorem health_reports_store_read (w : world) :
  fst (run w health) = [EvSelect "cases" "id" 1] /\
  model_calls (fst (run w health)) = 0 /\
  (forall data error,
     on_select w "cases" "id" 1 = StoreResult data error ->
     ToBoolean error = false ->
     snd (run w health) =
       Return (mkResponse 200 (VObj [("status"%string, VStr (u "ok"))]))) /\
  (forall data error,
     on_select w "cases" "id" 1 = StoreResult data error ->
     ToBoolean error = true ->
     snd (run w health) =
       Return (mkResponse 500
                 (VObj [ ("status"%string, VStr (u "error"));
                         ("message"%string, member_opt error "message") ]))) /\
  (forall name msg,
     on_select w "cases" "id" 1 = StoreRejected name msg ->
     snd (run w health) =
       Return (mkResponse 500
                 (VObj [ ("status"%string, VStr (u "error"));
                         ("message"%string, VStr msg) ]))).
Proof.
  rewrite run_health. cbn [fst snd].
  split; [reflexivity|]. split; [reflexivity|].
  split; [|split].
  - intros data error -> ->. reflexivity.
  - intros data error -> ->. reflexivity.
  - intros name msg ->. reflexivity.
Qed.

Lemma health_reports_store_read_witness :
  snd (run (constant_world (model_says []) (store_error (u "no such table")))
         health) =
  Return (mkResponse 500
            (VObj [ ("status"%string, VStr (u "error"));
                    ("message"%string, VStr (u "no such table")) ])).
Proof.
  apply (proj1 (proj2 (proj2 (proj2
           (health_reports_store_read
              (constant_world (model_says [])
                 (store_error (u "no such table")))))))
           VNull (VObj [("message"%string, VStr (u "no such table"))])).
  - reflexivity.
  - reflexivity.
Defined.

(** C10, as stated, fails: a request without a body ([req.body] is
    [undefined]) reaches the chat handler, the destructuring of the body
    throws before the model is called, and the handler answers 500
    without a model call. *)
Lemma chat_without_body_makes_no_call :
  run (constant_world (model_says (u "hello")) (stored_as 1))
    (chat (mkRequest VUndefined None)) =
  ([EvConsoleError []
      (inr (TypeError_destructure false "caseContext" "req.body"))],
   Return (mkResponse 500
             (VObj [("error"%string, VStr (u "Chat failed"))]))) /\
  model_calls
    (fst (run (constant_world (model_says (u "hello")) (stored_as 1))
            (chat (mkRequest VUndefined None)))) = 0 /\
  model_calls
    (fst (run (constant_world (model_says (u "hello")) (stored_as 1))
            (chat (mkRequest VUndefined None)))) <> 1.
Proof.
  split; [|split].
  - vm_compute. reflexivity.
  - vm_compute. reflexivity.
  - vm_compute. discriminate.
Qed.

(** C10, amended: the chat handler validates nothing.  For every request
    that has a body, exactly one model call is made, whose two user turns
    are the body's [caseContext] and [question] as they are ([undefined]
    when absent); the answer is 200 with the value the call returned as
    [reply] when the call returns, and 500 with [{error}] when it throws.
    With or without a body the answer is 200 with [{reply}] or 500 with
    [{error}], and never 400. *)
Theorem chat_no_validation (w : world) (req : request) :
  (is_nullish (body req) = false ->
   model_calls (fst (run w (chat req))) = 1 /\
   In (EvFetch OLLAMA_URL
         (mkChatRequest OLLAMA_MODEL
            [ mkMessage (u "system") (VStr chatSystemPrompt);
              mkMessage (u "user") (member_opt (body req) "caseContext");
              mkMessage (u "user") (member_opt (body req) "question") ]
            false))
      (fst (run w (chat req))) /\
   (forall fields k,
      body req = VObj fields -> lookup k fields = None ->
      member_opt (body req) k = VUndefined) /\
   (forall reply,
      snd (run w (callOllama (chat_messages req))) = Return reply ->
      snd (run w (chat req)) =
        Return (mkResponse 200 (VObj [("reply"%string, reply)]))) /\
   (forall e,
      snd (run w (callOllama (chat_messages req))) = Throw e ->
      snd (run w (chat req)) =
        Return (mkResponse 500
                  (VObj [("error"%string, VStr (u "Chat failed"))])))) /\
  ((exists reply,
      snd (run w (chat req)) =
        Return (mkResponse 200 (VObj [("reply"%string, reply)]))) \/
   snd (run w (chat req)) =
     Return (mkResponse 500 (VObj [("error"%string, VStr (u "Chat failed"))]))) /\
  (forall resp, snd (run w (chat req)) = Return resp -> status resp <> 400).
Proof.
  rewrite run_chat. split; [|split].
  - intros ->. cbv zeta. split; [|split; [|split; [|split]]].
    + destruct (ollama_outcome _); reflexivity.
    + destruct (ollama_outcome _); left; reflexivity.
    + intros fields k -> Hk. unfold member_opt. cbn. now rewrite Hk.
    + intros reply H. rewrite callOllama_outcome in H. now rewrite H.
    + intros e H. rewrite callOllama_outcome in H. now rewrite H.
  - destruct (is_nullish (body req)); [right; reflexivity|]. cbv zeta.
    destruct (ollama_outcome _) as [reply|e];
      [left; eexists; reflexivity|right; reflexivity].
  - destruct (is_nullish (body req)).
    + intros resp [= <-]. discriminate.
    + cbv zeta. destruct (ollama_outcome _); intros resp [= <-]; discriminate.
Qed.

Lemma chat_no_validation_witness :
  model_calls
    (fst (run (constant_world (model_says (u "hello")) (stored_as 1))
            (chat (mkRequest (VObj []) None)))) = 1 /\
  In (EvFetch OLLAMA_URL
        (mkChatRequest OLLAMA_MODEL
           [ mkMessage (u "system") (VStr chatSystemPrompt);
             mkMessage (u "user") VUndefined;
             mkMessage (u "user") VUndefined ]
           false))
     (fst (run (constant_world (model_says (u "hello")) (stored_as 1))
             (chat (mkRequest (VObj []) None)))) /\
  snd (run (constant_world (model_says (u "hello")) (stored_as 1))
         (chat (mkRequest (VObj []) None))) =
    Return (mkResponse 200 (VObj [("reply"%string, VStr (u "hello"))])).
Proof.
  destruct (proj1 (chat_no_validation
                     (constant_world (model_says (u "hello")) (stored_as 1))
                     (mkRequest (VObj []) None))
              eq_refl) as (H1 & H2 & _ & H4 & _).
  split; [exact H1|]. split; [exact H2|].
  apply H4. rewrite run_callOllama. reflexivity.
Defined.

(* ================================================================== *)
(** * Further properties of the section extractor *)

Unset Implicit Arguments.

(** Without white space at either end. *)
Definition trimmed (v : jsstring) : Prop :=
  (forall c t, v = c :: t -> isWhiteSpace c = false) /\
  (forall t c, v = t ++ [c] -> isWhiteSpace c = false).

Lemma trim_split s :
  exists a b, s = a ++ trim s ++ b /\ all_space a /\ all_space b.
Proof.
  unfold trim, trimEnd, trimStart.
  destruct (dropWhile_split isWhiteSpace s) as (a & Ea & Ha).
  destruct (dropWhile_split isWhiteSpace (rev (dropWhile isWhiteSpace s)))
    as (b & Eb & Hb).
  exists a, (rev b). split; [|split; [exact Ha|now apply Forall_rev]].
  rewrite Ea at 1. f_equal.
  rewrite <- (rev_involutive (dropWhile isWhiteSpace s)) at 1.
  rewrite Eb at 1. now rewrite rev_app_distr.
Qed.

Lemma trim_trimmed s : trimmed (trim s).
Proof.
  split.
  - intros c t E.
    destruct (dropWhile_split isWhiteSpace
                (rev (dropWhile isWhiteSpace s))) as (b & Eb & _).
    apply (f_equal (@rev _)) in Eb.
    rewrite rev_involutive, rev_app_distr in Eb.
    change (rev (dropWhile isWhiteSpace (rev (dropWhile isWhiteSpace s))))
      with (trim s) in Eb.
    rewrite E in Eb. simpl in Eb. exact (dropWhile_head _ _ Eb).
  - intros t c E. unfold trim, trimEnd in E.
    apply (f_equal (@rev _)) in E. rewrite rev_involutive in E.
    rewrite rev_app_distr in E. simpl in E. exact (dropWhile_head _ _ E).
Qed.

Lemma dropWhile_solid_head p s :
  (forall c t, s = c :: t -> p c = false) -> dropWhile p s = s.
Proof.
  destruct s as [|c t]; [reflexivity|]. intros H. simpl.
  now rewrite (H c t eq_refl).
Qed.

Lemma trimmed_fixed v : trimmed v -> trim v = v.
Proof.
  intros [Hh Hl]. unfold trim, trimEnd, trimStart.
  rewrite (dropWhile_solid_head _ _ Hh).
  rewrite dropWhile_solid_head; [apply rev_involutive|].
  intros c t E. apply (Hl (rev t) c).
  rewrite <- (rev_involutive v), E. reflexivity.
Qed.

Lemma obj_get_in_keys o k v : obj_get o k = Some v -> In k (keys o).
Proof.
  induction o as [|[k0 v0] o IH]; simpl; [discriminate|].
  destruct (String.eqb_spec k0 k) as [->|]; [now left|]. intros H. right. auto.
Qed.

Lemma parse_get_inv r k v :
  obj_get (parseAgentResponse r) k = Some v ->
  exists re, In (k, re) sections /\ v = section_value re r.
Proof.
  intros H. pose proof (obj_get_in_keys _ k v H) as Hk.
  rewrite parse_keys in Hk. change (keys agents0) with (keys sections) in Hk.
  unfold keys in Hk. apply in_map_iff in Hk.
  destruct Hk as ([k' re] & E & Hin). cbn [fst] in E. subst k'.
  exists re. split; [exact Hin|]. rewrite (parse_get r Hin) in H. congruence.
Qed.

Lemma key_in_table k re :
  In (k, re) sections -> exists mk, In mk marker_table /\ key mk = k.
Proof.
  intros H.
  assert (Hk : In k (map key marker_table)).
  { change (map key marker_table) with (keys sections).
    unfold keys. change k with (fst (k, re)). now apply in_map. }
  apply in_map_iff in Hk. destruct Hk as (mk & E & Hmk). eauto.
Qed.

(** The value under a key of the table: empty when the reply has no start
    marker of the key, and the trimmed captured text otherwise. *)
Lemma parse_value_cases mk r :
  In mk marker_table ->
  (~ has_marker (glyph mk) (label mk) r /\
   obj_get (parseAgentResponse r) (key mk) = Some []) \/
  (exists pre m ld body post,
     r = pre ++ m ++ ld ++ body ++ post /\
     is_marker (glyph mk) (label mk) m /\
     first_suffix (begins_with (is_marker (glyph mk) (label mk))) pre
       (m ++ ld ++ body ++ post) /\
     is_lead ld (body ++ post) /\
     first_suffix (at_stop (stops mk)) body post /\
     obj_get (parseAgentResponse r) (key mk) = Some (trim body)).
Proof.
  intros Hmk. destruct (table_sections Hmk) as (Hg & Hl & T & HT & Htail).
  rewrite (parse_get r HT). unfold section_value.
  destruct (find_marker (glyph mk) (label mk) r) as [s3|] eqn:E.
  - right.
    assert (Hr : has_marker (glyph mk) (label mk) r).
    { apply has_marker_by_search; [exact Hmk|congruence]. }
    destruct (@exec_section_some _ _ _ _ r Htail Hg (upper_head_solid _ Hl) Hr)
      as (pre & m & ld & body & post & Er & Hm & Hf & Hld & Hstop & Hexec).
    exists pre, m, ld, body, post. repeat (split; [assumption|]).
    rewrite Hexec. cbn [capture]. now rewrite trim_nil_if.
  - left. pose proof (@no_marker_by_search mk r Hmk E) as Hr.
    split; [exact Hr|].
    now rewrite (@exec_section_none _ _ _ _ r Htail Hg (upper_head_solid _ Hl) Hr).
Qed.

Lemma nil_trimmed : trimmed [].
Proof.
  split; intros ? ? E; [discriminate E|].
  symmetry in E. apply app_eq_nil in E. destruct E; discriminate.
Qed.

Lemma section_value_trimmed re r : trimmed (section_value re r).
Proof.
  unfold section_value. destruct (exec re r) as [y|]; [|apply nil_trimmed].
  destruct (capture y) as [text|]; [|apply nil_trimmed].
  rewrite trim_nil_if. apply trim_trimmed.
Qed.

(** X1: every value of the result is trimmed: it has no white space at its
    beginning or at its end, and trimming it again changes nothing. *)
Theorem parse_values_trimmed (r : jsstring) (k : string) (v : jsstring) :
  obj_get (parseAgentResponse r) k = Some v ->
  trimmed v /\ trim v = v.
Proof.
  intros H. destruct (parse_get_inv r k v H) as (re & _ & ->).
  split; [apply section_value_trimmed|].
  apply trimmed_fixed, section_value_trimmed.
Qed.

Lemma parse_values_trimmed_witness :
  trimmed (u "dry cough") /\ trim (u "dry cough") = u "dry cough".
Proof.
  apply (parse_values_trimmed reply_six "symptom" (u "dry cough")).
  vm_compute. reflexivity.
Defined.

(** X2: every value of the result is a piece of the reply: the extractor
    returns text that stands in the reply as it is, and nothing else. *)
Theorem parse_values_are_substrings (r : jsstring) (k : string)
    (v : jsstring) :
  obj_get (parseAgentResponse r) k = Some v ->
  exists pre post, r = pre ++ v ++ post.
Proof.
  intros H. destruct (parse_get_inv r k v H) as (re & Hre & _).
  destruct (key_in_table k re Hre) as (mk & Hmk & <-).
  destruct (parse_value_cases mk r Hmk)
    as [(_ & E)|(pre & m & ld & body & post & Er & _ & _ & _ & _ & E)];
    rewrite E in H; injection H as <-.
  - exists [], r. reflexivity.
  - destruct (trim_split body) as (a & b & Eb & _ & _).
    exists (pre ++ m ++ ld ++ a), (b ++ post).
    rewrite Er. rewrite Eb at 1. now rewrite <- !app_assoc.
Qed.

Lemma parse_values_are_substrings_witness :
  exists pre post, reply_six = pre ++ u "consistent" ++ post.
Proof.
  apply (parse_values_are_substrings reply_six "coordinator" (u "consistent")).
  vm_compute. reflexivity.
Defined.

Lemma stops_nonempty mk st :
  In mk marker_table -> In st (stops mk) -> st <> [].
Proof.
  intros Hmk Hst.
  repeat (destruct Hmk as [<-|Hmk]; [cbn [stops] in Hst|]);
    try contradiction;
    repeat (destruct Hst as [<-|Hst]; [discriminate|]); contradiction.
Qed.

(** In the lookahead of a section stand the glyph of every later section
    and a word with which its label begins. *)
Lemma later_stops i j e1 e2 :
  nth_error marker_table i = Some e1 ->
  nth_error marker_table j = Some e2 -> i < j ->
  In (glyph e2) (stops e1) /\
  exists w sfx, In w (stops e1) /\ label e2 = w ++ sfx.
Proof.
  intros Hi Hj Hlt.
  table_index i Hi; table_index j Hj; try lia;
    (split; [repeat (first [left; reflexivity | right])
            |apply find_prefix; reflexivity]).
Qed.

Lemma value_has_no_stop mk r v :
  In mk marker_table ->
  obj_get (parseAgentResponse r) (key mk) = Some v ->
  forall x w y, v = x ++ w ++ y -> ~ is_stop (stops mk) w.
Proof.
  intros Hmk Hv x w y E (st & Hst & Hw).
  assert (Hne : w <> []).
  { intros ->. inversion Hw; subst. now apply (stops_nonempty mk [] Hmk Hst). }
  destruct (parse_value_cases mk r Hmk)
    as [(_ & E0)|(pre & m & ld & body & post & _ & _ & _ & _ & [_ Hs] & E0)];
    rewrite E0 in Hv; injection Hv as <-.
  - symmetry in E. apply app_eq_nil in E. destruct E as [_ E].
    apply app_eq_nil in E. destruct E as [E _]. contradiction.
  - destruct (trim_split body) as (a & b & Eb & _ & _).
    apply (Hs (a ++ x) (w ++ y ++ b)).
    + rewrite Eb at 1. rewrite E. now rewrite <- !app_assoc.
    + destruct w; [contradiction|discriminate].
    + right. exists w, (y ++ b ++ post). split.
      * now rewrite <- !app_assoc.
      * now exists st.
Qed.

(** X3: the value of a section never holds the glyph of a later section,
    nor the label of a later section in any letter case: the extracted
    text of one section never runs into the next ones. *)
Theorem value_has_no_later_glyph_or_label
    (i j : nat) (e1 e2 : marker) (r v x w y : jsstring) :
  nth_error marker_table i = Some e1 ->
  nth_error marker_table j = Some e2 -> i < j ->
  obj_get (parseAgentResponse r) (key e1) = Some v ->
  v = x ++ w ++ y ->
  w <> glyph e2 /\ ~ same_letters w (label e2).
Proof.
  intros Hi Hj Hlt Hv E.
  pose proof (nth_error_In _ _ Hi) as H1.
  destruct (later_stops i j e1 e2 Hi Hj Hlt) as (Hg & st & sfx & Hst & El).
  split.
  - intros ->. apply (value_has_no_stop e1 r v H1 Hv x (glyph e2) y E).
    exists (glyph e2). split; [exact Hg|apply same_letters_refl].
  - intros Hw. unfold same_letters in Hw. rewrite El in Hw.
    apply Forall2_app_inv_r in Hw.
    destruct Hw as (w1 & w2 & H1w & _ & ->).
    apply (value_has_no_stop e1 r v H1 Hv x w1 (w2 ++ y)).
    + rewrite E. now rewrite <- !app_assoc.
    + now exists st.
Qed.

Lemma value_has_no_later_glyph_or_label_witness :
  u "cough" <> glyph_coordinator /\
  ~ same_letters (u "cough") (u "COORDINATOR_INSIGHTS").
Proof.
  apply (value_has_no_later_glyph_or_label 0 4 symptom_marker
           (mkMarker "coordinator" glyph_coordinator
              (u "COORDINATOR_INSIGHTS") stops_coordinator)
           reply_six (u "dry cough") (u "dry ") (u "cough") []).
  - reflexivity.
  - reflexivity.
  - lia.
  - vm_compute. reflexivity.
  - reflexivity.
Defined.

(** X4: the last section takes everything: when the reply has the
    recommendations marker, the value of [recommendations] is all the text
    from the first such marker (and an optional colon and white space) to
    the end of the reply, trimmed - other markers in it included. *)
Theorem recommendations_run_to_the_end (r : jsstring) :
  has_marker glyph_recommendations (u "RECOMMENDATIONS") r ->
  exists pre m ld body,
    r = pre ++ m ++ ld ++ body /\
    is_marker glyph_recommendations (u "RECOMMENDATIONS") m /\
    first_suffix
      (begins_with (is_marker glyph_recommendations (u "RECOMMENDATIONS")))
      pre (m ++ ld ++ body) /\
    is_lead ld body /\
    obj_get (parseAgentResponse r) "recommendations" = Some (trim body).
Proof.
  intros Hr.
  destruct (parse_value_cases
              (mkMarker "recommendations" glyph_recommendations
                 (u "RECOMMENDATIONS") []) r)
    as [(Hn & _)|(pre & m & ld & body & post & E & Hm & Hf & Hld & [Hs _] & Hv)].
  - do 5 right. left. reflexivity.
  - contradiction.
  - cbn [glyph label stops key] in *.
    assert (Hp : post = []).
    { destruct Hs as [->|(a & t & _ & st & [] & _)]. reflexivity. }
    subst post. rewrite app_nil_r in *.
    exists pre, m, ld, body. repeat (split; [assumption|]). exact Hv.
Qed.

Lemma recommendations_run_to_the_end_witness :
  exists pre m ld body,
    glyph_recommendations ++ u "recommendations: rest " ++ glyph_risk
      ++ u " RISK_PREDICTOR: low" = pre ++ m ++ ld ++ body /\
    is_marker glyph_recommendations (u "RECOMMENDATIONS") m /\
    first_suffix
      (begins_with (is_marker glyph_recommendations (u "RECOMMENDATIONS")))
      pre (m ++ ld ++ body) /\
    is_lead ld body /\
    obj_get
      (parseAgentResponse
         (glyph_recommendations ++ u "recommendations: rest " ++ glyph_risk
          ++ u " RISK_PREDICTOR: low"))
      "recommendations" = Some (trim body).
Proof.
  apply recommendations_run_to_the_end.
  apply (@has_marker_by_search
           (mkMarker "recommendations" glyph_recommendations
              (u "RECOMMENDATIONS") [])).
  - do 5 right. left. reflexivity.
  - vm_compute. discriminate.
Defined.

Lemma fold_no_match r l o :
  (forall e, In e l -> exec (snd e) r = None) ->
  fold_left (extract_key r) l o = o.
Proof.
  revert o. induction l as [|e l IH]; intros o H; simpl; [reflexivity|].
  unfold extract_key at 2. rewrite (H e (or_introl eq_refl)).
  apply IH. intros e' He'. apply H. now right.
Qed.

Lemma exec_no_marker k re r :
  In (k, re) sections ->
  (forall mk, In mk marker_table -> ~ has_marker (glyph mk) (label mk) r) ->
  exec re r = None.
Proof.
  intros Hre Hno. destruct (key_in_table k re Hre) as (mk & Hmk & <-).
  destruct (table_sections Hmk) as (Hg & Hl & T & HT & Htail).
  rewrite (sections_functional Hre HT).
  exact (@exec_section_none _ _ _ _ r Htail Hg (upper_head_solid _ Hl)
           (Hno mk Hmk)).
Qed.

Lemma glyph_lead mk :
  In mk marker_table ->
  exists c g, glyph mk = c :: g /\ (c = 0xD83D \/ c = 0xD83E)%N.
Proof.
  intros H. repeat (destruct H as [<-|H]); try contradiction;
    eexists; eexists; (split; [reflexivity|]);
    first [left; reflexivity | right; reflexivity].
Qed.

(** X5: a reply that holds neither of the code units U+D83D and U+D83E,
    with which the six glyphs begin (a reply without emoji, say), gives
    six empty strings, whatever labels it holds: the labels alone start
    no section. *)
Theorem parse_without_glyphs_is_empty (r : jsstring) :
  Forall (fun c => c <> 0xD83D /\ c <> 0xD83E)%N r ->
  parseAgentResponse r = agents0.
Proof.
  intros Hr. apply fold_no_match. intros [k re] He. cbn [snd].
  apply (exec_no_marker k re r He). intros mk Hmk Hm.
  destruct (glyph_lead mk Hmk) as (c & g & Eg & Hc).
  destruct Hm as (pre & s & -> & mkr & t & -> & ws & lab & -> & _).
  rewrite Eg in Hr. apply Forall_app in Hr. destruct Hr as [_ Hr].
  simpl in Hr. inversion Hr as [|? ? [H1 H2] _]; subst.
  destruct Hc; contradiction.
Qed.

Lemma parse_without_glyphs_is_empty_witness :
  parseAgentResponse
    (u "SYMPTOM_ANALYZER: cough RISK_PREDICTOR: low RECOMMENDATIONS: rest")
  = agents0.
Proof.
  apply parse_without_glyphs_is_empty.
  repeat (apply Forall_cons; [split; discriminate|]). apply Forall_nil.
Defined.

Lemma find_marker_skip g l pre s :
  (forall p1 p2, pre = p1 ++ p2 -> p2 <> [] ->
     marker_end g l (p2 ++ s) = None) ->
  find_marker g l (pre ++ s) = find_marker g l s.
Proof.
  induction pre as [|c pre IH]; intros H; [reflexivity|].
  change ((c :: pre) ++ s) with (c :: (pre ++ s)). cbn [find_marker].
  assert (H0 : marker_end g l (c :: (pre ++ s)) = None).
  { apply (H [] (c :: pre) eq_refl). discriminate. }
  rewrite H0.
  apply IH. intros p1 p2 E Hne. apply (H (c :: p1) p2); [|exact Hne].
  now rewrite E.
Qed.

(** X6: text in front of the sections does not count: if no start marker
    of a key begins inside a preamble [pre], the value of the key for
    [pre ++ s] is its value for [s]. *)
Theorem preamble_is_ignored (mk : marker) (pre s : jsstring) :
  In mk marker_table ->
  (forall p1 p2, pre = p1 ++ p2 -> p2 <> [] ->
     ~ begins_with (is_marker (glyph mk) (label mk)) (p2 ++ s)) ->
  obj_get (parseAgentResponse (pre ++ s)) (key mk) =
  obj_get (parseAgentResponse s) (key mk).
Proof.
  intros Hmk Hpre. destruct (table_sections Hmk) as (Hg & Hl & T & HT & Htail).
  rewrite !(fun r => parse_get r HT). unfold section_value.
  rewrite !(fun r => exec_section (glyph mk) r Htail (upper_head_solid _ Hl)).
  rewrite find_marker_skip; [reflexivity|].
  intros p1 p2 E Hne.
  destruct (marker_end (glyph mk) (label mk) (p2 ++ s)) eqn:Em; [|reflexivity].
  exfalso. apply (Hpre p1 p2 E Hne).
  apply (begins_marker_iff (p2 ++ s) Hg (upper_head_solid _ Hl)). congruence.
Qed.

(** No start marker begins inside [pre] in front of [s]. *)
Fixpoint no_marker_inside (g l pre s : jsstring) : bool :=
  match pre with
  | [] => true
  | _ :: pre' =>
      match marker_end g l (pre ++ s) with
      | Some _ => false
      | None => no_marker_inside g l pre' s
      end
  end.

Lemma no_marker_inside_spec mk pre s :
  In mk marker_table ->
  no_marker_inside (glyph mk) (label mk) pre s = true ->
  forall p1 p2, pre = p1 ++ p2 -> p2 <> [] ->
    ~ begins_with (is_marker (glyph mk) (label mk)) (p2 ++ s).
Proof.
  intros Hmk. destruct (table_sections Hmk) as (Hg & Hl & _).
  induction pre as [|c pre IH]; intros H p1 p2 E Hne.
  - symmetry in E. apply app_eq_nil in E. tauto.
  - cbn [no_marker_inside] in H.
    destruct (marker_end (glyph mk) (label mk) ((c :: pre) ++ s)) eqn:Em;
      [discriminate|].
    destruct p1 as [|c1 p1]; simpl in E.
    + subst p2. intros Hb.
      apply (begins_marker_iff _ Hg (upper_head_solid _ Hl)) in Hb. congruence.
    + injection E as _ E. now apply (IH H p1 p2).
Qed.

Lemma preamble_is_ignored_witness :
  obj_get
    (parseAgentResponse (u "Here is the SYMPTOM_ANALYZER report: " ++ reply_six))
    "symptom" =
  obj_get (parseAgentResponse reply_six) "symptom".
Proof.
  apply (preamble_is_ignored symptom_marker).
  - left. reflexivity.
  - apply no_marker_inside_spec; [left; reflexivity|].
    vm_compute. reflexivity.
Defined.

(* ================================================================== *)
(** * Replies in the format the prompt asks for *)

(** The code units with which the six glyphs begin. *)
Definition lead_surrogate (c : code_unit) : Prop :=
  (c = 0xD83D \/ c = 0xD83E)%N.

(** A text without emoji lead units and without the glyph or label word
    of a section, in any letter case. *)
Definition plain (t : jsstring) : Prop :=
  Forall (fun c => ~ lead_surrogate c) t /\
  forall x w y, t = x ++ w ++ y -> ~ is_stop stops_symptom w.

(** The head of a section as the prompt writes it: glyph, a space, the
    label, a colon. *)
Definition header (mk : marker) : jsstring :=
  glyph mk ++ u " " ++ label mk ++ u ":".

(** A section: its head and its text. *)
Definition written (mk : marker) (t : jsstring) : jsstring :=
  header mk ++ t.

(** No start marker of [mk] begins inside [a], whatever follows. *)
Definition skippable (mk : marker) (a : jsstring) : Prop :=
  forall p1 p2 s, a = p1 ++ p2 -> p2 <> [] ->
    marker_end (glyph mk) (label mk) (p2 ++ s) = None.

(** What may follow a section of [mk]: nothing, or text that begins with an
    emoji lead unit and with a stop word of [mk]. *)
Definition closes (mk : marker) (b : jsstring) : Prop :=
  b = [] \/
  (exists c b', b = c :: b' /\ lead_surrogate c) /\
  stop_here true (stops mk) b = true.

(** [w] and [a] differ at a place both have. *)
Fixpoint clash (w a : jsstring) : bool :=
  match w, a with
  | c :: w', x :: a' =>
      if CharSetMatches true (CsChar c) x then clash w' a' else true
  | _, _ => false
  end.

Fixpoint all_suffixes_clash (w a : jsstring) : bool :=
  match a with
  | [] => true
  | _ :: a' => clash w a && all_suffixes_clash w a'
  end.

Lemma clash_strip w a s : clash w a = true -> strip true w (a ++ s) = None.
Proof.
  revert a. induction w as [|c w IH]; intros [|x a] H; try discriminate H.
  cbn [clash] in H. cbn [app strip].
  destruct (CharSetMatches true (CsChar c) x); [now apply IH|reflexivity].
Qed.

Lemma all_suffixes_clash_spec w a :
  all_suffixes_clash w a = true ->
  forall p1 p2 s, a = p1 ++ p2 -> p2 <> [] -> strip true w (p2 ++ s) = None.
Proof.
  induction a as [|x a IH]; intros H p1 p2 s E Hne.
  - symmetry in E. apply app_eq_nil in E. tauto.
  - cbn [all_suffixes_clash] in H. apply andb_true_iff in H.
    destruct H as [H1 H2]. destruct p1 as [|y p1]; simpl in E.
    + subst p2. now apply clash_strip.
    + injection E as _ E. now apply (IH H2 p1 p2).
Qed.

Lemma Canonicalize_lead c : lead_surrogate c -> Canonicalize true c = c.
Proof. intros [-> | ->]; reflexivity. Qed.

Lemma Canonicalize_to_lead x c :
  lead_surrogate c -> Canonicalize true x = c -> x = c.
Proof.
  intros Hc E. unfold Canonicalize in E.
  destruct (true && (97 <=? x)%N && (x <=? 122)%N) eqn:Ex; [|exact E].
  cbn [andb] in Ex. apply andb_true_iff in Ex. destruct Ex as [E1 E2].
  apply N.leb_le in E1, E2. destruct Hc as [-> | ->]; lia.
Qed.

Lemma lead_not_matched c x :
  lead_surrogate c -> ~ lead_surrogate x ->
  CharSetMatches true (CsChar c) x = false.
Proof.
  intros Hc Hx. unfold CharSetMatches. rewrite (Canonicalize_lead c Hc).
  apply N.eqb_neq. intros E. apply Hx.
  now rewrite (Canonicalize_to_lead x c Hc E).
Qed.

Lemma skippable_app mk a1 a2 :
  skippable mk a1 -> skippable mk a2 -> skippable mk (a1 ++ a2).
Proof.
  intros H1 H2 p1 p2 s E Hne. symmetry in E. apply app_eq_app in E.
  destruct E as (l & [[-> ->]|[-> ->]]).
  - apply (H2 l p2 s eq_refl Hne).
  - destruct l as [|c l].
    + cbn [app] in *. apply (H2 [] a2 s eq_refl Hne).
    + rewrite <- app_assoc. apply (H1 p1 (c :: l) (a2 ++ s) eq_refl).
      discriminate.
Qed.

Lemma skippable_text mk t :
  In mk marker_table -> Forall (fun c => ~ lead_surrogate c) t ->
  skippable mk t.
Proof.
  intros Hmk Ht p1 p2 s -> Hne. apply Forall_app in Ht. destruct Ht as [_ Ht].
  destruct p2 as [|x p2]; [contradiction|]. inversion Ht as [|? ? Hx _]; subst.
  destruct (glyph_lead mk Hmk) as (c & g & Eg & Hc).
  unfold marker_end. rewrite Eg. cbn [app strip].
  now rewrite (lead_not_matched c x Hc Hx).
Qed.

Lemma skippable_header i j e1 e2 :
  nth_error marker_table i = Some e1 ->
  nth_error marker_table j = Some e2 -> i < j ->
  skippable e2 (header e1).
Proof.
  intros Hi Hj Hlt p1 p2 s E Hne.
  assert (C : all_suffixes_clash (glyph e2) (header e1) = true).
  { table_index i Hi; table_index j Hj; try lia; reflexivity. }
  unfold marker_end.
  now rewrite (all_suffixes_clash_spec _ _ C p1 p2 s E Hne).
Qed.

Lemma skippable_written i j e1 e2 t :
  nth_error marker_table i = Some e1 ->
  nth_error marker_table j = Some e2 -> i < j -> plain t ->
  skippable e2 (written e1 t).
Proof.
  intros Hi Hj Hlt [Ht _]. apply skippable_app.
  - exact (skippable_header i j e1 e2 Hi Hj Hlt).
  - apply skippable_text; [exact (nth_error_In _ _ Hj)|exact Ht].
Qed.

Lemma stop_kinds mk st :
  In mk marker_table -> In st (stops mk) ->
  In st stops_symptom /\
  (Forall (fun c => (c < 128)%N) st \/
   exists c g, st = c :: g /\ lead_surrogate c).
Proof.
  intros Hmk Hst.
  repeat (destruct Hmk as [<-|Hmk]; [cbn [stops] in Hst|]);
    try contradiction;
    repeat (destruct Hst as [<-|Hst];
            [split;
             [repeat (first [left; reflexivity | right])
             |first [left; solve [repeat (apply Forall_cons; [reflexivity|]);
                                  apply Forall_nil]
                    |right; eexists; eexists;
                     split; [reflexivity|
                       first [left; reflexivity | right; reflexivity]]]]|]);
    contradiction.
Qed.

Lemma lead_not_space c : lead_surrogate c -> isWhiteSpace c = false.
Proof. intros [-> | ->]; reflexivity. Qed.

Lemma no_stop_in_plain mk t b p1 p2 :
  In mk marker_table -> plain t -> closes mk b ->
  t = p1 ++ p2 -> p2 <> [] ->
  stop_here true (stops mk) (p2 ++ b) = false.
Proof.
  intros Hmk [Hlead Hword] Hb Et Hne.
  destruct (stop_here true (stops mk) (p2 ++ b)) eqn:S; [exfalso|reflexivity].
  apply stop_here_iff in S. destruct S as [S|(a & r' & E & st & Hst & Ha)].
  { apply app_eq_nil in S. tauto. }
  destruct (stop_kinds mk st Hmk Hst) as (Hsym & Hkind).
  symmetry in E. apply app_eq_app in E.
  destruct E as (l & [[-> ->]|[-> ->]]).
  - destruct l as [|c l'].
    + rewrite app_nil_r in Ha.
      apply (Hword p1 p2 []); [now rewrite app_nil_r|now exists st].
    + assert (Hc : lead_surrogate c).
      { destruct Hb as [Hb|[(c0 & b0 & Eb & Hc0) _]]; [discriminate Hb|].
        injection Eb as <- _. exact Hc0. }
      unfold same_letters in Ha. apply Forall2_app_inv_l in Ha.
      destruct Ha as (s1 & s2 & H1 & H2 & ->).
      inversion H2 as [|? wc ? s2' Ec _]; subst.
      pose proof (Canonicalize_lead c Hc) as Cc. rewrite Cc in Ec. clear Cc.
      destruct Hkind as [Hascii|(g0 & g & Eg & Hg0)].
      * apply Forall_app in Hascii. destruct Hascii as [_ Hascii].
        inversion_clear Hascii as [|? ? Hwc _].
        unfold Canonicalize in Ec.
        destruct (true && (97 <=? wc)%N && (wc <=? 122)%N);
          destruct Hc as [-> | ->]; lia.
      * destruct p2 as [|x0 p2']; [contradiction|].
        inversion H1 as [|? y0 ? s1' Ex _]; subst.
        simpl in Eg. injection Eg as -> _.
        pose proof (Canonicalize_lead g0 Hg0) as Cg. rewrite Cg in Ex.
        apply (Canonicalize_to_lead x0 g0 Hg0) in Ex. subst x0.
        apply Forall_app in Hlead. destruct Hlead as [_ Hlead].
        inversion Hlead as [|? ? Hx _]; subst. contradiction.
  - apply (Hword p1 a l); [exact Et|now exists st].
Qed.

Lemma find_marker_here g l s s3 :
  marker_end g l s = Some s3 -> find_marker g l s = Some s3.
Proof. intros H. destruct s; cbn [find_marker]; now rewrite H. Qed.

Lemma dropWhile_app_solid p t b :
  (forall c b', b = c :: b' -> p c = false) ->
  dropWhile p (t ++ b) = dropWhile p t ++ b.
Proof.
  intros Hb. induction t as [|x t IH]; cbn [app dropWhile].
  - now apply dropWhile_solid_head.
  - destruct (p x); [exact IH|reflexivity].
Qed.

Lemma first_stop_skip (P : jsstring -> bool) d b :
  (forall p1 p2, d = p1 ++ p2 -> p2 <> [] -> P (p2 ++ b) = false) ->
  b = [] \/ P b = true ->
  first_stop P (d ++ b) = b.
Proof.
  intros Hd Hb. induction d as [|x d IH].
  - cbn [app]. destruct b as [|c b']; [reflexivity|].
    destruct Hb as [Hb|Hb]; [discriminate Hb|]. cbn [first_stop].
    now rewrite Hb.
  - cbn [app first_stop].
    change (x :: d ++ b) with ((x :: d) ++ b).
    rewrite (Hd [] (x :: d) eq_refl) by discriminate.
    apply IH. intros p1 p2 E Hne. apply (Hd (x :: p1) p2); [|exact Hne].
    now rewrite E.
Qed.

Lemma dropWhile_suffix p t :
  exists a, t = a ++ dropWhile p t.
Proof. destruct (dropWhile_split p t) as (a & E & _). eauto. Qed.

Lemma trim_trimStart t : trim (dropWhile isWhiteSpace t) = trim t.
Proof.
  unfold trim, trimStart. f_equal. apply dropWhile_solid_head.
  intros c t' E. exact (dropWhile_head _ _ E).
Qed.

(** A section written in the prompt's format, after text in which its
    marker does not begin and before the next section or the end, with no
    stop word in its text: the value of its key is its text, trimmed. *)
Lemma section_in_context_gen mk a t b :
  In mk marker_table -> skippable mk a -> closes mk b ->
  (forall p1 p2, t = p1 ++ p2 -> p2 <> [] ->
     stop_here true (stops mk) (p2 ++ b) = false) ->
  obj_get (parseAgentResponse (a ++ written mk t ++ b)) (key mk) =
  Some (trim t).
Proof.
  intros Hmk Ha Hb Ht.
  destruct (table_sections Hmk) as (Hg & Hl & T & HT & Htail).
  pose proof (upper_head_solid _ Hl) as Hs.
  rewrite (parse_get _ HT). unfold section_value.
  rewrite (exec_section (glyph mk) _ Htail Hs).
  rewrite find_marker_skip by (intros p1 p2 E Hne; now apply (Ha p1 p2)).
  assert (Em : marker_end (glyph mk) (label mk) (written mk t ++ b) =
               Some (58%N :: t ++ b)).
  { unfold written, header.
    replace ((glyph mk ++ u " " ++ label mk ++ u ":") ++ t)
      with ((glyph mk ++ u " " ++ label mk) ++ 58%N :: t)
      by (rewrite <- !app_assoc; reflexivity).
    rewrite <- app_assoc. apply (marker_end_of _ Hs).
    exists (u " "), (label mk). split; [reflexivity|].
    split; [repeat constructor|apply same_letters_refl]. }
  rewrite (find_marker_here _ _ _ _ Em). cbv zeta.
  assert (Eb : body_start (58%N :: t ++ b) = dropWhile isWhiteSpace t ++ b).
  { unfold body_start, skip_colon. rewrite N.eqb_refl.
    apply dropWhile_app_solid. intros c b' E.
    destruct Hb as [Hb|[(c0 & b0 & E0 & Hc0) _]]; [subst b; discriminate E|].
    rewrite E in E0. injection E0 as <- _. now apply lead_not_space. }
  rewrite Eb.
  assert (Ef : first_stop (stop_here true (stops mk))
                 (dropWhile isWhiteSpace t ++ b) = b).
  { apply first_stop_skip.
    - intros p1 p2 E Hne. destruct (dropWhile_suffix isWhiteSpace t) as (w & Ew).
      apply (Ht (w ++ p1) p2); [|exact Hne].
      rewrite Ew at 1. rewrite E. now rewrite app_assoc.
    - destruct Hb as [Hb|[_ Hb]]; [now left|now right]. }
  rewrite Ef. cbn [capture]. rewrite between_app, trim_nil_if.
  now rewrite trim_trimStart.
Qed.

Lemma section_in_context mk a t b :
  In mk marker_table -> skippable mk a -> plain t -> closes mk b ->
  obj_get (parseAgentResponse (a ++ written mk t ++ b)) (key mk) =
  Some (trim t).
Proof.
  intros Hmk Ha Ht Hb. apply section_in_context_gen; try assumption.
  intros p1 p2 E Hne. exact (no_stop_in_plain mk t b p1 p2 Hmk Ht Hb E Hne).
Qed.

Lemma closes_written i j e1 e2 t rest :
  nth_error marker_table i = Some e1 ->
  nth_error marker_table j = Some e2 -> i < j ->
  closes e1 (written e2 t ++ rest).
Proof.
  intros Hi Hj Hlt. right.
  destruct (glyph_lead e2 (nth_error_In _ _ Hj)) as (c & g & Eg & Hc).
  destruct (later_stops i j e1 e2 Hi Hj Hlt) as (Hin & _).
  unfold written, header. rewrite <- !app_assoc. split.
  - rewrite Eg. eexists; eexists. split; [reflexivity|exact Hc].
  - apply stop_here_iff. right. eexists; eexists. split; [reflexivity|].
    exists (glyph e2). split; [exact Hin|apply same_letters_refl].
Qed.

Lemma object_ext (o o' : object) :
  keys o = keys o' -> NoDup (keys o) ->
  (forall k, In k (keys o) -> obj_get o k = obj_get o' k) ->
  o = o'.
Proof.
  revert o'. induction o as [|[k v] o IH]; intros [|[k' v'] o'] Hk Hnd Hget;
    try discriminate Hk; [reflexivity|].
  simpl in Hk. injection Hk as <- Hk. simpl in Hnd.
  inversion Hnd as [|? ? Hnot Hnd']; subst.
  pose proof (Hget k (or_introl eq_refl)) as H0. simpl in H0.
  rewrite String.eqb_refl in H0. injection H0 as <-. f_equal.
  apply IH; [exact Hk|exact Hnd'|].
  intros k0 Hk0. pose proof (Hget k0 (or_intror Hk0)) as H1. simpl in H1.
  destruct (String.eqb_spec k k0) as [->|]; [contradiction|exact H1].
Qed.

(** The six sections, each written as the prompt asks, one after
    another. *)
Definition written_reply (t1 t2 t3 t4 t5 t6 : jsstring) : jsstring :=
  List.concat
    (map (fun mt => written (fst mt) (snd mt))
       (combine marker_table [t1; t2; t3; t4; t5; t6])).

Ltac in_context A B :=
  match goal with
  | |- obj_get (parseAgentResponse ?r) _ = _ =>
      replace r with (A ++ B) by (rewrite <- ?app_assoc; reflexivity)
  end.

(** X7: reading back what the prompt asks for.  For a reply made of the
    six sections in order, each written as glyph, space, label, colon and
    its text, where the texts of the first five sections are plain (no
    emoji lead unit, no glyph and no label word of a section) and the text
    of the last one is any text, [parseAgentResponse] returns exactly the
    six texts, trimmed. *)
Theorem parse_written_reply (t1 t2 t3 t4 t5 t6 : jsstring) :
  plain t1 -> plain t2 -> plain t3 -> plain t4 -> plain t5 ->
  parseAgentResponse (written_reply t1 t2 t3 t4 t5 t6) =
  [ ("symptom"%string, trim t1); ("risk"%string, trim t2);
    ("fraud"%string, trim t3); ("security"%string, trim t4);
    ("coordinator"%string, trim t5); ("recommendations"%string, trim t6) ].
Proof.
  intros P1 P2 P3 P4 P5.
  set (e1 := symptom_marker).
  set (e2 := mkMarker "risk" glyph_risk (u "RISK_PREDICTOR") stops_risk).
  set (e3 := mkMarker "fraud" glyph_fraud (u "FRAUD_DETECTOR") stops_fraud).
  set (e4 := mkMarker "security" glyph_security (u "SECURITY_GUARDIAN")
               stops_security).
  set (e5 := mkMarker "coordinator" glyph_coordinator
               (u "COORDINATOR_INSIGHTS") stops_coordinator).
  set (e6 := mkMarker "recommendations" glyph_recommendations
               (u "RECOMMENDATIONS") []).
  assert (N1 : nth_error marker_table 0 = Some e1) by reflexivity.
  assert (N2 : nth_error marker_table 1 = Some e2) by reflexivity.
  assert (N3 : nth_error marker_table 2 = Some e3) by reflexivity.
  assert (N4 : nth_error marker_table 3 = Some e4) by reflexivity.
  assert (N5 : nth_error marker_table 4 = Some e5) by reflexivity.
  assert (N6 : nth_error marker_table 5 = Some e6) by reflexivity.
  change (written_reply t1 t2 t3 t4 t5 t6)
    with (written e1 t1 ++ written e2 t2 ++ written e3 t3 ++ written e4 t4
          ++ written e5 t5 ++ written e6 t6 ++ []).
  set (w1 := written e1 t1). set (w2 := written e2 t2).
  set (w3 := written e3 t3). set (w4 := written e4 t4).
  set (w5 := written e5 t5).
  assert (S12 : skippable e2 w1)
    by (apply (skippable_written 0 1 _ _ _ N1 N2); [lia|assumption]).
  assert (S13 : skippable e3 w1)
    by (apply (skippable_written 0 2 _ _ _ N1 N3); [lia|assumption]).
  assert (S14 : skippable e4 w1)
    by (apply (skippable_written 0 3 _ _ _ N1 N4); [lia|assumption]).
  assert (S15 : skippable e5 w1)
    by (apply (skippable_written 0 4 _ _ _ N1 N5); [lia|assumption]).
  assert (S16 : skippable e6 w1)
    by (apply (skippable_written 0 5 _ _ _ N1 N6); [lia|assumption]).
  assert (S23 : skippable e3 w2)
    by (apply (skippable_written 1 2 _ _ _ N2 N3); [lia|assumption]).
  assert (S24 : skippable e4 w2)
    by (apply (skippable_written 1 3 _ _ _ N2 N4); [lia|assumption]).
  assert (S25 : skippable e5 w2)
    by (apply (skippable_written 1 4 _ _ _ N2 N5); [lia|assumption]).
  assert (S26 : skippable e6 w2)
    by (apply (skippable_written 1 5 _ _ _ N2 N6); [lia|assumption]).
  assert (S34 : skippable e4 w3)
    by (apply (skippable_written 2 3 _ _ _ N3 N4); [lia|assumption]).
  assert (S35 : skippable e5 w3)
    by (apply (skippable_written 2 4 _ _ _ N3 N5); [lia|assumption]).
  assert (S36 : skippable e6 w3)
    by (apply (skippable_written 2 5 _ _ _ N3 N6); [lia|assumption]).
  assert (S45 : skippable e5 w4)
    by (apply (skippable_written 3 4 _ _ _ N4 N5); [lia|assumption]).
  assert (S46 : skippable e6 w4)
    by (apply (skippable_written 3 5 _ _ _ N4 N6); [lia|assumption]).
  assert (S56 : skippable e6 w5)
    by (apply (skippable_written 4 5 _ _ _ N5 N6); [lia|assumption]).
  assert (S0 : forall mk, skippable mk []).
  { intros mk p1 p2 s E. symmetry in E. apply app_eq_nil in E. tauto. }
  apply object_ext.
  - rewrite parse_keys. reflexivity.
  - rewrite parse_keys. exact sections_nodup.
  - intros k Hk. rewrite parse_keys in Hk. cbn in Hk.
    destruct Hk as [<-|[<-|[<-|[<-|[<-|[<-|[]]]]]]];
      cbn [obj_get String.eqb Ascii.eqb Bool.eqb].
    + in_context (@nil code_unit)
        (w1 ++ (w2 ++ w3 ++ w4 ++ w5 ++ written e6 t6 ++ [])).
      apply (section_in_context e1); auto.
      * now left.
      * apply (closes_written 0 1 _ _ _ _ N1 N2); lia.
    + in_context w1 (w2 ++ (w3 ++ w4 ++ w5 ++ written e6 t6 ++ [])).
      apply (section_in_context e2); auto.
      * exact (nth_error_In _ _ N2).
      * apply (closes_written 1 2 _ _ _ _ N2 N3); lia.
    + in_context (w1 ++ w2) (w3 ++ (w4 ++ w5 ++ written e6 t6 ++ [])).
      apply (section_in_context e3); auto.
      * exact (nth_error_In _ _ N3).
      * repeat (apply skippable_app; [assumption|]); assumption.
      * apply (closes_written 2 3 _ _ _ _ N3 N4); lia.
    + in_context (w1 ++ w2 ++ w3) (w4 ++ (w5 ++ written e6 t6 ++ [])).
      apply (section_in_context e4); auto.
      * exact (nth_error_In _ _ N4).
      * repeat (apply skippable_app; [assumption|]); assumption.
      * apply (closes_written 3 4 _ _ _ _ N4 N5); lia.
    + in_context (w1 ++ w2 ++ w3 ++ w4) (w5 ++ (written e6 t6 ++ [])).
      apply (section_in_context e5); auto.
      * exact (nth_error_In _ _ N5).
      * repeat (apply skippable_app; [assumption|]); assumption.
      * apply (closes_written 4 5 _ _ _ _ N5 N6); lia.
    + in_context (w1 ++ w2 ++ w3 ++ w4 ++ w5) (written e6 t6 ++ []).
      apply (section_in_context_gen e6).
      * exact (nth_error_In _ _ N6).
      * repeat (apply skippable_app; [assumption|]); assumption.
      * now left.
      * intros p1 p2 E Hne. rewrite app_nil_r.
        destruct p2; [contradiction|reflexivity].
Qed.

(** A check of [plain] that runs. *)
Fixpoint no_stop_from (ws : list jsstring) (t : jsstring) : bool :=
  match t with
  | [] => true
  | _ :: t' =>
      negb (existsb
              (fun w =>
                 match strip true w t with Some _ => true | None => false end)
              ws)
      && no_stop_from ws t'
  end.

Definition is_plain (t : jsstring) : bool :=
  forallb (fun c => negb ((c =? 0xD83D) || (c =? 0xD83E))%N) t
  && no_stop_from stops_symptom t.

Lemma is_plain_plain t : is_plain t = true -> plain t.
Proof.
  unfold is_plain. intros H. apply andb_true_iff in H. destruct H as [H1 H2].
  split.
  - apply Forall_forall. intros c Hc [-> | ->];
      apply (proj1 (forallb_forall _ _) H1) in Hc; discriminate Hc.
  - clear H1. induction t as [|c t IH]; intros x w y E (st & Hst & Hw).
    + symmetry in E. apply app_eq_nil in E. destruct E as [_ E].
      apply app_eq_nil in E. destruct E as [-> _]. inversion Hw; subst.
      exact (stops_nonempty symptom_marker [] (or_introl eq_refl) Hst eq_refl).
    + cbn [no_stop_from] in H2. apply andb_true_iff in H2.
      destruct H2 as [Hhere Hrest]. destruct x as [|c' x'].
      * cbn [app] in E. apply negb_true_iff in Hhere.
        assert (Hex : existsb
                  (fun w0 => match strip true w0 (c :: t) with
                             | Some _ => true | None => false end)
                  stops_symptom = true).
        { apply existsb_exists. exists st. split; [exact Hst|].
          rewrite E. now rewrite (strip_same y Hw). }
        congruence.
      * injection E as _ E. apply (IH Hrest x' w y E). now exists st.
Qed.

Lemma parse_written_reply_witness :
  parseAgentResponse
    (written_reply (u " dry cough, no fever ") (u " low ") (u " none")
       (u " nothing shared") (u " the two agree ")
       (u " rest; see " ++ glyph_risk ++ u " RISK_PREDICTOR above ")) =
  [ ("symptom"%string, trim (u " dry cough, no fever "));
    ("risk"%string, trim (u " low "));
    ("fraud"%string, trim (u " none"));
    ("security"%string, trim (u " nothing shared"));
    ("coordinator"%string, trim (u " the two agree "));
    ("recommendations"%string,
     trim (u " rest; see " ++ glyph_risk ++ u " RISK_PREDICTOR above ")) ].
Proof.
  apply parse_written_reply; apply is_plain_plain; vm_compute; reflexivity.
Defined.

(* ================================================================== *)
(** * Further properties of the handlers *)

Definition is_log (e : event) : bool :=
  match e with EvConsoleError _ _ => true | _ => false end.

(** The number of [console.error] calls of a run. *)
Definition logs (tr : list event) : nat := List.length (filter is_log tr).


(** The turns [analyze] sends are the system prompt and the prompt that
    was built. *)
Lemma analyze_messages_built NumberToString req prompt :
  analyze_prompt NumberToString req = Return prompt ->
  analyze_messages NumberToString req =
  [ mkMessage (u "system") (VStr systemPrompt);
    mkMessage (u "user") (VStr prompt) ].
Proof.
  intros H. unfold analyze_messages, prompt_text. now rewrite H.
Qed.

(** X9: the analyze handler answers 200 exactly when the request has a
    body with truthy [symptoms] and [age], the user prompt can be built
    (the conversion to a string of the name, the code, the symptoms, the
    age and the history does not throw), the model call with the system
    prompt and that prompt returns a string, and the insert of the row
    built from it reports no error; the body of the answer then holds
    the model's reply, the sections extracted from it, and the
    [caseId]. *)
Theorem analyze_succeeds_iff
    (NumberToString : number -> jsstring) (w : world) (req : request)
    (resp : response) :
  (snd (run w (analyze NumberToString req)) = Return resp /\
   status resp = 200)
  <->
  (is_nullish (body req) = false /\
   ToBoolean (field req "symptoms") = true /\
   ToBoolean (field req "age") = true /\
   exists prompt s data error,
     userPrompt NumberToString (field req "symptoms") (field req "age")
       (field req "history") (field req "name") (field req "userCode")
       (file req) = Return prompt /\
     snd (run w (callOllama
                   [ mkMessage (u "system") (VStr systemPrompt);
                     mkMessage (u "user") (VStr prompt) ])) =
       Return (VStr s) /\
     on_insert w "cases"
       (analyze_case NumberToString req (parseAgentResponse s) (VStr s)) =
       StoreResult data error /\
     ToBoolean error = false /\
     resp =
       mkResponse 200
         (VObj [ ("fullResponse"%string, VStr s);
                 ("agents"%string, agents_value (parseAgentResponse s));
                 ("caseId"%string,
                  or_else (member_opt (first_opt data) "id") VNull) ])).
Proof.
  fold (analyze_prompt NumberToString req).
  rewrite run_analyze. split.
  - intros [H Hst]. revert H.
    destruct (is_nullish (body req)); [intros [= <-]; discriminate Hst|].
    destruct (ToBoolean (field req "symptoms")); cbn [negb orb];
      [|intros [= <-]; discriminate Hst].
    destruct (ToBoolean (field req "age")); cbn [negb];
      [|intros [= <-]; discriminate Hst].
    destruct (analyze_prompt NumberToString req) as [prompt|e0] eqn:Eq;
      [|intros [= <-]; discriminate Hst].
    rewrite (analyze_messages_built _ _ _ Eq).
    destruct (ollama_outcome _) as [full|e] eqn:Eo;
      [|intros [= <-]; discriminate Hst].
    destruct (parseAgentResponse_value full) as [agents|e] eqn:Ep;
      [|intros [= <-]; discriminate Hst].
    destruct (parse_value_inv _ Ep) as (s & -> & ->). cbv zeta.
    destruct (on_insert w "cases" _) as [name msg|data error] eqn:Ei;
      [intros [= <-]; discriminate Hst|].
    destruct (ToBoolean error) eqn:Ee; [intros [= <-]; discriminate Hst|].
    intros [= <-]. repeat (split; [reflexivity|]).
    exists prompt, s, data, error.
    rewrite callOllama_outcome. repeat split; assumption.
  - intros (-> & -> & -> & prompt & s & data & error & Eq & Eo & Ei & Ee & ->).
    rewrite callOllama_outcome in Eo.
    rewrite Eq, (analyze_messages_built _ _ _ Eq), Eo.
    cbn [negb orb parseAgentResponse_value]. cbv zeta.
    rewrite Ei, Ee. split; reflexivity.
Qed.

Lemma analyze_succeeds_iff_witness :
  snd (run (constant_world (model_says reply_six) (stored_as 7))
         (analyze print_number request_cough_30)) =
    Return (mkResponse 200
              (VObj [ ("fullResponse"%string, VStr reply_six);
                      ("agents"%string,
                       agents_value (parseAgentResponse reply_six));
                      ("caseId"%string,
                       or_else
                         (member_opt
                            (first_opt
                               (VArr [VObj [("id"%string,
                                             VNum (number_of_Z 7 false))]]))
                            "id")
                         VNull) ])) /\
  status
    (mkResponse 200
       (VObj [ ("fullResponse"%string, VStr reply_six);
               ("agents"%string, agents_value (parseAgentResponse reply_six));
               ("caseId"%string,
                or_else
                  (member_opt
                     (first_opt
                        (VArr [VObj [("id"%string,
                                      VNum (number_of_Z 7 false))]]))
                     "id")
                  VNull) ])) = 200.
Proof.
  apply (proj2 (analyze_succeeds_iff print_number
                  (constant_world (model_says reply_six) (stored_as 7))
                  request_cough_30 _)).
  split; [reflexivity|]. split; [reflexivity|]. split; [reflexivity|].
  eexists. exists reply_six,
    (VArr [VObj [("id"%string, VNum (number_of_Z 7 false))]]), VNull.
  split; [vm_compute; reflexivity|].
  split; [rewrite run_callOllama; reflexivity|].
  split; [reflexivity|]. split; reflexivity.
Defined.

(** X10: what is logged.  The analyze and chat handlers call
    [console.error] exactly once in a run that answers 500 and not at all
    in a run that answers 200 or 400; the health handler never logs, not
    even when it answers 500. *)
Theorem errors_logged_once
    (NumberToString : number -> jsstring) (w : world) (req : request) :
  (forall resp,
     snd (run w (analyze NumberToString req)) = Return resp ->
     logs (fst (run w (analyze NumberToString req))) =
     if status resp =? 500 then 1 else 0) /\
  (forall resp,
     snd (run w (chat req)) = Return resp ->
     logs (fst (run w (chat req))) = if status resp =? 500 then 1 else 0) /\
  logs (fst (run w health)) = 0.
Proof.
  split; [|split].
  - intros resp. rewrite run_analyze.
    destruct (is_nullish (body req)); [intros [= <-]; reflexivity|].
    destruct (negb (ToBoolean (field req "symptoms"))
              || negb (ToBoolean (field req "age")));
      [intros [= <-]; reflexivity|].
    destruct (analyze_prompt NumberToString req) as [prompt|e0];
      [|intros [= <-]; reflexivity].
    destruct (ollama_outcome _) as [full|e]; [|intros [= <-]; reflexivity].
    destruct (parseAgentResponse_value full) as [agents|e];
      [|intros [= <-]; reflexivity].
    cbv zeta. destruct (on_insert w "cases" _) as [name msg|data error];
      [|destruct (ToBoolean error)]; intros [= <-]; reflexivity.
  - intros resp. rewrite run_chat.
    destruct (is_nullish (body req)); [intros [= <-]; reflexivity|].
    cbv zeta. destruct (ollama_outcome _); intros [= <-]; reflexivity.
  - rewrite run_health. reflexivity.
Qed.

Lemma errors_logged_once_witness :
  logs (fst (run (constant_world (model_says reply_six)
                    (store_error (u "insert refused")))
               (analyze print_number request_cough_30))) = 1.
Proof.
  apply (proj1 (errors_logged_once print_number
                  (constant_world (model_says reply_six)
                     (store_error (u "insert refused")))
                  request_cough_30)
           (mkResponse 500 (error_body "Failed to save case to database"))).
  vm_compute. reflexivity.
Defined.

Lemma analyze_insert_valid (NumberToString : number -> jsstring) w req t row :
  In (EvInsert t row) (fst (run w (analyze NumberToString req))) ->
  is_nullish (body req) = false /\
  ToBoolean (field req "symptoms") = true /\
  ToBoolean (field req "age") = true.
Proof.
  rewrite run_analyze.
  destruct (is_nullish (body req)).
  { cbn. intros [H|[]]; discriminate H. }
  destruct (ToBoolean (field req "symptoms")); cbn [negb orb];
    [|intros []].
  destruct (ToBoolean (field req "age")); cbn [negb]; [|intros []].
  intros _. repeat split.
Qed.

(** X11: what reaches the table.  Every row the analyze handler inserts
    goes to [cases]; its [user_id] and [prescription_text] are null, its
    [symptoms] is the request's field, which is truthy, its
    [full_response] is a string, its [history] is null or truthy, its
    [prescription_flag] is UPLOADED or NONE as a file came or not, and
    each section column is null or a string that is neither empty nor
    padded with white space. *)
Theorem inserted_row_invariant
    (NumberToString : number -> jsstring) (w : world) (req : request)
    (t : string) (row : case_row) :
  In (EvInsert t row) (fst (run w (analyze NumberToString req))) ->
  t = "cases"%string /\
  user_id row = VNull /\ prescription_text row = VNull /\
  symptoms row = field req "symptoms" /\ ToBoolean (symptoms row) = true /\
  (exists s, full_response row = VStr s) /\
  (history row = VNull \/ ToBoolean (history row) = true) /\
  prescription_flag row =
    VStr (u match file req with Some _ => "UPLOADED" | None => "NONE" end) /\
  Forall
    (fun kc =>
       snd kc row = VNull \/
       exists text, snd kc row = VStr text /\ text <> [] /\ trimmed text)
    section_columns.
Proof.
  intros Hin.
  destruct (analyze_insert_valid _ _ _ _ _ Hin) as (_ & Hs & _).
  destruct (analyze_insert_inv _ _ _ _ _ Hin) as (s & _ & -> & -> & _).
  split; [reflexivity|]. split; [reflexivity|]. split; [reflexivity|].
  split; [reflexivity|]. split; [exact Hs|].
  split; [exists s; reflexivity|]. split.
  { cbn. unfold or_else. destruct (ToBoolean (field req "history")) eqn:E;
      [right; exact E|left; reflexivity]. }
  split; [reflexivity|].
  unfold section_columns.
  repeat (apply Forall_cons;
          [cbn [fst snd]; unfold analyze_case, case_of;
           cbn [symptom_analyzer risk_predictor fraud_detector
                security_guardian coordinator_insights recommendations];
           match goal with
           | |- or_else (agent _ ?k) VNull = VNull \/ _ =>
               destruct (@parse_has_key s k) as (text & Ht); [cbn; tauto|];
               rewrite (@stored_section _ _ _ Ht);
               destruct text as [|c text]; [left; reflexivity|right];
               exists (c :: text); split; [reflexivity|split; [discriminate|]];
               destruct (parse_get_inv s k (c :: text) Ht) as (re & _ & E);
               rewrite E; apply section_value_trimmed
           end|]).
  apply Forall_nil.
Qed.

(** The row of [request_cough_30] for the reply [reply_six]. *)
Definition row_cough_30 : case_row :=
  analyze_case print_number request_cough_30 (parseAgentResponse reply_six)
    (VStr reply_six).

Lemma inserted_row_invariant_witness :
  "cases"%string = "cases"%string /\
  user_id row_cough_30 = VNull /\ prescription_text row_cough_30 = VNull /\
  symptoms row_cough_30 = field request_cough_30 "symptoms" /\
  ToBoolean (symptoms row_cough_30) = true /\
  (exists s, full_response row_cough_30 = VStr s) /\
  (history row_cough_30 = VNull \/ ToBoolean (history row_cough_30) = true) /\
  prescription_flag row_cough_30 =
    VStr (u match file request_cough_30 with
            | Some _ => "UPLOADED" | None => "NONE" end) /\
  Forall
    (fun kc =>
       snd kc row_cough_30 = VNull \/
       exists text,
         snd kc row_cough_30 = VStr text /\ text <> [] /\ trimmed text)
    section_columns.
Proof.
  apply (inserted_row_invariant print_number
           (constant_world (model_says reply_six) (stored_as 7))
           request_cough_30 "cases" row_cough_30).
  rewrite run_analyze. vm_compute. right. left. reflexivity.
Defined.

(** The endpoint's answer with a [message] that has no [content]. *)
Definition model_says_nothing : fetch_reply :=
  FetchResponse
    (mkReply true []
       (Return (VObj [("message"%string, VObj [("role"%string,
                                                VStr (u "assistant"))])]))).

(** X12: a reply of the model that is not a string.  When [callOllama]
    returns a value that is not a string ([undefined] for a message
    without [content], say), the analyze handler answers 500 and writes
    nothing to the store, while the chat handler answers 200 and passes
    the value on as [reply]. *)
Theorem non_string_reply
    (NumberToString : number -> jsstring) (w : world) (req : request)
    (v : value) :
  is_nullish (body req) = false ->
  (forall s, v <> VStr s) ->
  (ToBoolean (field req "symptoms") = true ->
   ToBoolean (field req "age") = true ->
   snd (run w (callOllama (analyze_messages NumberToString req))) =
     Return v ->
   snd (run w (analyze NumberToString req)) =
     Return (mkResponse 500
               (VObj [("error"%string,
                       VStr (u "Ollama inference failed. Make sure Ollama is running."))])) /\
   store_calls (fst (run w (analyze NumberToString req))) = 0) /\
  (snd (run w (callOllama (chat_messages req))) = Return v ->
   snd (run w (chat req)) =
     Return (mkResponse 200 (VObj [("reply"%string, v)]))).
Proof.
  intros Hb Hv. split.
  - intros Hs Ha. rewrite callOllama_outcome, run_analyze, Hb, Hs, Ha.
    cbn [negb orb]. intros ->.
    destruct (analyze_prompt NumberToString req) as [prompt|e0];
      [|split; reflexivity].
    destruct v as [| | | |s| | |]; try (split; reflexivity).
    now destruct (Hv s).
  - rewrite callOllama_outcome, run_chat, Hb. cbv zeta. intros ->. reflexivity.
Qed.

Lemma non_string_reply_witness :
  snd (run (constant_world model_says_nothing (stored_as 1))
         (chat (mkRequest
                  (VObj [("caseContext"%string, VStr (u "cough"));
                         ("question"%string, VStr (u "why?"))])
                  None))) =
  Return (mkResponse 200 (VObj [("reply"%string, VUndefined)])).
Proof.
  apply (proj2 (non_string_reply print_number
                  (constant_world model_says_nothing (stored_as 1))
                  (mkRequest
                     (VObj [("caseContext"%string, VStr (u "cough"));
                            ("question"%string, VStr (u "why?"))])
                     None)
                  VUndefined eq_refl
                  (fun s H => ltac:(discriminate H)))).
  rewrite run_callOllama. reflexivity.
Defined.

Lemma parseInt10_no_digit c rest :
  isWhiteSpace c = false -> c <> 45%N -> c <> 43%N ->
  digit_value c = None ->
  parseInt10 (c :: rest) = NaN.
Proof.
  intros Hw H1 H2 Hd. unfold parseInt10, trimStart. cbn [dropWhile].
  rewrite Hw. apply N.eqb_neq in H1, H2. rewrite H1, H2.
  cbn [leading_digits]. now rewrite Hd.
Qed.

(** X13: an age that does not begin with a numeral.  When the request's
    [age] is a string whose first character is not white space, not a
    sign and not a decimal digit, every row the analyze handler inserts
    for it has [age] NaN. *)
Theorem age_without_numeral_is_NaN
    (NumberToString : number -> jsstring) (w : world) (req : request)
    (c : code_unit) (rest : jsstring) (t : string) (row : case_row) :
  field req "age" = VStr (c :: rest) ->
  isWhiteSpace c = false -> c <> 45%N -> c <> 43%N ->
  digit_value c = None ->
  In (EvInsert t row) (fst (run w (analyze NumberToString req))) ->
  age row = VNum NaN.
Proof.
  intros Ea Hw H1 H2 Hd Hin.
  destruct (analyze_insert_inv _ _ _ _ _ Hin) as (s & _ & _ & -> & _).
  unfold analyze_case, case_of, analyze_age, parseInt, str. cbn [age].
  rewrite Ea. cbn [ToString and_then].
  now rewrite (parseInt10_no_digit c rest Hw H1 H2 Hd).
Qed.

Lemma age_without_numeral_is_NaN_witness :
  age (analyze_case print_number
         (mkRequest
            (VObj [("symptoms"%string, VStr (u "cough"));
                   ("age"%string, VStr (u "thirty"))])
            None)
         (parseAgentResponse reply_six) (VStr reply_six)) = VNum NaN.
Proof.
  apply (age_without_numeral_is_NaN print_number
           (constant_world (model_says reply_six) (stored_as 7))
           (mkRequest
              (VObj [("symptoms"%string, VStr (u "cough"));
                     ("age"%string, VStr (u "thirty"))])
              None)
           116%N (u "hirty") "cases").
  - reflexivity.
  - reflexivity.
  - discriminate.
  - discriminate.
  - reflexivity.
  - rewrite run_analyze. vm_compute. right. left. reflexivity.
Defined.

(** X14: the [caseId] of a 200 answer is null or a truthy value: it is
    the [id] of the first row the insert returned, and null when the
    insert returned no row or an identifier that is falsy. *)
Theorem caseId_null_or_truthy
    (NumberToString : number -> jsstring) (w : world) (req : request)
    (resp : response) :
  snd (run w (analyze NumberToString req)) = Return resp ->
  status resp = 200 ->
  exists row data error,
    In (EvInsert "cases" row) (fst (run w (analyze NumberToString req))) /\
    on_insert w "cases" row = StoreResult data error /\
    member_opt (json_body resp) "caseId" =
      or_else (member_opt (first_opt data) "id") VNull /\
    (member_opt (json_body resp) "caseId" = VNull \/
     ToBoolean (member_opt (json_body resp) "caseId") = true).
Proof.
  rewrite run_analyze.
  destruct (is_nullish (body req)); [intros [= <-]; discriminate|].
  destruct (negb (ToBoolean (field req "symptoms"))
            || negb (ToBoolean (field req "age")));
    [intros [= <-]; discriminate|].
  destruct (analyze_prompt NumberToString req) as [prompt|e0];
    [|intros [= <-]; discriminate].
  destruct (ollama_outcome _) as [full|e]; [|intros [= <-]; discriminate].
  destruct (parseAgentResponse_value full) as [agents|e];
    [|intros [= <-]; discriminate].
  cbv zeta. destruct (on_insert w "cases" _) as [name msg|data error] eqn:Ei;
    [intros [= <-]; discriminate|].
  destruct (ToBoolean error); [intros [= <-]; discriminate|].
  intros [= <-] _. eexists; exists data, error. cbn [fst].
  split; [right; left; reflexivity|]. split; [exact Ei|].
  change (member_opt (json_body (analyze_success agents full data)) "caseId")
    with (or_else (member_opt (first_opt data) "id") VNull).
  split; [reflexivity|]. unfold or_else.
  destruct (ToBoolean (member_opt (first_opt data) "id")) eqn:E;
    [right; exact E|left; reflexivity].
Qed.

Lemma caseId_null_or_truthy_witness :
  exists row data error,
    In (EvInsert "cases" row)
       (fst (run (constant_world (model_says reply_six)
                    (StoreResult (VArr []) VNull))
               (analyze print_number request_cough_30))) /\
    on_insert
      (constant_world (model_says reply_six) (StoreResult (VArr []) VNull))
      "cases" row = StoreResult data error /\
    member_opt
      (json_body
         (mkResponse 200
            (VObj [ ("fullResponse"%string, VStr reply_six);
                    ("agents"%string,
                     agents_value (parseAgentResponse reply_six));
                    ("caseId"%string, VNull) ])))
      "caseId" = or_else (member_opt (first_opt data) "id") VNull /\
    (member_opt
       (json_body
          (mkResponse 200
             (VObj [ ("fullResponse"%string, VStr reply_six);
                     ("agents"%string,
                      agents_value (parseAgentResponse reply_six));
                     ("caseId"%string, VNull) ])))
       "caseId" = VNull \/
     ToBoolean
       (member_opt
          (json_body
             (mkResponse 200
                (VObj [ ("fullResponse"%string, VStr reply_six);
                        ("agents"%string,
                         agents_value (parseAgentResponse reply_six));
                        ("caseId"%string, VNull) ])))
          "caseId") = true).
Proof.
  apply (caseId_null_or_truthy print_number
           (constant_world (model_says reply_six)
              (StoreResult (VArr []) VNull))
           request_cough_30).
  - vm_compute. reflexivity.
  - reflexivity.
Defined.

(** X15: where the handlers call.  Every model call of the analyze and
    chat handlers is a request to the one endpoint, for the model
    [mistral], not streamed, that opens with the system turn (followed by
    one user turn in analyze, two in chat); the chat handler never calls
    the store. *)
Theorem model_requests_are_fixed
    (NumberToString : number -> jsstring) (w : world) (req : request) :
  (forall url b,
     In (EvFetch url b) (fst (run w (analyze NumberToString req))) ->
     url = u "http://127.0.0.1:11434/api/chat" /\
     model b = u "mistral" /\ stream b = false /\
     map role (messages b) = [u "system"; u "user"]) /\
  (forall url b,
     In (EvFetch url b) (fst (run w (chat req))) ->
     url = u "http://127.0.0.1:11434/api/chat" /\
     model b = u "mistral" /\ stream b = false /\
     map role (messages b) = [u "system"; u "user"; u "user"]) /\
  store_calls (fst (run w (chat req))) = 0.
Proof.
  split; [|split].
  - intros url b. rewrite run_analyze.
    destruct (is_nullish (body req)).
    { cbn. intros [H|[]]; discriminate H. }
    destruct (negb (ToBoolean (field req "symptoms"))
              || negb (ToBoolean (field req "age"))); [intros []|].
    assert (K : forall tail,
               (forall e, In e tail -> is_model_call e = false) ->
               In (EvFetch url b) (analyze_call NumberToString req :: tail) ->
               url = u "http://127.0.0.1:11434/api/chat" /\
               model b = u "mistral" /\ stream b = false /\
               map role (messages b) = [u "system"; u "user"]).
    { intros tail Ht [H|H].
      - injection H as <- <-. repeat split.
      - apply Ht in H. discriminate H. }
    destruct (analyze_prompt NumberToString req) as [prompt|e0].
    2: { cbn. intros [H|[]]; discriminate H. }
    destruct (ollama_outcome _) as [full|e].
    2: { apply K. intros e0 [<-|[]]. reflexivity. }
    destruct (parseAgentResponse_value full) as [agents|e].
    2: { apply K. intros e0 [<-|[]]. reflexivity. }
    cbv zeta. destruct (on_insert w "cases" _) as [name msg|data error];
      [|destruct (ToBoolean error)]; apply K; intros e0 H;
      repeat (destruct H as [<-|H]; [reflexivity|]); contradiction.
  - intros url b. rewrite run_chat.
    destruct (is_nullish (body req)).
    { cbn. intros [H|[]]; discriminate H. }
    cbv zeta. destruct (ollama_outcome _); cbn [fst]; intros H;
      repeat (destruct H as [H|H]; try discriminate H);
      try contradiction; injection H as <- <-; repeat split.
  - rewrite run_chat.
    destruct (is_nullish (body req)); [reflexivity|].
    cbv zeta. destruct (ollama_outcome _); reflexivity.
Qed.

(** X16: how [callOllama] ends.  It makes one request.  It returns a
    value exactly when the response is ok, its body is JSON, and the
    [message] of that JSON can be read for its [content]; a response that
    is not ok throws an [Error] with the response text as message, whether
    or not the body is JSON; a failed request throws what [fetch] threw. *)
Theorem callOllama_outcomes (w : world) (msgs : list message) :
  fst (run w (callOllama msgs)) =
    [EvFetch OLLAMA_URL (mkChatRequest OLLAMA_MODEL msgs false)] /\
  (forall v,
     snd (run w (callOllama msgs)) = Return v <->
     exists resp data message,
       on_fetch w OLLAMA_URL (mkChatRequest OLLAMA_MODEL msgs false) =
         FetchResponse resp /\
       ok resp = true /\ json resp = Return data /\
       member data "message" = Return message /\
       member message "content" = Return v) /\
  (forall resp,
     on_fetch w OLLAMA_URL (mkChatRequest OLLAMA_MODEL msgs false) =
       FetchResponse resp ->
     ok resp = false ->
     snd (run w (callOllama msgs)) = Throw (JsError "Error" (text resp))) /\
  (forall name msg,
     on_fetch w OLLAMA_URL (mkChatRequest OLLAMA_MODEL msgs false) =
       FetchRejected name msg ->
     snd (run w (callOllama msgs)) = Throw (JsError name msg)).
Proof.
  rewrite run_callOllama. cbn [fst snd]. unfold ollama_request.
  split; [reflexivity|]. split; [|split].
  - intros v. unfold ollama_outcome. split.
    + destruct (on_fetch w OLLAMA_URL _) as [name msg|resp];
        [discriminate|].
      destruct (ok resp) eqn:Eo; cbn [negb]; [|discriminate].
      destruct (json resp) as [data|e] eqn:Ej; [|discriminate].
      destruct (member data "message") as [message|e] eqn:Em; [|discriminate].
      intros Ec. exists resp, data, message. repeat split; assumption.
    + intros (resp & data & message & -> & -> & -> & Em & Ec).
      cbn [negb]. now rewrite Em.
  - intros resp -> Eo. unfold ollama_outcome. now rewrite Eo.
  - intros name msg ->. reflexivity.
Qed.

Lemma callOllama_outcomes_witness :
  snd (run (constant_world
              (FetchResponse
                 (mkReply false (u "model not found")
                    (Return (VObj [("message"%string,
                                    VObj [("content"%string,
                                           VStr (u "hi"))])]))))
              (stored_as 1))
         (callOllama [])) =
  Throw (JsError "Error" (u "model not found")).
Proof.
  apply (proj1 (proj2 (proj2
           (callOllama_outcomes
              (constant_world
                 (FetchResponse
                    (mkReply false (u "model not found")
                       (Return (VObj [("message"%string,
                                       VObj [("content"%string,
                                              VStr (u "hi"))])]))))
                 (stored_as 1))
              [])))
           (mkReply false (u "model not found")
              (Return (VObj [("message"%string,
                              VObj [("content"%string, VStr (u "hi"))])])))).
  - reflexivity.
  - reflexivity.
Defined.

Lemma model_requests_are_fixed_witness :
  u "http://127.0.0.1:11434/api/chat" = u "http://127.0.0.1:11434/api/chat" /\
  model (ollama_request (chat_messages (mkRequest (VObj []) None))) =
    u "mistral" /\
  stream (ollama_request (chat_messages (mkRequest (VObj []) None))) = false /\
  map role
    (messages (ollama_request (chat_messages (mkRequest (VObj []) None)))) =
    [u "system"; u "user"; u "user"].
Proof.
  apply (proj1 (proj2
           (model_requests_are_fixed print_number
              (constant_world (model_says (u "hello")) (stored_as 1))
              (mkRequest (VObj []) None)))).
  rewrite run_chat. left. reflexivity.
Defined.

Lemma template_app l1 l2 :
  template (l1 ++ l2) = template l1 ++ flat_map (fun l => l ++ nl) l2.
Proof. unfold template. now rewrite flat_map_app, app_assoc. Qed.

(** X17: the prompts and the extractor agree on the markers.  Every user
    prompt the analyze handler builds ends with the six section heads
    (glyph, space, label, colon), one per line, in the order of the
    extractor's table, and each head begins with a start marker that the
    extractor recognises for that key; the system prompt lists the same
    six glyph and label pairs in the same order. *)
Theorem prompts_name_the_table_markers
    (NumberToString : number -> jsstring)
    (symptoms age history name userCode : value) (file : option upload) :
  (forall prompt,
     userPrompt NumberToString symptoms age history name userCode file =
       Return prompt ->
     exists pre,
       prompt = pre ++ flat_map (fun mk => header mk ++ nl) marker_table) /\
  (exists pre post,
     systemPrompt =
     pre ++ flat_map (fun mk => glyph mk ++ u " " ++ label mk ++ nl)
              marker_table ++ post) /\
  Forall
    (fun mk =>
       marker_end (glyph mk) (label mk) (header mk) = Some (u ":") /\
       is_marker (glyph mk) (label mk) (glyph mk ++ u " " ++ label mk))
    marker_table.
Proof.
  split; [|split].
  - intros prompt H. unfold userPrompt in H.
    apply and_then_Return in H. destruct H as (name_text & _ & H).
    apply and_then_Return in H. destruct H as (code_text & _ & H).
    apply and_then_Return in H. destruct H as (symptoms_text & _ & H).
    apply and_then_Return in H. destruct H as (age_text & _ & H).
    apply and_then_Return in H. destruct H as (history_text & _ & H).
    injection H as <-.
    exists (template
              [ u "PATIENT_NAME: " ++ name_text;
                u "MEDIMIND_CODE: " ++ code_text;
                [];
                u "SYMPTOMS: " ++ symptoms_text;
                u "AGE: " ++ age_text;
                u "MEDICAL_HISTORY: " ++ history_text;
                u "PRESCRIPTION: " ++
                  match file with
                  | Some f => u "Uploaded (" ++ originalname f ++ u ")"
                  | None => u "None"
                  end;
                [];
                u "Respond EXACTLY in this format:";
                [] ]).
    change (flat_map (fun mk => header mk ++ nl) marker_table)
      with (flat_map (fun l => l ++ nl)
              [ glyph_symptom ++ u " SYMPTOM_ANALYZER:";
                glyph_risk ++ u " RISK_PREDICTOR:";
                glyph_fraud ++ u " FRAUD_DETECTOR:";
                glyph_security ++ u " SECURITY_GUARDIAN:";
                glyph_coordinator ++ u " COORDINATOR_INSIGHTS:";
                glyph_recommendations ++ u " RECOMMENDATIONS:" ]).
    rewrite <- template_app. reflexivity.
  - exists (template [u "You are MediMind, a SINGLE LLM acting as SIX agents:";
                      []]),
      (flat_map (fun l => l ++ nl)
         [ [];
           u "Rules:";
           u "- NO doctor / hospital / clinic suggestions";
           u "- NO medication or prescriptions";
           u "- Only explanations, risks, lifestyle & monitoring";
           u "- Output EXACTLY six sections with emojis" ]).
    vm_compute. reflexivity.
  - repeat (apply Forall_cons;
            [split;
             [vm_compute; reflexivity
             |exists (u " "); eexists; split; [reflexivity|];
              split; [repeat constructor|apply same_letters_refl]]|]).
    apply Forall_nil.
Qed.

Lemma prompts_name_the_table_markers_witness :
  exists prompt pre,
    userPrompt print_number (VStr (u "cough")) (VStr (u "30")) VUndefined
      VUndefined VUndefined None = Return prompt /\
    prompt = pre ++ flat_map (fun mk => header mk ++ nl) marker_table.
Proof.
  destruct (proj1 (prompts_name_the_table_markers print_number
                     (VStr (u "cough")) (VStr (u "30")) VUndefined
                     VUndefined VUndefined None)
              _ eq_refl) as (pre & E).
  eexists. exists pre. split; [reflexivity|exact E].
Defined.

Example ToString_samples :
  ToString print_number
    (VArr [VStr (u "a"); VNull; VArr [VStr (u "b"); VBool true]]) =
    Return (u "a,,b,true") /\
  ToString print_number (VObj [("x"%string, VStr (u "cough"))]) =
    Return (u "[object Object]") /\
  ToString print_number (VObj [("toString"%string, VNum (number_of_Z 1 false))]) =
    Throw TypeError_primitive /\
  ToString print_number (VBare [("x"%string, VStr (u "cough"))]) =
    Throw TypeError_primitive /\
  ToString print_number
    (VArr [VStr (u "a"); VBare [("x"%string, VStr (u "cough"))]]) =
    Throw TypeError_primitive.
Proof. vm_compute. repeat split. Qed.

(** Induction on values through the elements of arrays. *)
Lemma value_array_ind (P : value -> Prop) :
  (forall v, (forall items, v <> VArr items) -> P v) ->
  (forall items, Forall P items -> P (VArr items)) ->
  forall v, P v.
Proof.
  intros P_other P_array. fix IH 1. intros v.
  destruct v as [| |b|x|s|items|fields|fields];
    try (apply P_other; intros items' H; discriminate H).
  apply P_array. induction items as [|x items IHitems].
  - apply Forall_nil.
  - apply Forall_cons; [apply IH|exact IHitems].
Qed.

Lemma join_throw (element : value -> outcome jsstring) items e :
  Forall (fun x => forall e, element x = Throw e -> e = TypeError_primitive)
    items ->
  join element items = Throw e -> e = TypeError_primitive.
Proof.
  induction 1 as [|x items Hx Hitems IHitems]; [discriminate|].
  cbn [join].
  destruct (match x with
            | VUndefined | VNull => Return []
            | _ => element x
            end) as [sx|ex] eqn:Ex.
  - destruct items as [|y items]; [discriminate|].
    destruct (join element (y :: items)) as [rest|er]; [discriminate|].
    intros [= <-]. apply IHitems. reflexivity.
  - intros [= <-]. destruct x; try discriminate Ex; apply (Hx _ Ex).
Qed.

(** Every conversion to a string that throws throws the same TypeError. *)
Lemma ToString_throw NumberToString v :
  forall e, ToString NumberToString v = Throw e -> e = TypeError_primitive.
Proof.
  induction v as [v Hv|items IH] using value_array_ind.
  - destruct v as [| |[|]|x|s|items|fields|fields]; cbn; intros e H;
      try discriminate H.
    + now destruct (Hv items).
    + destruct (lookup "toString" fields); [|discriminate H].
      now injection H as <-.
    + now injection H as <-.
  - intros e. cbn [ToString]. now apply join_throw.
Qed.

Lemma userPrompt_throw NumberToString symptoms age history name userCode
    file e :
  userPrompt NumberToString symptoms age history name userCode file =
    Throw e ->
  e = TypeError_primitive.
Proof.
  unfold userPrompt, str.
  repeat match goal with
         | |- and_then ?o _ = Throw _ -> _ =>
             let E := fresh "E" in
             destruct o eqn:E; cbn [and_then];
               [|intros [= <-]; now apply (ToString_throw _ _ _ E)]
         end.
  discriminate.
Qed.

(** A value whose conversion to a string throws: an object without a
    prototype, or an object with an own [toString]. *)
Definition unprintable (v : value) : bool :=
  match v with
  | VBare _ => true
  | VObj fields =>
      match lookup "toString" fields with Some _ => true | None => false end
  | _ => false
  end.

Lemma unprintable_throws NumberToString v d :
  unprintable v = true ->
  ToString NumberToString (or_else v d) = Throw TypeError_primitive.
Proof.
  destruct v as [| |b|x|s|items|fields|fields]; try discriminate;
    unfold or_else; cbn.
  - now destruct (lookup "toString" fields).
  - reflexivity.
Qed.

(** X18: a field that cannot be put into the prompt.  When the request
    passes the validation and its [name], [userCode], [symptoms], [age] or
    [history] is an object without a prototype (as the multipart parser
    builds for a field name with brackets) or an object with an own
    [toString], the template of the user prompt throws: the analyze
    handler logs the TypeError and answers 500 with the message of a
    failed inference, without having called the model or the store. *)
Theorem unprintable_field_answers_500
    (NumberToString : number -> jsstring) (w : world) (req : request) :
  is_nullish (body req) = false ->
  ToBoolean (field req "symptoms") = true ->
  ToBoolean (field req "age") = true ->
  existsb (fun k => unprintable (field req k))
    ["name"; "userCode"; "symptoms"; "age"; "history"]%string = true ->
  run w (analyze NumberToString req) =
    ([EvConsoleError [] (inr TypeError_primitive)],
     Return (mkResponse 500
               (VObj [("error"%string,
                       VStr (u "Ollama inference failed. Make sure Ollama is running."))]))) /\
  model_calls (fst (run w (analyze NumberToString req))) = 0 /\
  store_calls (fst (run w (analyze NumberToString req))) = 0.
Proof.
  intros Hb Hs Ha Hu.
  assert (R : run w (analyze NumberToString req) =
              ([EvConsoleError [] (inr TypeError_primitive)],
               Return inference_failed)).
  { rewrite run_analyze, Hb, Hs, Ha. cbn [negb orb].
    destruct (analyze_prompt NumberToString req) as [prompt|e] eqn:Ep.
    - exfalso. unfold analyze_prompt, userPrompt, str in Ep.
      apply and_then_Return in Ep. destruct Ep as (s1 & E1 & Ep).
      apply and_then_Return in Ep. destruct Ep as (s2 & E2 & Ep).
      apply and_then_Return in Ep. destruct Ep as (s3 & E3 & Ep).
      apply and_then_Return in Ep. destruct Ep as (s4 & E4 & Ep).
      apply and_then_Return in Ep. destruct Ep as (s5 & E5 & _).
      cbn [existsb] in Hu. rewrite !orb_true_iff in Hu.
      destruct Hu as [H|[H|[H|[H|[H|H]]]]]; try discriminate H.
      + now rewrite (unprintable_throws NumberToString _ _ H) in E1.
      + now rewrite (unprintable_throws NumberToString _ _ H) in E2.
      + pose proof (unprintable_throws NumberToString _ VNull H) as T.
        unfold or_else in T. rewrite Hs in T. now rewrite T in E3.
      + pose proof (unprintable_throws NumberToString _ VNull H) as T.
        unfold or_else in T. rewrite Ha in T. now rewrite T in E4.
      + now rewrite (unprintable_throws NumberToString _ _ H) in E5.
    - unfold analyze_prompt in Ep.
      now rewrite (userPrompt_throw _ _ _ _ _ _ _ _ Ep). }
  rewrite R. repeat split.
Qed.

(** A multipart request whose field is named [symptoms[x]]. *)
Definition request_bracket_field : request :=
  mkRequest
    (VBare [("symptoms"%string, VBare [("x"%string, VStr (u "cough"))]);
            ("age"%string, VStr (u "30"))])
    None.

Lemma unprintable_field_answers_500_witness :
  run (constant_world (model_says reply_six) (stored_as 7))
    (analyze print_number request_bracket_field) =
    ([EvConsoleError [] (inr TypeError_primitive)],
     Return (mkResponse 500
               (VObj [("error"%string,
                       VStr (u "Ollama inference failed. Make sure Ollama is running."))]))) /\
  model_calls
    (fst (run (constant_world (model_says reply_six) (stored_as 7))
            (analyze print_number request_bracket_field))) = 0 /\
  store_calls
    (fst (run (constant_world (model_says reply_six) (stored_as 7))
            (analyze print_number request_bracket_field))) = 0.
Proof.
  apply (unprintable_field_answers_500 print_number
           (constant_world (model_says reply_six) (stored_as 7))
           request_bracket_field);
    reflexivity.
Defined.
